(** * The trading orchestration engine of the CSGO2 trading bot

    A shallow embedding of the Go services that hold the order lifecycle,
    the inventory lock, the price store, the market analyzer, the arbitrage
    strategy and the websocket broadcast hub, with the properties of their
    design document stated and settled against the code.
    The last part of the file, [Further properties of the code], covers
    what the design document leaves out: the other indicators of the market
    analyzer, the strategy lifecycle, the trade executor, the latest-price
    and trend queries, the two middlewares and the loop of the hub.  Where
    two requests can be served at the same time on state without a lock,
    the code is also modelled statement by statement, and the runs in which
    the statements of two requests alternate are followed.

    Conventions of the embedding.
    - A Go [float64] is Rocq's primitive binary64 [float]: the arithmetic and
      the comparisons are the IEEE 754 ones the Go code runs.
    - A Go [uint] key is an [N], a Go [int] a [Z], a [time.Time] a [Z]
      (an instant on some clock), a Go [string] a [string].
    - A GORM table is the list of its rows in insertion order.  The store is
      total: a query or a write on the in-memory tables never fails, so the
      error branches of the source that only a database failure reaches are
      not reachable here; each is marked where it occurs.
    - A Go map is ranged over in an unspecified order: a function that ranges
      over a map takes the list of its entries in the order of that
      iteration, and the theorems quantify over every such order. *)

From Stdlib Require Import ZArith List Floats Bool Lia Permutation Ascii.
From stdpp Require Import gmap strings list pretty.

Local Open Scope string_scope.
Local Open Scope list_scope.

(** ** float64 *)

Module Float64.

(** Go's conversion [float64(n)] of an integer: the nearest binary64,
    ties to even. *)
Definition of_int (z : Z) : float :=
  SF2Prim (binary_normalize prec emax z 0 false).

(** The literals of the source that are not binary64 values, as the
    nearest binary64 the Go compiler picks for them. *)
Definition c_0_025 : float := 0x1.999999999999ap-6%float.
Definition c_0_1 : float := 0x1.999999999999ap-4%float.

(** Go's [a > b] and [a >= b] on floats. *)
Definition gtb (a b : float) : bool := PrimFloat.ltb b a.
Definition geb (a b : float) : bool := PrimFloat.leb b a.

End Float64.

(** ** Market analyzer: csgo2-trading-bot/backend/services/market/market_service.go *)

Module Market.

Local Open Scope float_scope.

(** The running sum [sum := 0.0; for _, p := range prices { sum += p }]. *)
Definition sum (prices : list float) : float :=
  fold_left (fun s p => s + p) prices 0.

Definition calculateAverage (prices : list float) : float :=
  match prices with
  | [] => 0
  | _ => sum prices / Float64.of_int (Z.of_nat (length prices))
  end.

Definition calculateStdDev (prices : list float) : float :=
  match prices with
  | [] => 0
  | _ =>
      let avg := calculateAverage prices in
      let sum := fold_left (fun s p => s + (p - avg) * (p - avg)) prices 0 in
      sum / Float64.of_int (Z.of_nat (length prices))
  end.

(** [returns[i-1] = (prices[i] - prices[i-1]) / prices[i-1]] for
    [1 <= i < len(prices)]. *)
Fixpoint returns (prices : list float) : list float :=
  match prices with
  | prev :: (cur :: _) as rest => (cur - prev) / prev :: returns rest
  | _ => []
  end.

Definition calculateVolatility (prices : list float) : float :=
  if (length prices <? 2)%nat then 0
  else calculateStdDev (returns prices).

(** The design document's words, for comparison with [calculateStdDev]:
    the population standard deviation is the square root of the mean of
    the squared deviations from the mean. *)
Definition meanSquaredDeviation (xs : list float) : float :=
  let mean := sum xs / Float64.of_int (Z.of_nat (length xs)) in
  sum (List.map (fun x => (x - mean) * (x - mean)) xs)
    / Float64.of_int (Z.of_nat (length xs)).

Definition populationStdDev_spec (xs : list float) : float :=
  PrimFloat.sqrt (meanSquaredDeviation xs).

Definition volatility_spec (prices : list float) : float :=
  populationStdDev_spec (returns prices).


(** *** The other statistics of [GetMarketAnalysis] *)

Definition findMin (prices : list float) : float :=
  match prices with
  | [] => 0
  | first :: _ => fold_left (fun min p => if p <? min then p else min) prices first
  end.

Definition findMax (prices : list float) : float :=
  match prices with
  | [] => 0
  | first :: _ => fold_left (fun max p => if Float64.gtb p max then p else max) prices first
  end.

(** The loop [for i := len(prices) - period; i < len(prices); i++] visits
    the last [period] prices, and nothing when [period <= 0]. *)
Definition lastPrices (prices : list float) (period : Z) : list float :=
  skipn (Z.to_nat (Z.of_nat (length prices) - period)) prices.

(** [len(prices) - period] is the difference as written: this is the
    function for the periods at which Go's difference does not wrap, which
    the lengths of slices and the constants of the caller are; at a period
    so far below zero that it wraps, the code indexes below zero and
    panics. *)
Definition calculateMA (prices : list float) (period : Z) : float :=
  if (Z.of_nat (length prices) <? period)%Z then 0
  else sum (lastPrices prices period) / Float64.of_int period.

(** [prices[i] - prices[i-1]] along a slice. *)
Fixpoint changes (prices : list float) : list float :=
  match prices with
  | prev :: (cur :: _) as rest => (cur - prev) :: changes rest
  | _ => []
  end.

(** The two accumulators of the loop of [calculateRSI]. *)
Definition gainsLosses (cs : list float) : float * float :=
  fold_left (fun '(gains, losses) change =>
               if Float64.gtb change 0 then (gains + change, losses)
               else (gains, losses - change))
            cs (0, 0).

(** [period + 1] is the sum as written: this is the function for a
    [period] below the largest [int], [2^63 - 1], where Go's sum does not
    wrap (the one caller passes 14); the theorems on it carry that bound. *)
Definition calculateRSI (prices : list float) (period : Z) : float :=
  if (Z.of_nat (length prices) <? period + 1)%Z then 50
  else
    (* the changes at the indices [len - period .. len - 1] *)
    let '(gains, losses) := gainsLosses (changes (lastPrices prices (period + 1))) in
    let avgGain := gains / Float64.of_int period in
    let avgLoss := losses / Float64.of_int period in
    if avgLoss =? 0 then 100
    else
      let rs := avgGain / avgLoss in
      100 - (100 / (1 + rs)).

(** The counters of [isUptrend] and [isDowntrend]. *)
Fixpoint upCount (prices : list float) : nat :=
  match prices with
  | prev :: (cur :: _) as rest =>
      ((if Float64.gtb cur prev then 1 else 0) + upCount rest)%nat
  | _ => 0%nat
  end.

Fixpoint downCount (prices : list float) : nat :=
  match prices with
  | prev :: (cur :: _) as rest =>
      ((if PrimFloat.ltb cur prev then 1 else 0) + downCount rest)%nat
  | _ => 0%nat
  end.

Definition isUptrend (prices : list float) : bool :=
  if (length prices <? 2)%nat then false
  else (length prices / 2 <? upCount prices)%nat.

Definition isDowntrend (prices : list float) : bool :=
  if (length prices <? 2)%nat then false
  else (length prices / 2 <? downCount prices)%nat.

(** The trend of [GetMarketAnalysis], from the last seven prices. *)
Definition trendOf (prices : list float) : string :=
  if (7 <=? length prices)%nat then
    let recent := skipn (length prices - 7) prices in
    if isUptrend recent then "bullish"
    else if isDowntrend recent then "bearish"
    else "neutral"
  else "neutral".

(** The analysis map, one field per key; [None] is the empty map returned
    when the item has no price in the last thirty days.  [prices] is the
    history the query returns, oldest first. *)
Record Analysis : Type := mkAnalysis {
  min_price : float;
  max_price : float;
  avg_price : float;
  std_dev : float;
  volatility : float;
  ma_7 : float;
  ma_14 : float;
  ma_30 : float;
  rsi : float;
  trend : string
}.

Definition GetMarketAnalysis (prices : list float) : option Analysis :=
  match prices with
  | [] => None
  | _ =>
      Some (mkAnalysis (findMin prices) (findMax prices)
                       (calculateAverage prices) (calculateStdDev prices)
                       (calculateVolatility prices)
                       (calculateMA prices 7) (calculateMA prices 14)
                       (calculateMA prices 30) (calculateRSI prices 14)
                       (trendOf prices))
  end.

End Market.

(** ** Order lifecycle and inventory ledger:
    csgo2-trading-bot/backend/services/trading/trading_service.go *)

Module Trading.

Local Open Scope float_scope.

(** A Go [(value, error)] result; the error carries its message. *)
Inductive result (A : Type) : Type :=
| Ok (a : A)
| Err (msg : string).
Arguments Ok {A} a.
Arguments Err {A} msg.

(** *** Models (the columns the service reads or writes).
    [gorm.Model] contributes the primary key and [DeletedAt]; only
    inventory rows are ever deleted, so only they carry [DeletedAt]. *)

Record Order : Type := mkOrder {
  o_ID : N;
  o_UserID : N;
  o_ItemID : N;
  o_Type : string;            (* buy, sell *)
  o_Status : string;          (* pending, completed, cancelled, failed *)
  o_Price : float;
  o_Quantity : Z;
  o_Platform : string;
  o_ExecutedAt : option Z;
  o_FailedReason : string
}.

Record Inventory : Type := mkInventory {
  inv_ID : N;
  inv_DeletedAt : option Z;
  inv_UserID : N;
  inv_ItemID : N;
  inv_Quantity : Z;
  inv_BuyPrice : float;
  inv_Platform : string;
  inv_AcquiredAt : Z;
  inv_Tradable : bool;
  inv_Locked : bool
}.

Record Transaction : Type := mkTransaction {
  tx_ID : N;
  tx_UserID : N;
  tx_OrderID : N;
  tx_Type : string;
  tx_Amount : float;
  tx_Fee : float;
  tx_Profit : float;
  tx_Platform : string;
  tx_CompletedAt : Z
}.

Record DB : Type := mkDB {
  orders : list Order;
  inventories : list Inventory;
  transactions : list Transaction
}.

(** [config.TradingConfig]: the two switches the executors read. *)
Record TradingConfig : Type := mkTradingConfig {
  BuffAPI_Enabled : bool;
  YouPin_Enabled : bool
}.

(** *** The GORM calls the service makes *)

(** The key an auto-increment column gives the next row. *)
Definition nextID (ids : list N) : N := N.succ (fold_right N.max 0%N ids).

Definition with_ID (o : Order) (id : N) : Order :=
  mkOrder id (o_UserID o) (o_ItemID o) (o_Type o) (o_Status o) (o_Price o)
          (o_Quantity o) (o_Platform o) (o_ExecutedAt o) (o_FailedReason o).

Definition with_Status (o : Order) (status : string) : Order :=
  mkOrder (o_ID o) (o_UserID o) (o_ItemID o) (o_Type o) status (o_Price o)
          (o_Quantity o) (o_Platform o) (o_ExecutedAt o) (o_FailedReason o).

Definition with_ExecutedAt (o : Order) (t : option Z) : Order :=
  mkOrder (o_ID o) (o_UserID o) (o_ItemID o) (o_Type o) (o_Status o) (o_Price o)
          (o_Quantity o) (o_Platform o) t (o_FailedReason o).

Definition with_FailedReason (o : Order) (reason : string) : Order :=
  mkOrder (o_ID o) (o_UserID o) (o_ItemID o) (o_Type o) (o_Status o) (o_Price o)
          (o_Quantity o) (o_Platform o) (o_ExecutedAt o) reason.

Definition with_Locked (i : Inventory) (locked : bool) : Inventory :=
  mkInventory (inv_ID i) (inv_DeletedAt i) (inv_UserID i) (inv_ItemID i)
              (inv_Quantity i) (inv_BuyPrice i) (inv_Platform i)
              (inv_AcquiredAt i) (inv_Tradable i) locked.

Definition with_DeletedAt (i : Inventory) (t : option Z) : Inventory :=
  mkInventory (inv_ID i) t (inv_UserID i) (inv_ItemID i)
              (inv_Quantity i) (inv_BuyPrice i) (inv_Platform i)
              (inv_AcquiredAt i) (inv_Tradable i) (inv_Locked i).

(** [s.db.Create(&order)]: the row gets the next key and is appended; the
    caller's struct receives the key. *)
Definition db_CreateOrder (order : Order) (db : DB) : DB * Order :=
  let order := with_ID order (nextID (List.map o_ID (orders db))) in
  (mkDB (orders db ++ [order]) (inventories db) (transactions db), order).

(** [s.db.First(&order, orderID)]. *)
Definition db_FirstOrder (orderID : N) (db : DB) : result Order :=
  match List.find (fun o => (o_ID o =? orderID)%N) (orders db) with
  | Some o => Ok o
  | None => Err "record not found"
  end.

(** [s.db.Save(order)]: every column of the row with the struct's key is
    overwritten with the struct's fields; a struct whose key matches no row
    is inserted under its key.  (The structs the service saves come from
    [db.Create] or [db.First] and carry their key; a struct with the zero
    key, which [Save] would insert under the next key, is never saved.) *)
Definition db_SaveOrder (order : Order) (db : DB) : DB :=
  if existsb (fun o => (o_ID o =? o_ID order)%N) (orders db)
  then mkDB (List.map (fun o => if (o_ID o =? o_ID order)%N then order else o)
                      (orders db))
            (inventories db) (transactions db)
  else mkDB (orders db ++ [order]) (inventories db) (transactions db).

(** A row a query sees: not soft-deleted. *)
Definition live (i : Inventory) : bool :=
  match inv_DeletedAt i with None => true | Some _ => false end.

(** [Where("user_id = ? AND item_id = ?", userID, itemID)] on inventories. *)
Definition ownedBy (userID itemID : N) (i : Inventory) : bool :=
  live i && (inv_UserID i =? userID)%N && (inv_ItemID i =? itemID)%N.

(** *** Helpers of the service *)

Definition checkUserBalance (userID : N) (amount : float) : bool := true.

Definition checkInventory (userID itemID : N) (quantity : Z) (db : DB) : bool :=
  let count :=
    length (List.filter
              (fun i => ownedBy userID itemID i
                        && (quantity <=? inv_Quantity i)%Z
                        && negb (inv_Locked i))
              (inventories db)) in
  (0 <? count)%nat.

Definition setLocked (userID itemID : N) (locked : bool) (db : DB) : DB :=
  mkDB (orders db)
       (List.map (fun i => if ownedBy userID itemID i then with_Locked i locked
                           else i)
                 (inventories db))
       (transactions db).

(** [Update("locked", true)] on every row of the owner and item; the
    quantity is not part of the condition.  The returned error is the
    database's, [nil] here. *)
Definition lockInventory (userID itemID : N) (quantity : Z) (db : DB) : DB :=
  setLocked userID itemID true db.

Definition unlockInventory (userID itemID : N) (quantity : Z) (db : DB) : DB :=
  setLocked userID itemID false db.

Definition addToInventory (now : Z) (order : Order) (db : DB) : DB :=
  let inventory :=
    mkInventory (nextID (List.map inv_ID (inventories db))) None
                (o_UserID order) (o_ItemID order) (o_Quantity order)
                (o_Price order) (o_Platform order) now true false in
  mkDB (orders db) (inventories db ++ [inventory]) (transactions db).

(** [Where(user, item).Delete(&models.Inventory{})]: a soft delete of every
    row of the owner and item. *)
Definition removeFromInventory (now : Z) (order : Order) (db : DB) : DB :=
  mkDB (orders db)
       (List.map (fun i => if ownedBy (o_UserID order) (o_ItemID order) i
                           then with_DeletedAt i (Some now) else i)
                 (inventories db))
       (transactions db).

(** [Select("buy_price").Scan(&buyPrice)] into a [float64] that starts at
    zero: each row found is scanned into the variable in turn, so it ends
    with the value of the last row, and stays zero when there is none. *)
Definition scanBuyPrice (userID itemID : N) (db : DB) : float :=
  fold_left (fun buyPrice i => inv_BuyPrice i)
            (List.filter (ownedBy userID itemID) (inventories db)) 0.

Definition recordTransaction (now : Z) (order : Order) (db : DB) : DB :=
  let amount := o_Price order * Float64.of_int (o_Quantity order) in
  let fee := amount * Float64.c_0_025 in
  let profit :=
    if (o_Type order =? "sell")%string then
      let buyPrice := scanBuyPrice (o_UserID order) (o_ItemID order) db in
      (o_Price order - buyPrice) * Float64.of_int (o_Quantity order) - fee
    else 0 in
  let transaction :=
    mkTransaction (nextID (List.map tx_ID (transactions db)))
                  (o_UserID order) (o_ID order) (o_Type order)
                  amount fee profit (o_Platform order) now in
  mkDB (orders db) (inventories db) (transactions db ++ [transaction]).

(** The platform calls, as the source has them. *)
Definition executeBuffBuy (order : Order) : option string := None.
Definition executeBuffSell (order : Order) : option string := None.
Definition executeYouPinBuy (order : Order) : option string := None.
Definition executeYouPinSell (order : Order) : option string := None.
Definition executeSteamBuy (order : Order) : option string := None.
Definition executeSteamSell (order : Order) : option string := None.

(** The [switch order.Platform] of the two executors: the error, if any. *)
Definition platformBuy (cfg : TradingConfig) (order : Order) : option string :=
  if (o_Platform order =? "buff")%string then
    if BuffAPI_Enabled cfg then executeBuffBuy order else None
  else if (o_Platform order =? "youpin")%string then
    if YouPin_Enabled cfg then executeYouPinBuy order else None
  else if (o_Platform order =? "steam")%string then executeSteamBuy order
  else Some "unsupported platform".

Definition platformSell (cfg : TradingConfig) (order : Order) : option string :=
  if (o_Platform order =? "buff")%string then
    if BuffAPI_Enabled cfg then executeBuffSell order else None
  else if (o_Platform order =? "youpin")%string then
    if YouPin_Enabled cfg then executeYouPinSell order else None
  else if (o_Platform order =? "steam")%string then executeSteamSell order
  else Some "unsupported platform".

(** *** Executors.  [order] is the struct the creating call handed to the
    goroutine; the executor never reads the row back. *)

Definition executeBuyOrder (cfg : TradingConfig) (now : Z) (order : Order)
    (db : DB) : DB :=
  match platformBuy cfg order with
  | Some err =>
      let order := with_FailedReason (with_Status order "failed") err in
      db_SaveOrder order db
  | None =>
      let order := with_ExecutedAt (with_Status order "completed") (Some now) in
      let db := addToInventory now order db in
      let db := recordTransaction now order db in
      db_SaveOrder order db
  end.

Definition executeSellOrder (cfg : TradingConfig) (now : Z) (order : Order)
    (db : DB) : DB :=
  match platformSell cfg order with
  | Some err =>
      let order := with_FailedReason (with_Status order "failed") err in
      let db := unlockInventory (o_UserID order) (o_ItemID order)
                                (o_Quantity order) db in
      db_SaveOrder order db
  | None =>
      let order := with_ExecutedAt (with_Status order "completed") (Some now) in
      let db := removeFromInventory now order db in
      let db := recordTransaction now order db in
      db_SaveOrder order db
  end.

(** A goroutine started by [go s.executeBuyOrder(&order)] or
    [go s.executeSellOrder(&order)] and not yet run. *)
Inductive Task : Type :=
| TaskBuy (order : Order)
| TaskSell (order : Order).

Definition runTask (cfg : TradingConfig) (now : Z) (t : Task) (db : DB) : DB :=
  match t with
  | TaskBuy order => executeBuyOrder cfg now order db
  | TaskSell order => executeSellOrder cfg now order db
  end.

(** *** Entry points.  A creation returns the store, and either the error
    or the order together with the goroutine it started. *)

Definition CreateBuyOrder (userID itemID : N) (price : float) (quantity : Z)
    (platform : string) (db : DB) : DB * result (Order * Task) :=
  let totalCost := price * Float64.of_int quantity in
  if negb (checkUserBalance userID totalCost) then
    (db, Err "insufficient balance")
  else
    let order := mkOrder 0 userID itemID "buy" "pending" price quantity
                         platform None "" in
    (* [db.Create] cannot fail here *)
    let '(db, order) := db_CreateOrder order db in
    (db, Ok (order, TaskBuy order)).

Definition CreateSellOrder (userID itemID : N) (price : float) (quantity : Z)
    (platform : string) (db : DB) : DB * result (Order * Task) :=
  if negb (checkInventory userID itemID quantity db) then
    (db, Err "insufficient inventory")
  else
    (* [lockInventory] cannot fail here *)
    let db := lockInventory userID itemID quantity db in
    let order := mkOrder 0 userID itemID "sell" "pending" price quantity
                         platform None "" in
    (* [db.Create] cannot fail here; the source unlocks and returns the
       database error otherwise *)
    let '(db, order) := db_CreateOrder order db in
    (db, Ok (order, TaskSell order)).

Definition CancelOrder (orderID userID : N) (db : DB) : DB * option string :=
  match db_FirstOrder orderID db with
  | Err msg => (db, Some msg)
  | Ok order =>
      if negb (o_UserID order =? userID)%N then (db, Some "unauthorized")
      else if negb (o_Status order =? "pending")%string then
        (db, Some "order cannot be cancelled")
      else
        let db :=
          if (o_Type order =? "sell")%string
          then unlockInventory (o_UserID order) (o_ItemID order)
                               (o_Quantity order) db
          else db in
        let order := with_Status order "cancelled" in
        (db_SaveOrder order db, None)
  end.

(** *** The service with its goroutines in flight.  An event is a call of
    an entry point or the scheduler running one started goroutine to its
    end; [now] is the clock reading at the event.  An event runs to its end
    before the next one starts; the statements of two sell creations that
    overlap are followed by [runSells] below. *)

Record System : Type := mkSystem {
  sys_db : DB;
  sys_tasks : list Task
}.

Inductive Event : Type :=
| EvCreateBuy (userID itemID : N) (price : float) (quantity : Z) (platform : string)
| EvCreateSell (userID itemID : N) (price : float) (quantity : Z) (platform : string)
| EvCancel (orderID userID : N)
| EvRun (k : nat).

Definition spawned (r : result (Order * Task)) : list Task :=
  match r with Ok (_, t) => [t] | Err _ => [] end.

Definition handle (cfg : TradingConfig) (now : Z) (e : Event) (s : System) : System :=
  match e with
  | EvCreateBuy u i p q pf =>
      let '(db, r) := CreateBuyOrder u i p q pf (sys_db s) in
      mkSystem db (sys_tasks s ++ spawned r)
  | EvCreateSell u i p q pf =>
      let '(db, r) := CreateSellOrder u i p q pf (sys_db s) in
      mkSystem db (sys_tasks s ++ spawned r)
  | EvCancel o u =>
      mkSystem (fst (CancelOrder o u (sys_db s))) (sys_tasks s)
  | EvRun k =>
      match nth_error (sys_tasks s) k with
      | Some t => mkSystem (runTask cfg now t (sys_db s))
                           (firstn k (sys_tasks s) ++ skipn (S k) (sys_tasks s))
      | None => s
      end
  end.

Definition run (cfg : TradingConfig) (events : list (Z * Event)) (s : System) : System :=
  fold_left (fun s '(now, e) => handle cfg now e s) events s.

Definition statusOf (orderID : N) (db : DB) : option string :=
  match db_FirstOrder orderID db with
  | Ok o => Some (o_Status o)
  | Err _ => None
  end.

(** The rows of an owner and item that queries still see. *)
Definition holdings (userID itemID : N) (db : DB) : list Inventory :=
  List.filter (ownedBy userID itemID) (inventories db).

(** *** The lock step in the design document's words, for comparison with
    the code: [TryLock] fails with [InsufficientInventory] when no row of
    the owner and item holds the quantity, and with [AlreadyLocked] when
    such a row exists but is locked. *)
Inductive LockError : Type :=
| InsufficientInventory
| AlreadyLocked.

Definition TryLock_failure_spec (userID itemID : N) (quantity : Z) (db : DB)
  : option LockError :=
  let matching :=
    List.filter (fun i => ownedBy userID itemID i && (quantity <=? inv_Quantity i)%Z)
                (inventories db) in
  if existsb (fun i => negb (inv_Locked i)) matching then None
  else match matching with
       | [] => Some InsufficientInventory
       | _ => Some AlreadyLocked
       end.


(** The three platform names the executors know. *)
Definition knownPlatform (platform : string) : bool :=
  (platform =? "buff")%string || (platform =? "youpin")%string
  || (platform =? "steam")%string.

(** *** Strategies.  The [strategies] table is kept beside the store of
    the orders: the strategy calls touch no other table. *)

Record Strategy : Type := mkStrategy {
  s_ID : N;
  s_DeletedAt : option Z;
  s_UserID : N;
  s_Name : string;
  s_Description : string;
  s_Type : string;    (* grid, arbitrage, trend_following, mean_reversion *)
  s_Status : string;  (* active, paused, stopped *)
  s_Config : string;
  s_MaxInvest : float;
  s_MinProfit : float;
  s_StopLoss : float;
  s_TakeProfit : float;
  s_Performance : string
}.

Definition s_with_Status (s : Strategy) (status : string) : Strategy :=
  mkStrategy (s_ID s) (s_DeletedAt s) (s_UserID s) (s_Name s) (s_Description s)
             (s_Type s) status (s_Config s) (s_MaxInvest s) (s_MinProfit s)
             (s_StopLoss s) (s_TakeProfit s) (s_Performance s).

Definition s_with_DeletedAt (s : Strategy) (t : option Z) : Strategy :=
  mkStrategy (s_ID s) t (s_UserID s) (s_Name s) (s_Description s)
             (s_Type s) (s_Status s) (s_Config s) (s_MaxInvest s) (s_MinProfit s)
             (s_StopLoss s) (s_TakeProfit s) (s_Performance s).

Definition s_live (s : Strategy) : bool :=
  match s_DeletedAt s with None => true | Some _ => false end.

(** [Where("id = ? AND user_id = ?", strategyID, userID)]. *)
Definition strategyOf (strategyID userID : N) (s : Strategy) : bool :=
  s_live s && (s_ID s =? strategyID)%N && (s_UserID s =? userID)%N.



(** A soft delete of the caller's strategy; no error when there is none. *)
Definition DeleteStrategy (now : Z) (strategyID userID : N)
    (strategies : list Strategy) : list Strategy :=
  List.map (fun s => if strategyOf strategyID userID s
                     then s_with_DeletedAt s (Some now) else s)
           strategies.

(** [db.Save(&strategy)]. *)
Definition db_SaveStrategy (strategy : Strategy) (strategies : list Strategy)
  : list Strategy :=
  if existsb (fun s => (s_ID s =? s_ID strategy)%N) strategies
  then List.map (fun s => if (s_ID s =? s_ID strategy)%N then strategy else s)
                strategies
  else strategies ++ [strategy].

(** On success the table and the struct handed to [go s.runStrategy]. *)
Definition ActivateStrategy (strategyID userID : N) (strategies : list Strategy)
  : list Strategy * result Strategy :=
  match List.find (strategyOf strategyID userID) strategies with
  | None => (strategies, Err "record not found")
  | Some strategy =>
      let strategy := s_with_Status strategy "active" in
      (db_SaveStrategy strategy strategies, Ok strategy)
  end.

(** [Update("status", "paused")] on the caller's strategy; no error when
    there is none. *)
Definition DeactivateStrategy (strategyID userID : N)
    (strategies : list Strategy) : list Strategy :=
  List.map (fun s => if strategyOf strategyID userID s
                     then s_with_Status s "paused" else s)
           strategies.

(** The test a runner makes at each tick of [runStrategy], before it
    calls the executor of the strategy's type: [true] when the loop goes
    on, [false] when the goroutine returns. *)
Definition runStrategy_continues (strategy : Strategy)
    (strategies : list Strategy) : bool :=
  match List.find (fun s => s_live s && (s_ID s =? s_ID strategy)%N) strategies with
  | None => false
  | Some currentStrategy => (s_Status currentStrategy =? "active")%string
  end.

(** *** The tick of a runner.  After the test, [runStrategy] calls the
    executor of the type of the struct it was started with.
    [executeGridStrategy] decodes the configuration and asserts that three
    of its values are numbers; an assertion that fails panics, and a panic
    in a goroutine ends the process.  The other three executors are
    empty, and another type has no case. *)

(** A value of a decoded JSON object, by its Go type; what an array or an
    object holds is not read. *)
Inductive JSON : Type :=
| JNumber (x : float)
| JString (s : string)
| JBool (b : bool)
| JNull
| JArray
| JObject.

(** [Unmarshal] is [json.Unmarshal] into a [map[string]interface{}]: the
    map it leaves, which is the nil map, without any key, when the text is
    no JSON object.  [None] is a panic. *)
Definition executeGridStrategy (Unmarshal : string -> gmap string JSON)
    (strategy : Strategy) : option unit :=
  let config := Unmarshal (s_Config strategy) in
  match config !! "min_price" with
  | Some (JNumber minPrice) =>
      match config !! "max_price" with
      | Some (JNumber maxPrice) =>
          match config !! "grid_count" with
          | Some (JNumber gridCount) => Some tt
          | _ => None
          end
      | _ => None
      end
  | _ => None
  end.

Inductive Tick : Type :=
| TickReturns     (* the runner returns: the goroutine ends *)
| TickGoesOn      (* the executor has returned: the loop waits for the next tick *)
| TickPanics.     (* the executor panics: the process ends *)

Definition runStrategy_tick (Unmarshal : string -> gmap string JSON)
    (strategy : Strategy) (strategies : list Strategy) : Tick :=
  if runStrategy_continues strategy strategies then
    if (s_Type strategy =? "grid")%string then
      match executeGridStrategy Unmarshal strategy with
      | Some _ => TickGoesOn
      | None => TickPanics
      end
    else TickGoesOn
  else TickReturns.

(** *** A sell creation, statement by statement.  [CreateSellOrder] makes
    three calls on the store (the check, the lock and the insert) with no
    transaction around them, and every request is served by a goroutine of
    its own: between two of the calls the statements of another creation
    can run.  A call in flight is at one of its statements, or has
    returned. *)
Inductive SellCall : Type :=
| AtCheck (userID itemID : N) (price : float) (quantity : Z) (platform : string)
| AtLock (userID itemID : N) (price : float) (quantity : Z) (platform : string)
| AtCreate (userID itemID : N) (price : float) (quantity : Z) (platform : string)
| Returned (r : result (Order * Task)).

Definition stepSell (call : SellCall) (db : DB) : DB * SellCall :=
  match call with
  | AtCheck userID itemID price quantity platform =>
      if negb (checkInventory userID itemID quantity db)
      then (db, Returned (Err "insufficient inventory"))
      else (db, AtLock userID itemID price quantity platform)
  | AtLock userID itemID price quantity platform =>
      (lockInventory userID itemID quantity db,
       AtCreate userID itemID price quantity platform)
  | AtCreate userID itemID price quantity platform =>
      let order := mkOrder 0 userID itemID "sell" "pending" price quantity
                           platform None "" in
      let '(db, order) := db_CreateOrder order db in
      (db, Returned (Ok (order, TaskSell order)))
  | Returned _ => (db, call)
  end.

(** The calls in flight make their statements in the order [schedule]
    names the calls, by position. *)
Definition stepSellAt (k : nat) (state : DB * list SellCall)
  : DB * list SellCall :=
  let '(db, calls) := state in
  match calls !! k with
  | Some call =>
      let '(db, call) := stepSell call db in (db, <[k := call]> calls)
  | None => state
  end.

Definition runSells (schedule : list nat) (db : DB) (calls : list SellCall)
  : DB * list SellCall :=
  fold_left (fun state k => stepSellAt k state) schedule (db, calls).

End Trading.

(** ** Models of the price collector and the automated trader:
    internal/models/models.go *)

Module Models.

Record Item : Type := mkItem {
  it_ID : N;
  it_Name : string;
  it_MarketName : string;
  it_IconURL : string;
  it_Type : string;
  it_Weapon : string;
  it_Exterior : string;
  it_Rarity : string;
  it_Collection : string
}.

Record Price : Type := mkPrice {
  p_ID : N;
  p_ItemID : N;
  p_Platform : string;        (* steam, buff, youpin *)
  p_Price : float;
  p_Volume : Z;
  p_Currency : string;
  p_Timestamp : Z
}.

Record Strategy : Type := mkStrategy {
  st_ID : N;
  st_UserID : N;
  st_Name : string;
  st_Description : string;
  st_ItemID : N;
  st_BuyPrice : float;
  st_SellPrice : float;
  st_MaxQuantity : Z;
  st_IsActive : bool
}.

End Models.

(** ** Price store and arbitrage detection:
    internal/services/price/price_service.go *)

Module PriceService.

Import Models.
Local Open Scope float_scope.

Definition nextID (ids : list N) : N := N.succ (fold_right N.max 0%N ids).

(** [p.db.Create(price)] on the [prices] table.  A struct with a zero key
    gets the next key; a struct that carries a key is inserted under it and
    the insert fails when a row has that key already (the table has no
    other unique constraint).  An empty currency takes the column default. *)
Definition db_Create (price : Price) (prices : list Price)
  : list Price * option string :=
  let currency :=
    if (p_Currency price =? "")%string then "USD" else p_Currency price in
  let row id :=
    mkPrice id (p_ItemID price) (p_Platform price) (p_Price price)
            (p_Volume price) currency (p_Timestamp price) in
  if (p_ID price =? 0)%N then
    (prices ++ [row (nextID (List.map p_ID prices))], None)
  else if existsb (fun r => (p_ID r =? p_ID price)%N) prices then
    (prices, Some "duplicate key value violates unique constraint")
  else (prices ++ [row (p_ID price)], None).

Definition SavePrice (price : Price) (prices : list Price)
  : list Price * option string :=
  db_Create price prices.

(** The rows of the history that carry one (item, venue, observedAt). *)
Definition sameTriple (itemID : N) (platform : string) (timestamp : Z)
    (r : Price) : bool :=
  (p_ItemID r =? itemID)%N && (p_Platform r =? platform)%string
  && (p_Timestamp r =? timestamp)%Z.

Definition entriesFor (itemID : N) (platform : string) (timestamp : Z)
    (prices : list Price) : nat :=
  length (List.filter (sameTriple itemID platform timestamp) prices).

Record ArbitrageOpportunity : Type := mkArbitrageOpportunity {
  Item_ : Item;
  BuyPlatform : string;
  SellPlatform : string;
  BuyPrice : float;
  SellPrice : float;
  Profit : float;
  ProfitPercent : float
}.

(** The body of the inner loop for one pair of entries of the map. *)
Definition pairOpportunity (item : Item) (minProfitPercent : float)
    (e1 e2 : string * Price) : list ArbitrageOpportunity :=
  let '(platform1, price1) := e1 in
  let '(platform2, price2) := e2 in
  if negb (platform1 =? platform2)%string && (p_Price price1 <? p_Price price2)
  then
    let profit := p_Price price2 - p_Price price1 in
    let profitPercent := (profit / p_Price price1) * 100 in
    if Float64.geb profitPercent minProfitPercent then
      [mkArbitrageOpportunity item platform1 platform2 (p_Price price1)
                              (p_Price price2) profit profitPercent]
    else []
  else [].

(** The work of [GetArbitrageOpportunities] on one item whose latest prices
    are the map [prices]: [outer] is the order in which the outer [range]
    visits the entries of the map, [inner platform1] the order in which the
    inner [range] visits them during the outer iteration at [platform1]. *)
Definition itemOpportunities (item : Item) (outer : list (string * Price))
    (inner : string -> list (string * Price)) (minProfitPercent : float)
  : list ArbitrageOpportunity :=
  if (length outer <? 2)%nat then []
  else
    flat_map (fun e1 =>
                flat_map (pairOpportunity item minProfitPercent e1)
                         (inner (fst e1)))
             outer.

(** [GetLatestPrices] is taken as given: for an item it fails or yields the
    map, here with the iteration orders of its two [range] loops. *)
Definition LatestPrices : Type :=
  N -> option (list (string * Price) * (string -> list (string * Price))).

Definition GetArbitrageOpportunities (items : list Item)
    (GetLatestPrices : LatestPrices) (minProfitPercent : float)
  : list ArbitrageOpportunity :=
  flat_map (fun item =>
              match GetLatestPrices (it_ID item) with
              | None => []
              | Some (outer, inner) =>
                  itemOpportunities item outer inner minProfitPercent
              end)
           items.

(** The ordered pair of venues an opportunity is for. *)
Definition venues (o : ArbitrageOpportunity) : string * string :=
  (BuyPlatform o, SellPlatform o).

Definition opportunity (item : Item) (vBuy vSell : string) (pBuy pSell : Price)
  : ArbitrageOpportunity :=
  mkArbitrageOpportunity item vBuy vSell (p_Price pBuy) (p_Price pSell)
    (p_Price pSell - p_Price pBuy)
    ((p_Price pSell - p_Price pBuy) / p_Price pBuy * 100).

(** The example of the design document: venue A at 100, venue B at 112. *)
Definition quoteA : Price := mkPrice 1 7 "A" 100 0 "USD" 1700000000.
Definition quoteB : Price := mkPrice 2 7 "B" 112 0 "USD" 1700000000.
Definition quotesAB : gmap string Price := {[ "A" := quoteA; "B" := quoteB ]}.


(** *** Latest prices, trend and collection *)

(** A row of the item that is the latest of its platform: what
    [SELECT MAX(timestamp) ... GROUP BY platform] takes its values from. *)
Definition latestOfPlatform (itemID : N) (prices : list Price) (q : Price) : bool :=
  (p_ItemID q =? itemID)%N
  && forallb (fun r => if (p_ItemID r =? itemID)%N
                          && (p_Platform r =? p_Platform q)%string
                       then (p_Timestamp r <=? p_Timestamp q)%Z else true)
             prices.

(** [timestamp IN (SELECT MAX(timestamp) ...)]. *)
Definition inLatestTimestamps (itemID : N) (prices : list Price) (t : Z) : bool :=
  existsb (fun q => latestOfPlatform itemID prices q && (p_Timestamp q =? t)%Z) prices.

(** The rows the query of [GetLatestPrices] selects. *)
Definition latestRows (itemID : N) (prices : list Price) : list Price :=
  List.filter (fun r => (p_ItemID r =? itemID)%N
                        && inLatestTimestamps itemID prices (p_Timestamp r))
              prices.

(** [for i, price := range prices { result[price.Platform] = &prices[i] }]. *)
Definition byPlatform (rows : list Price) : gmap string Price :=
  fold_left (fun result price => <[p_Platform price := price]> result) rows ∅.

(** The rows come in the order the database returns them, here the order
    of the table. *)
Definition GetLatestPrices (itemID : N) (prices : list Price) : gmap string Price :=
  byPlatform (latestRows itemID prices).

Record MarketTrend : Type := mkMarketTrend {
  mt_ID : N;
  mt_ItemID : N;
  mt_Platform : string;
  mt_TrendDirection : string;   (* up, down, stable *)
  mt_PriceChange : float;
  mt_VolumeChange : float;
  mt_Confidence : float;
  mt_AnalysisDate : Z
}.

Definition c_0_8 : float := 0x1.999999999999ap-1%float.
Definition c_0_6 : float := 0x1.3333333333333p-1%float.

Definition zeroPrice : Price := mkPrice 0 0 "" 0 0 "" 0.

(** [prices] is what [GetPriceHistory] returned, oldest first.  The result
    is the table of the trends and the trend, [None] for the [nil, nil] of
    a history of fewer than two prices. *)
Definition CalculateTrend (now : Z) (itemID : N) (platform : string)
    (prices : list Price) (trends : list MarketTrend)
  : list MarketTrend * option MarketTrend :=
  if (length prices <? 2)%nat then (trends, None)
  else
    let first := nth 0 prices zeroPrice in
    let last := nth (length prices - 1) prices zeroPrice in
    let firstPrice := p_Price first in
    let lastPrice := p_Price last in
    let priceChange := lastPrice - firstPrice in
    let priceChangePercent := (priceChange / firstPrice) * 100 in
    let firstVolume := Float64.of_int (p_Volume first) in
    let lastVolume := Float64.of_int (p_Volume last) in
    let volumeChange := ((lastVolume - firstVolume) / firstVolume) * 100 in
    let '(trendDirection, confidence) :=
      if Float64.gtb priceChangePercent 5 then ("up", c_0_8)
      else if priceChangePercent <? -5 then ("down", c_0_8)
      else ("stable", c_0_6) in
    let trend :=
      mkMarketTrend (nextID (List.map mt_ID trends)) itemID platform
                    trendDirection priceChangePercent volumeChange confidence now in
    (trends ++ [trend], Some trend).

(** The price services, each absent ([nil]) or answering a market name
    with a price or an error. *)
Record Collectors : Type := mkCollectors {
  steamService : option (string -> option Price);
  buffService : option (string -> option Price);
  youpinService : option (string -> option Price)
}.

Definition with_ItemID (price : Price) (itemID : N) : Price :=
  mkPrice (p_ID price) itemID (p_Platform price) (p_Price price)
          (p_Volume price) (p_Currency price) (p_Timestamp price).

(** One of the three blocks of [collectItemPrices]; the error of
    [SavePrice] is dropped. *)
Definition collectFrom (service : option (string -> option Price)) (item : Item)
    (prices : list Price) : list Price :=
  match service with
  | None => prices
  | Some getPrice =>
      match getPrice (it_MarketName item) with
      | Some price => fst (SavePrice (with_ItemID price (it_ID item)) prices)
      | None => prices
      end
  end.

Definition collectItemPrices (c : Collectors) (item : Item) (prices : list Price)
  : list Price :=
  let prices := collectFrom (steamService c) item prices in
  let prices := collectFrom (buffService c) item prices in
  collectFrom (youpinService c) item prices.

(** What the blocks of [collectItemPrices] get from their services: the
    answers of the services that are set and return no error, in the order
    of the blocks. *)
Definition answerOf (service : option (string -> option Price)) (item : Item)
  : list Price :=
  match service with
  | Some getPrice =>
      match getPrice (it_MarketName item) with
      | Some price => [price]
      | None => []
      end
  | None => []
  end.

Definition answers (c : Collectors) (item : Item) : list Price :=
  answerOf (steamService c) item ++ answerOf (buffService c) item
  ++ answerOf (youpinService c) item.

End PriceService.

(** ** Automated trader: internal/services/trading/trading_service.go *)

Module TradingService.

Import Models.
Local Open Scope float_scope.

(** A [fmt.Sprintf] call kept as its format and arguments. *)
Record Sprintf : Type := mkSprintf {
  format : string;
  args : list float
}.

Record TradeSignal : Type := mkTradeSignal {
  ts_ItemID : N;
  ts_Platform : string;
  ts_Action : string;         (* "buy" or "sell" *)
  ts_Price : float;
  ts_Confidence : float;
  ts_Reason : Sprintf
}.

(** The four locals of the scan over the map. *)
Record Extremes : Type := mkExtremes {
  minPrice : float;
  maxPrice : float;
  minPlatform : string;
  maxPlatform : string
}.

Definition initial : Extremes := mkExtremes 999999 0 "" "".

Definition visit (x : Extremes) (entry : string * Price) : Extremes :=
  let '(platform, price) := entry in
  let x :=
    if p_Price price <? minPrice x
    then mkExtremes (p_Price price) (maxPrice x) platform (maxPlatform x)
    else x in
  if maxPrice x <? p_Price price
  then mkExtremes (minPrice x) (p_Price price) (minPlatform x) platform
  else x.

Definition extremes (prices : list (string * Price)) : Extremes :=
  fold_left visit prices initial.

Definition c_0_8 : float := 0x1.999999999999ap-1%float.

Definition buySignal (strategy : Strategy) (x : Extremes) : TradeSignal :=
  mkTradeSignal (st_ItemID strategy) (minPlatform x) "buy" (minPrice x) c_0_8
    (mkSprintf "Arbitrage opportunity: buy at %.2f, sell at %.2f"
               [minPrice x; maxPrice x]).

Definition sellSignal (strategy : Strategy) (x : Extremes) : TradeSignal :=
  mkTradeSignal (st_ItemID strategy) (maxPlatform x) "sell" (maxPrice x) c_0_8
    (mkSprintf "Arbitrage opportunity: profit of %.2f"
               [maxPrice x - minPrice x]).

(** [prices] is the map in the order its [range] visits it. *)
Definition analyzePrices (prices : list (string * Price)) (strategy : Strategy)
  : list TradeSignal :=
  let x := extremes prices in
  let priceDiff := maxPrice x - minPrice x in
  if Float64.gtb priceDiff 5 && Float64.gtb (priceDiff / minPrice x) Float64.c_0_1
  then
    (if minPrice x <=? st_BuyPrice strategy then [buySignal strategy x] else [])
    ++ (if Float64.geb (maxPrice x) (st_SellPrice strategy)
        then [sellSignal strategy x] else [])
  else [].


(** *** Executing the signals *)

Record Trade : Type := mkTrade {
  tr_ID : N;
  tr_UserID : N;
  tr_ItemID : N;
  tr_Platform : string;
  tr_Type : string;           (* buy, sell *)
  tr_Price : float;
  tr_Quantity : Z;
  tr_Status : string;         (* pending, completed, failed, cancelled *)
  tr_TradeID : string
}.

(** The venue services the trader calls: what each call answers is the
    venue's, so it is taken as given.  A price call yields the price or
    fails; a buy call yields its error, if any. *)
Record Venues : Type := mkVenues {
  steam_GetMarketPrice : string -> option Price;
  buff_GetItemPrice : string -> option Price;
  youpin_GetItemPrice : string -> option Price;
  buff_BuyItem : string -> float -> option string;
  youpin_BuyItem : string -> float -> option string
}.

Definition GetItemPrices (v : Venues) (marketName : string) : gmap string Price :=
  let prices : gmap string Price := ∅ in
  let prices :=
    match steam_GetMarketPrice v marketName with
    | Some steamPrice => <["steam" := steamPrice]> prices
    | None => prices
    end in
  let prices :=
    match buff_GetItemPrice v marketName with
    | Some buffPrice => <["buff" := buffPrice]> prices
    | None => prices
    end in
  match youpin_GetItemPrice v marketName with
  | Some youpinPrice => <["youpin" := youpinPrice]> prices
  | None => prices
  end.

Definition nextID (ids : list N) : N := N.succ (fold_right N.max 0%N ids).

(** [t.db.Save(&trade)]. *)
Definition db_SaveTrade (trade : Trade) (trades : list Trade) : list Trade :=
  if existsb (fun t => (tr_ID t =? tr_ID trade)%N) trades
  then List.map (fun t => if (tr_ID t =? tr_ID trade)%N then trade else t) trades
  else trades ++ [trade].

(** The [switch signal.Platform] of [executeTrade]: the error, if any. *)
Definition placeTrade (v : Venues) (signal : TradeSignal) : option string :=
  if (ts_Platform signal =? "buff")%string then
    if (ts_Action signal =? "buy")%string
    then buff_BuyItem v (pretty (ts_ItemID signal)) (ts_Price signal)
    else Some "sell functionality requires asset ID implementation"
  else if (ts_Platform signal =? "youpin")%string then
    if (ts_Action signal =? "buy")%string
    then youpin_BuyItem v (pretty (ts_ItemID signal)) (ts_Price signal)
    else Some "sell functionality requires asset ID implementation"
  else Some ("platform " +:+ ts_Platform signal
             +:+ " not supported for automated trading").

(** [now] is [time.Now().Unix()].  The insert of the pending trade cannot
    fail here. *)
Definition executeTrade (v : Venues) (now : Z) (signal : TradeSignal)
    (strategy : Strategy) (trades : list Trade) : list Trade * option string :=
  let trade :=
    mkTrade (nextID (List.map tr_ID trades)) (st_UserID strategy)
            (ts_ItemID signal) (ts_Platform signal) (ts_Action signal)
            (ts_Price signal) 1 "pending" "" in
  let trades := trades ++ [trade] in
  let err := placeTrade v signal in
  let trade :=
    match err with
    | Some _ =>
        mkTrade (tr_ID trade) (tr_UserID trade) (tr_ItemID trade)
                (tr_Platform trade) (tr_Type trade) (tr_Price trade)
                (tr_Quantity trade) "failed" (tr_TradeID trade)
    | None =>
        mkTrade (tr_ID trade) (tr_UserID trade) (tr_ItemID trade)
                (tr_Platform trade) (tr_Type trade) (tr_Price trade)
                (tr_Quantity trade) "completed"
                ("trade_" +:+ pretty now +:+ "_" +:+ pretty (tr_ID trade))
    end in
  (db_SaveTrade trade trades, err).

(** [strategies] and [items] are the visible rows of the two tables;
    [range] is the order in which the [range] of [analyzePrices] visits a
    map.  The errors of the trades are logged and dropped. *)
Definition ExecuteStrategy (v : Venues)
    (range : gmap string Price -> list (string * Price)) (now : Z)
    (strategyID : N) (strategies : list Strategy) (items : list Item)
    (trades : list Trade) : list Trade * option string :=
  match List.find (fun s => (st_ID s =? strategyID)%N) strategies with
  | None => (trades, Some "record not found")
  | Some strategy =>
      if negb (st_IsActive strategy) then (trades, Some "strategy is not active")
      else
        (* [Preload("Item")]: the zero item when the row is missing *)
        let marketName :=
          match List.find (fun it => (it_ID it =? st_ItemID strategy)%N) items with
          | Some item => it_MarketName item
          | None => ""
          end in
        let prices := GetItemPrices v marketName in
        let signals := analyzePrices (range prices) strategy in
        (fold_left (fun trades signal =>
                      fst (executeTrade v now signal strategy trades))
                   signals trades,
         None)
  end.

End TradingService.

(** ** Broadcast hub: the websocket package (csgo2-trading-bot/backend) *)

Module Websocket.

Definition Message : Type := string.

(** A Go channel of messages with a buffer, as the hub goroutine finds it
    at one of its steps (the pumps of the clients run between steps). *)
Record Chan : Type := mkChan {
  buffer : list Message;
  capacity : nat;
  closed : bool
}.

(** The hub, with a client named by the address of its struct: [clients]
    is the key set of [h.clients], [send] the channel of each client. *)
Record Hub : Type := mkHub {
  clients : gset N;
  send : gmap N Chan
}.

(** A step of the hub goroutine yields [None] when it panics: closing a
    closed channel, or sending on one. *)
Definition close (ch : Chan) : option Chan :=
  if closed ch then None else Some (mkChan (buffer ch) (capacity ch) true).

(** [make(chan []byte, 256)] in [HandleWebSocket]. *)
Definition newClient (client : N) (h : Hub) : Hub :=
  mkHub (clients h) (<[client := mkChan [] 256 false]> (send h)).

(** [case client := <-h.register]. *)
Definition register (client : N) (h : Hub) : Hub :=
  mkHub ({[client]} ∪ clients h) (send h).

(** [case client := <-h.unregister]. *)
Definition unregister (client : N) (h : Hub) : option Hub :=
  if decide (client ∈ clients h) then
    ch ← send h !! client;
    ch ← close ch;
    Some (mkHub (clients h ∖ {[client]}) (<[client := ch]> (send h)))
  else Some h.

(** One iteration of the loop of [case message := <-h.broadcast], at
    [client]: the [select] sends when the buffer has room and takes its
    [default] branch otherwise. *)
Definition deliver (message : Message) (h : Hub) (client : N) : option Hub :=
  ch ← send h !! client;
  if closed ch then None
  else if (length (buffer ch) <? capacity ch)%nat then
    Some (mkHub (clients h)
                (<[client := mkChan (buffer ch ++ [message]) (capacity ch) false]>
                   (send h)))
  else
    ch ← close ch;
    Some (mkHub (clients h ∖ {[client]}) (<[client := ch]> (send h))).

(** The whole loop; [order] is the order in which [range h.clients] visits
    the clients. *)
Definition broadcast (message : Message) (order : list N) (h : Hub) : option Hub :=
  fold_left (fun acc client => h ← acc; deliver message h client) order (Some h).

(** Every registered client has a channel, and it is open. *)
Definition registered_open (h : Hub) : Prop :=
  ∀ client, client ∈ clients h →
    ∃ ch, send h !! client = Some ch ∧ closed ch = false.

(** What the [select] does to the channel it is run on. *)
Definition afterSelect (message : Message) (ch : Chan) : Chan :=
  if (length (buffer ch) <? capacity ch)%nat
  then mkChan (buffer ch ++ [message]) (capacity ch) false
  else mkChan (buffer ch) (capacity ch) true.


(** [message, ok := <-c.send] in [writePump]: the receive takes the oldest
    message of the buffer; on an empty buffer it leaves the channel as it
    is (the pump waits, or returns when the channel is closed). *)
Definition receive (client : N) (h : Hub) : Hub :=
  match send h !! client with
  | Some ch =>
      match buffer ch with
      | _ :: rest =>
          mkHub (clients h)
                (<[client := mkChan rest (capacity ch) (closed ch)]> (send h))
      | [] => h
      end
  | None => h
  end.

(** *** The loop of [Hub.Run].  A connection makes a client with a channel
    of its own and registers it ([HandleWebSocket]); the address of the new
    client is one no client has had.  Between two steps of the loop the
    write pump of a client may take a message from its channel. *)
Inductive HubEvent : Type :=
| HubConnect
| HubUnregister (client : N)
| HubBroadcast (message : Message)
| HubReceive (client : N).

Definition handleEvent (range : gset N -> list N) (e : HubEvent) (h : Hub)
  : option Hub :=
  match e with
  | HubConnect =>
      let client := fresh (dom (send h)) in
      Some (register client (newClient client h))
  | HubUnregister client => unregister client h
  | HubBroadcast message => broadcast message (range (clients h)) h
  | HubReceive client => Some (receive client h)
  end.

(** [range] is the order in which a [range] over the client map visits a
    key set.  [NewHub] is [mkHub ∅ ∅]. *)
Definition Run (range : gset N -> list N) (events : list HubEvent) (h : Hub)
  : option Hub :=
  fold_left (fun acc e => h ← acc; handleEvent range e h) events (Some h).

End Websocket.


(** ** Middleware: the api package (csgo2-trading-bot/backend) *)

Module Api.

(** *** [RateLimitMiddleware].  [requests] is the map of the closure; the
    answer is the map after the request and whether the request went on to
    the next handler ([false]: 429, too many requests). *)
Definition rateLimit (maxRequests : Z) (requests : gmap string Z) (ip : string)
  : gmap string Z * bool :=
  match requests !! ip with
  | Some count =>
      if (maxRequests <=? count)%Z then (requests, false)
      else (<[ip := (count + 1)%Z]> requests, true)
  | None => (<[ip := 1%Z]> requests, true)
  end.

(** Requests handled one after the other, no handler starting before the
    one before it has finished, each with its outcome. *)
Fixpoint serve (maxRequests : Z) (requests : gmap string Z) (ips : list string)
  : list (string * bool) :=
  match ips with
  | [] => []
  | ip :: rest =>
      let '(requests, passed) := rateLimit maxRequests requests ip in
      (ip, passed) :: serve maxRequests requests rest
  end.

Definition passedFor (ip : string) (outcomes : list (string * bool)) : nat :=
  length (List.filter (fun '(i, passed) => (i =? ip)%string && passed) outcomes).

Definition requestsFrom (ip : string) (ips : list string) : nat :=
  length (List.filter (fun i => (i =? ip)%string) ips).

(** *** The limiter, statement by statement.  The map of the closure is
    shared by the goroutines that serve the requests, with no lock around
    the lookup and the write of a handler: the statements of two handlers
    can alternate.  (Two map operations that overlap in time are a data
    race, which the Go runtime may answer by aborting the process; the
    runs below are those in which no two operations overlap.)  A handler
    is at its lookup, at one of its two writes, or has finished, with the
    request passed on or not. *)
Inductive Limiter : Type :=
| AtLookup (ip : string)
| AtIncrement (ip : string)
| AtInsert (ip : string)
| Finished (passed : bool).

Definition stepLimiter (maxRequests : Z) (handler : Limiter)
    (requests : gmap string Z) : gmap string Z * Limiter :=
  match handler with
  | AtLookup ip =>
      match requests !! ip with
      | Some count =>
          if (maxRequests <=? count)%Z then (requests, Finished false)
          else (requests, AtIncrement ip)
      | None => (requests, AtInsert ip)
      end
  | AtIncrement ip =>
      (<[ip := (default 0%Z (requests !! ip) + 1)%Z]> requests, Finished true)
  | AtInsert ip => (<[ip := 1%Z]> requests, Finished true)
  | Finished _ => (requests, handler)
  end.

Definition stepLimiterAt (maxRequests : Z) (k : nat)
    (state : gmap string Z * list Limiter) : gmap string Z * list Limiter :=
  let '(requests, handlers) := state in
  match handlers !! k with
  | Some handler =>
      let '(requests, handler) := stepLimiter maxRequests handler requests in
      (requests, <[k := handler]> handlers)
  | None => state
  end.

Definition runLimiters (maxRequests : Z) (schedule : list nat)
    (requests : gmap string Z) (handlers : list Limiter)
  : gmap string Z * list Limiter :=
  fold_left (fun state k => stepLimiterAt maxRequests k state) schedule
            (requests, handlers).

(** *** [AuthMiddleware] *)

(** [strings.Split(s, sep)] for a separator of one byte. *)
Fixpoint split (sep : Ascii.ascii) (s : string) : list string :=
  match s with
  | EmptyString => [EmptyString]
  | String c rest =>
      if Ascii.eqb c sep then EmptyString :: split sep rest
      else match split sep rest with
           | part :: parts => String c part :: parts
           | [] => [String c EmptyString]
           end
  end.

Fixpoint noSpace (s : string) : bool :=
  match s with
  | EmptyString => true
  | String c rest => negb (Ascii.eqb c " "%char) && noSpace rest
  end.

Record JWTClaims : Type := mkJWTClaims {
  UserID : N;
  SteamID : string
}.

(** The request is aborted with 401 and an error, or goes on with the
    user and Steam ids in its context. *)
Inductive AuthOutcome : Type :=
| Unauthorized (error : string)
| Authenticated (user_id : N) (steam_id : string).

(** [ValidateJWT] is the auth service's. *)
Definition AuthMiddleware (ValidateJWT : string -> option JWTClaims)
    (authHeader : string) : AuthOutcome :=
  if (authHeader =? "")%string then Unauthorized "authorization header required"
  else
    let parts := split " "%char authHeader in
    if negb (length parts =? 2)%nat || negb (nth 0 parts "" =? "Bearer")%string
    then Unauthorized "invalid authorization header format"
    else
      match ValidateJWT (nth 1 parts "") with
      | None => Unauthorized "invalid or expired token"
      | Some claims => Authenticated (UserID claims) (SteamID claims)
      end.

(** *** The order handlers *)

(** The body of a creation request as [ShouldBindJSON] decodes it into the
    [req] struct of the handler: a key the body lacks leaves the zero value
    of its field. *)
Record OrderRequest : Type := mkOrderRequest {
  req_ItemID : N;
  req_Price : float;
  req_Quantity : Z;
  req_Platform : string
}.

(** The [binding] tags, which the validator checks after the decoding:
    [required] refuses the zero value of the field's type, compared as
    Go's [==] compares (for a float64, both zeros); [min] on a number is
    [>=]. *)
Definition required_uint (n : N) : bool := negb (n =? 0)%N.
Definition required_float (x : float) : bool := negb (x =? 0)%float.
Definition required_int (z : Z) : bool := negb (z =? 0)%Z.
Definition required_string (s : string) : bool := negb (s =? "")%string.
Definition min_float (param x : float) : bool := Float64.geb x param.
Definition min_int (param z : Z) : bool := (param <=? z)%Z.

Definition bindingValid (req : OrderRequest) : bool :=
  required_uint (req_ItemID req)
  && (required_float (req_Price req) && min_float 0 (req_Price req))
  && (required_int (req_Quantity req) && min_int 1 (req_Quantity req))
  && required_string (req_Platform req).

Inductive Response : Type :=
| StatusBadRequest
| StatusInternalServerError (error : string)
| StatusCreated (order : Trading.Order)
| StatusOK.

(** A handler yields the store, the goroutines the service started and the
    response.  [body] is [None] for a body that does not decode; [userID]
    is the key the auth middleware left in the context. *)
Definition CreateBuyOrder (userID : N) (body : option OrderRequest)
    (db : Trading.DB) : Trading.DB * list Trading.Task * Response :=
  match body with
  | None => (db, [], StatusBadRequest)
  | Some req =>
      if negb (bindingValid req) then (db, [], StatusBadRequest)
      else
        match Trading.CreateBuyOrder userID (req_ItemID req) (req_Price req)
                (req_Quantity req) (req_Platform req) db with
        | (db, Trading.Err msg) => (db, [], StatusInternalServerError msg)
        | (db, Trading.Ok (order, task)) => (db, [task], StatusCreated order)
        end
  end.

Definition CreateSellOrder (userID : N) (body : option OrderRequest)
    (db : Trading.DB) : Trading.DB * list Trading.Task * Response :=
  match body with
  | None => (db, [], StatusBadRequest)
  | Some req =>
      if negb (bindingValid req) then (db, [], StatusBadRequest)
      else
        match Trading.CreateSellOrder userID (req_ItemID req) (req_Price req)
                (req_Quantity req) (req_Platform req) db with
        | (db, Trading.Err msg) => (db, [], StatusInternalServerError msg)
        | (db, Trading.Ok (order, task)) => (db, [task], StatusCreated order)
        end
  end.

(** [id] is the path parameter, [None] when it is no unsigned number. *)
Definition CancelOrder (userID : N) (id : option N) (db : Trading.DB)
  : Trading.DB * Response :=
  match id with
  | None => (db, StatusBadRequest)
  | Some orderID =>
      match Trading.CancelOrder orderID userID db with
      | (db, Some msg) => (db, StatusInternalServerError msg)
      | (db, None) => (db, StatusOK)
      end
  end.

(** The service behind its handlers: the three requests that reach the
    order calls, which have no other caller, and the scheduler running a
    started goroutine. *)
Inductive Request : Type :=
| PostBuyOrder (userID : N) (body : option OrderRequest)
| PostSellOrder (userID : N) (body : option OrderRequest)
| DeleteOrder (userID : N) (id : option N)
| Goroutine (k : nat).

Definition handleRequest (cfg : Trading.TradingConfig) (now : Z) (r : Request)
    (s : Trading.System) : Trading.System :=
  match r with
  | PostBuyOrder userID body =>
      let '(db, tasks, _) := CreateBuyOrder userID body (Trading.sys_db s) in
      Trading.mkSystem db (Trading.sys_tasks s ++ tasks)
  | PostSellOrder userID body =>
      let '(db, tasks, _) := CreateSellOrder userID body (Trading.sys_db s) in
      Trading.mkSystem db (Trading.sys_tasks s ++ tasks)
  | DeleteOrder userID id =>
      Trading.mkSystem (fst (CancelOrder userID id (Trading.sys_db s)))
                       (Trading.sys_tasks s)
  | Goroutine k => Trading.handle cfg now (Trading.EvRun k) s
  end.

Definition handleRequests (cfg : Trading.TradingConfig)
    (requests : list (Z * Request)) (s : Trading.System) : Trading.System :=
  fold_left (fun s '(now, r) => handleRequest cfg now r s) requests s.

(** The order a started goroutine holds. *)
Definition taskOrder (t : Trading.Task) : Trading.Order :=
  match t with Trading.TaskBuy order | Trading.TaskSell order => order end.

(** What the design document asks of a persisted order. *)
Definition priceAndQuantityOk (o : Trading.Order) : Prop :=
  (0 <? Trading.o_Price o)%float = true /\ (1 <= Trading.o_Quantity o)%Z.

(** The two facts a run of the service keeps: the stored orders and the
    orders held by the started goroutines have a price above zero and a
    quantity of at least one. *)
Definition ordersOk (s : Trading.System) : Prop :=
  Forall priceAndQuantityOk (Trading.orders (Trading.sys_db s)) /\
  Forall (fun t => priceAndQuantityOk (taskOrder t)) (Trading.sys_tasks s).

End Api.

(** * Properties *)

(** ** The order of float64 *)

Section FloatOrder.

Local Open Scope float_scope.

Lemma SFltb_irrefl x : SFltb x x = false.
Proof.
  unfold SFltb, SFcompare.
  destruct x as [s|s| |s m e]; try destruct s; try reflexivity;
    rewrite Z.compare_refl;
    change (Pos.compare_cont Eq m m) with (Pos.compare m m);
    rewrite Pos.compare_refl; reflexivity.
Qed.

Lemma SFltb_trans x y z :
  SFltb x y = true -> SFltb y z = true -> SFltb x z = true.
Proof.
  unfold SFltb, SFcompare.
  destruct x as [sx|sx| |sx mx ex], y as [sy|sy| |sy my ey],
           z as [sz|sz| |sz mz ez];
    try destruct sx; try destruct sy; try destruct sz;
    try discriminate; try reflexivity;
    change (Pos.compare_cont Eq) with Pos.compare;
    destruct (Z.compare_spec ex ey), (Z.compare_spec ey ez),
             (Z.compare_spec ex ez);
    try discriminate; try reflexivity; try lia;
    destruct (Pos.compare_spec mx my), (Pos.compare_spec my mz),
             (Pos.compare_spec mx mz);
    simpl; try discriminate; try reflexivity; try lia.
Qed.

Lemma ltb_irrefl (x : float) : (x <? x) = false.
Proof. rewrite ltb_spec. apply SFltb_irrefl. Qed.

Lemma ltb_trans (x y z : float) :
  (x <? y) = true -> (y <? z) = true -> (x <? z) = true.
Proof. rewrite !ltb_spec. apply SFltb_trans. Qed.

(** A price that is not below [y] is not below anything below [y], and
    dually for prices not above [y]: what the running minimum and maximum
    need when they move. *)
Lemma not_ltb_below (q x y : float) :
  (q <? y) = false -> (x <? y) = true -> (q <? x) = false.
Proof.
  intros Hq Hx. destruct (q <? x) eqn:E; [|reflexivity].
  rewrite (ltb_trans q x y E Hx) in Hq. discriminate.
Qed.

Lemma not_ltb_above (q x y : float) :
  (y <? q) = false -> (y <? x) = true -> (x <? q) = false.
Proof.
  intros Hq Hx. destruct (x <? q) eqn:E; [|reflexivity].
  rewrite (ltb_trans y x q Hx E) in Hq. discriminate.
Qed.

End FloatOrder.

(** ** Order lifecycle and inventory ledger *)

Section TradingFacts.

Import Trading.

Lemma ownedBy_with_DeletedAt userID itemID i t :
  ownedBy userID itemID (with_DeletedAt i (Some t)) = false.
Proof. reflexivity. Qed.

(** After [removeFromInventory] no row of the owner and item is visible. *)
Lemma holdings_removeFromInventory now order db :
  holdings (o_UserID order) (o_ItemID order) (removeFromInventory now order db) = [].
Proof.
  unfold holdings, removeFromInventory; simpl.
  induction (inventories db) as [|i l IH]; simpl; [reflexivity|].
  destruct (ownedBy (o_UserID order) (o_ItemID order) i) eqn:E.
  - rewrite ownedBy_with_DeletedAt. exact IH.
  - rewrite E. exact IH.
Qed.

Lemma removeFromInventory_deleted now order db i :
  In i (inventories (removeFromInventory now order db)) ->
  inv_UserID i = o_UserID order -> inv_ItemID i = o_ItemID order ->
  inv_DeletedAt i <> None.
Proof.
  unfold removeFromInventory; simpl. rewrite in_map_iff.
  intros (j & Hj & _) Hu Hi.
  destruct (ownedBy (o_UserID order) (o_ItemID order) j) eqn:E.
  - subst i. discriminate.
  - subst i. unfold ownedBy, live in E. rewrite Hu, Hi, !N.eqb_refl in E.
    destruct (inv_DeletedAt j); [discriminate|]. discriminate E.
Qed.

Lemma inventories_recordTransaction now order db :
  inventories (recordTransaction now order db) = inventories db.
Proof. reflexivity. Qed.

Lemma inventories_db_SaveOrder order db :
  inventories (db_SaveOrder order db) = inventories db.
Proof. unfold db_SaveOrder. destruct (existsb _ _); reflexivity. Qed.

(** The row [db.First] finds under a key after [db.Save] of a struct with
    that key is the struct. *)
Lemma db_FirstOrder_db_SaveOrder order db :
  db_FirstOrder (o_ID order) (db_SaveOrder order db) = Ok order.
Proof.
  unfold db_FirstOrder, db_SaveOrder.
  destruct (existsb _ _) eqn:E; simpl.
  - induction (orders db) as [|o l IH]; simpl in *; [discriminate|].
    destruct (o_ID o =? o_ID order)%N eqn:Eo; simpl.
    + rewrite N.eqb_refl. reflexivity.
    + rewrite Eo. apply IH. exact E.
  - induction (orders db) as [|o l IH]; simpl in *.
    + rewrite N.eqb_refl. reflexivity.
    + apply orb_false_iff in E as [Eo El]. rewrite Eo. apply IH. exact El.
Qed.

(** [checkInventory] fails exactly when every visible row of the owner and
    item that holds the quantity is locked. *)
Lemma checkInventory_false userID itemID quantity db :
  checkInventory userID itemID quantity db = false <->
  (forall i, In i (inventories db) -> ownedBy userID itemID i = true ->
             (quantity <= inv_Quantity i)%Z -> inv_Locked i = true).
Proof.
  unfold checkInventory.
  set (ok := fun i => ownedBy userID itemID i && (quantity <=? inv_Quantity i)%Z
                      && negb (inv_Locked i)).
  split.
  - intros H i Hi Ho Hq.
    destruct (inv_Locked i) eqn:L; [reflexivity|].
    assert (Hin : In i (List.filter ok (inventories db))).
    { apply filter_In. split; [exact Hi|]. unfold ok.
      rewrite Ho, L. apply Z.leb_le in Hq. rewrite Hq. reflexivity. }
    destruct (List.filter ok (inventories db)); [destruct Hin|discriminate H].
  - intros H.
    destruct (List.filter ok (inventories db)) as [|i l] eqn:E; [reflexivity|].
    assert (Hin : In i (List.filter ok (inventories db))) by (rewrite E; left; reflexivity).
    apply filter_In in Hin as [Hi Hok]. unfold ok in Hok.
    apply andb_true_iff in Hok as [Hok Hl]. apply andb_true_iff in Hok as [Ho Hq].
    apply Z.leb_le in Hq. rewrite (H i Hi Ho Hq) in Hl. discriminate.
Qed.

End TradingFacts.

Section TradingClaims.

Import Trading.
Local Open Scope float_scope.

(** The buy price [recordTransaction] scans after [removeFromInventory] ran
    for the same order is the zero the variable started with. *)
Lemma scanBuyPrice_removeFromInventory now order db :
  scanBuyPrice (o_UserID order) (o_ItemID order) (removeFromInventory now order db) = 0.
Proof.
  unfold scanBuyPrice.
  change (List.filter _ (inventories ?d)) with (holdings (o_UserID order) (o_ItemID order) d).
  rewrite holdings_removeFromInventory. reflexivity.
Qed.

(** What a successful sell execution records: the fee is 2.5% of the
    amount, and the profit is computed against a buy price of zero. *)
Lemma executeSellOrder_transaction cfg now order db :
  platformSell cfg order = None ->
  o_Type order = "sell" ->
  exists tx,
    transactions (executeSellOrder cfg now order db) = transactions db ++ [tx] /\
    tx_Amount tx = o_Price order * Float64.of_int (o_Quantity order) /\
    tx_Fee tx = tx_Amount tx * Float64.c_0_025 /\
    tx_Profit tx = (o_Price order - 0) * Float64.of_int (o_Quantity order) - tx_Fee tx.
Proof.
  intros Hok Hsell. unfold executeSellOrder. rewrite Hok.
  set (done := with_ExecutedAt (with_Status order "completed") (Some now)).
  assert (Htx : forall o d, transactions (db_SaveOrder o d) = transactions d).
  { intros o d. unfold db_SaveOrder. destruct (existsb _ _); reflexivity. }
  rewrite Htx. unfold recordTransaction at 1. simpl transactions.
  eexists. split; [reflexivity|]. simpl.
  change (o_Type order) with (o_Type done). subst done. simpl.
  rewrite Hsell. simpl.
  change (o_UserID order) with (o_UserID (with_ExecutedAt (with_Status order "completed") (Some now))).
  change (o_ItemID order) with (o_ItemID (with_ExecutedAt (with_Status order "completed") (Some now))).
  rewrite scanBuyPrice_removeFromInventory. repeat split; reflexivity.
Qed.

(** [CancelOrder] leaves the store as it is unless the stored status is
    pending. *)
Lemma CancelOrder_not_pending orderID userID db :
  statusOf orderID db <> Some "pending" ->
  fst (CancelOrder orderID userID db) = db.
Proof.
  unfold statusOf, CancelOrder. intros H.
  destruct (db_FirstOrder orderID db) as [order|msg]; [|reflexivity].
  destruct (negb (o_UserID order =? userID)%N); [reflexivity|].
  destruct (String.eqb_spec (o_Status order) "pending") as [Heq|Hne]; simpl.
  - rewrite Heq in H. destruct H. reflexivity.
  - reflexivity.
Qed.

(** The executor of a sell order stores the status it computes whatever
    the status of the row is. *)
Lemma executeSellOrder_status cfg now order db :
  statusOf (o_ID order) (executeSellOrder cfg now order db)
  = Some (match platformSell cfg order with
          | None => "completed"
          | Some _ => "failed"
          end).
Proof.
  unfold executeSellOrder, statusOf.
  destruct (platformSell cfg order) as [err|].
  - set (failed := with_FailedReason (with_Status order "failed") err).
    change (o_ID order) with (o_ID failed).
    rewrite db_FirstOrder_db_SaveOrder. reflexivity.
  - set (done := with_ExecutedAt (with_Status order "completed") (Some now)).
    change (o_ID order) with (o_ID done).
    rewrite db_FirstOrder_db_SaveOrder. reflexivity.
Qed.

(** C1 (code defect).  The executor of a sell order works on the struct it
    was started with and saves it without reading the row back, where
    [CancelOrder] does test the stored status.  Running the executor after a
    cancellation takes the order from cancelled to completed and deletes the
    inventory the cancellation had released; on an unsupported platform it
    takes the order from cancelled to failed and unlocks the inventory a
    second time, here under a later pending sell order that holds it. *)
Theorem C1_executor_overrides_cancelled_order :
  let cfg := mkTradingConfig true true in
  let held := mkInventory 1 None 1 7 1 50 "steam" 0 true false in
  let s0 := mkSystem (mkDB [] [held] []) [] in
  let s1 := run cfg [(10%Z, EvCreateSell 1 7 80 1 "steam"); (11%Z, EvCancel 1 1)] s0 in
  let s2 := run cfg [(12%Z, EvRun 0)] s1 in
  let t1 := run cfg [(10%Z, EvCreateSell 1 7 80 1 "c5game"); (11%Z, EvCancel 1 1);
                     (12%Z, EvCreateSell 1 7 90 1 "steam")] s0 in
  let t2 := run cfg [(13%Z, EvRun 0)] t1 in
  (statusOf 1 (sys_db s1) = Some "cancelled" /\
   holdings 1 7 (sys_db s1) = [held] /\
   statusOf 1 (sys_db s2) = Some "completed" /\
   holdings 1 7 (sys_db s2) = [] /\
   List.map tx_OrderID (transactions (sys_db s2)) = [1%N]) /\
  (statusOf 1 (sys_db t1) = Some "cancelled" /\
   statusOf 2 (sys_db t1) = Some "pending" /\
   List.map inv_Locked (holdings 1 7 (sys_db t1)) = [true] /\
   statusOf 1 (sys_db t2) = Some "failed" /\
   statusOf 2 (sys_db t2) = Some "pending" /\
   List.map inv_Locked (holdings 1 7 (sys_db t2)) = [false]).
Proof. vm_compute. repeat split. Qed.

(** C4 (code defect).  [executeSellOrder] removes the inventory of the owner
    and item before it calls [recordTransaction], so the buy price scanned
    there is zero: a sell of quantity 1 at 80 of an item acquired at 50 is
    recorded with fee 2 and profit 78.  The same [recordTransaction] called
    while the row is still there gives the 28 of the formula. *)
Theorem C4_sell_profit_computed_after_removal :
  let cfg := mkTradingConfig true true in
  let held := mkInventory 1 None 1 7 1 50 "steam" 0 true false in
  let s0 := mkSystem (mkDB [] [held] []) [] in
  let s1 := run cfg [(10%Z, EvCreateSell 1 7 80 1 "steam")] s0 in
  let s2 := run cfg [(11%Z, EvRun 0)] s1 in
  let order := mkOrder 1 1 7 "sell" "pending" 80 1 "steam" None "" in
  sys_tasks s1 = [TaskSell order] /\
  statusOf 1 (sys_db s2) = Some "completed" /\
  List.map tx_Fee (transactions (sys_db s2)) = [2] /\
  List.map tx_Profit (transactions (sys_db s2)) = [78] /\
  (78 =? 28) = false /\
  List.map tx_Profit (transactions (recordTransaction 11 order (sys_db s1))) = [28].
Proof. vm_compute. repeat split. Qed.

(** C10.  A successful sell execution leaves no visible inventory row of
    the order's owner and item, whatever the quantity of the order and of
    the rows: every such row is deleted, and the order is completed. *)
Theorem C10_sell_completion_deletes_every_row cfg now order db :
  platformSell cfg order = None ->
  let db' := executeSellOrder cfg now order db in
  statusOf (o_ID order) db' = Some "completed" /\
  holdings (o_UserID order) (o_ItemID order) db' = [] /\
  (forall i, In i (inventories db') ->
             inv_UserID i = o_UserID order -> inv_ItemID i = o_ItemID order ->
             inv_DeletedAt i <> None).
Proof.
  intros Hok db'. subst db'. unfold executeSellOrder. rewrite Hok.
  set (done := with_ExecutedAt (with_Status order "completed") (Some now)).
  split; [|split].
  - unfold statusOf. change (o_ID order) with (o_ID done).
    rewrite db_FirstOrder_db_SaveOrder. reflexivity.
  - unfold holdings. rewrite inventories_db_SaveOrder, inventories_recordTransaction.
    apply (holdings_removeFromInventory now done db).
  - intros i. rewrite inventories_db_SaveOrder, inventories_recordTransaction.
    apply (removeFromInventory_deleted now done db).
Qed.

(** The owner holds five units in one row and two in another and sells one
    unit: both rows are gone. *)
Lemma C10_witness :
  let cfg := mkTradingConfig true true in
  let order := mkOrder 1 1 7 "sell" "pending" 80 1 "steam" None "" in
  let db := mkDB [order]
                 [mkInventory 1 None 1 7 5 50 "steam" 0 true true;
                  mkInventory 2 None 1 7 2 40 "buff" 0 true true] [] in
  platformSell cfg order = None /\
  statusOf 1 (executeSellOrder cfg 11 order db) = Some "completed" /\
  holdings 1 7 (executeSellOrder cfg 11 order db) = [] /\
  (forall i, In i (inventories (executeSellOrder cfg 11 order db)) ->
             inv_UserID i = 1%N -> inv_ItemID i = 7%N -> inv_DeletedAt i <> None).
Proof.
  split; [reflexivity|].
  apply (C10_sell_completion_deletes_every_row
           (mkTradingConfig true true) 11
           (mkOrder 1 1 7 "sell" "pending" 80 1 "steam" None "")).
  reflexivity.
Defined.

End TradingClaims.

Section CreationClaims.

Import Trading.
Local Open Scope float_scope.

(** C2 fails as stated: with the only row of sufficient quantity locked the
    lock step is to fail with AlreadyLocked, and with no row at all with
    InsufficientInventory; the code answers both with the same error. *)
Lemma C2_locked_row_reported_as_insufficient :
  let locked := mkDB [] [mkInventory 1 None 1 7 5 50 "steam" 0 true true] [] in
  let empty := mkDB [] [] [] in
  TryLock_failure_spec 1 7 1 locked = Some AlreadyLocked /\
  TryLock_failure_spec 1 7 1 empty = Some InsufficientInventory /\
  CreateSellOrder 1 7 80 1 "steam" locked = (locked, Err "insufficient inventory") /\
  CreateSellOrder 1 7 80 1 "steam" empty = (empty, Err "insufficient inventory").
Proof. vm_compute. repeat split. Qed.

(** C2 (amended).  The lock step of a sell creation has one failure: when
    every visible row of the owner and item that holds the requested
    quantity is locked, none existing included, the creation returns the
    error "insufficient inventory" and leaves the store as it was, so no
    order is persisted and no goroutine started; and a creation that fails
    fails in this way. *)
Theorem C2_sell_creation_single_failure userID itemID price quantity platform db :
  ((forall i, In i (inventories db) -> ownedBy userID itemID i = true ->
              (quantity <= inv_Quantity i)%Z -> inv_Locked i = true) ->
   CreateSellOrder userID itemID price quantity platform db
   = (db, Err "insufficient inventory")) /\
  (forall db' msg,
     CreateSellOrder userID itemID price quantity platform db = (db', Err msg) ->
     db' = db /\ msg = "insufficient inventory" /\
     (forall i, In i (inventories db) -> ownedBy userID itemID i = true ->
                (quantity <= inv_Quantity i)%Z -> inv_Locked i = true)).
Proof.
  unfold CreateSellOrder. split.
  - intros H. apply checkInventory_false in H. rewrite H. reflexivity.
  - intros db' msg.
    destruct (checkInventory userID itemID quantity db) eqn:E; simpl.
    + intros H. inversion H.
    + intros H. inversion H; subst. repeat split.
      apply checkInventory_false. exact E.
Qed.

End CreationClaims.

(** ** Order creation behind its handlers *)

Section HandlerClaims.

Import Trading.
Local Open Scope float_scope.

Lemma positive_of_required_min (x : float) :
  (x =? 0) = false -> (0 <=? x) = true -> (0 <? x) = true.
Proof.
  rewrite FloatAxioms.eqb_spec, FloatAxioms.leb_spec, FloatAxioms.ltb_spec.
  change (Prim2SF 0) with (S754_zero false).
  destruct (Prim2SF x) as [s|s| |s m e]; try destruct s; cbv; congruence.
Qed.

Lemma nonpositive_refused (x : float) :
  (x <=? 0) = true -> (x =? 0) = true \/ (0 <=? x) = false.
Proof.
  rewrite FloatAxioms.eqb_spec, !FloatAxioms.leb_spec.
  change (Prim2SF 0) with (S754_zero false).
  destruct (Prim2SF x) as [s|s| |s m e]; try destruct s; cbv; auto.
Qed.

Lemma bindingValid_ok (req : Api.OrderRequest) :
  Api.bindingValid req = true ->
  (0 <? Api.req_Price req) = true /\ (1 <= Api.req_Quantity req)%Z.
Proof.
  unfold Api.bindingValid, Api.required_float, Api.min_float, Api.min_int,
    Float64.geb.
  rewrite !andb_true_iff, negb_true_iff.
  intros [[[_ [Hne Hge]] [_ Hq]] _]. split.
  - apply positive_of_required_min; assumption.
  - apply Z.leb_le. exact Hq.
Qed.

Lemma bindingValid_refuses (req : Api.OrderRequest) :
  (Api.req_Price req <=? 0) = true \/ (Api.req_Quantity req < 1)%Z ->
  Api.bindingValid req = false.
Proof.
  unfold Api.bindingValid, Api.required_float, Api.min_float, Api.min_int,
    Float64.geb.
  intros [Hp|Hq].
  - apply nonpositive_refused in Hp as [-> | ->]; simpl;
      rewrite ?andb_false_r; reflexivity.
  - apply Z.leb_gt in Hq. rewrite Hq. rewrite !andb_false_r. reflexivity.
Qed.

Lemma db_SaveOrder_ok order db :
  Api.priceAndQuantityOk order ->
  Forall Api.priceAndQuantityOk (orders db) ->
  Forall Api.priceAndQuantityOk (orders (db_SaveOrder order db)).
Proof.
  intros Ho Hall. unfold db_SaveOrder.
  destruct (existsb _ (orders db)); simpl.
  - induction Hall as [|o l Hok _ IH]; simpl; constructor; [|exact IH].
    destruct (o_ID o =? o_ID order)%N; assumption.
  - apply Forall_app. split; [exact Hall|]. constructor; [exact Ho|constructor].
Qed.

Lemma runTask_ok cfg now t db :
  Api.priceAndQuantityOk (Api.taskOrder t) ->
  Forall Api.priceAndQuantityOk (orders db) ->
  Forall Api.priceAndQuantityOk (orders (runTask cfg now t db)).
Proof.
  intros Ho Hall.
  destruct t as [order|order]; simpl in *;
    [unfold executeBuyOrder; destruct (platformBuy cfg order)
    |unfold executeSellOrder; destruct (platformSell cfg order)];
    apply db_SaveOrder_ok; try exact Ho; exact Hall.
Qed.

Lemma CancelOrder_ok orderID userID db :
  Forall Api.priceAndQuantityOk (orders db) ->
  Forall Api.priceAndQuantityOk (orders (fst (Trading.CancelOrder orderID userID db))).
Proof.
  intros Hall. unfold Trading.CancelOrder, db_FirstOrder.
  destruct (List.find _ (orders db)) as [order|] eqn:E; [|exact Hall].
  apply find_some in E as [Hin _].
  assert (Ho : Api.priceAndQuantityOk order).
  { rewrite List.Forall_forall in Hall. apply Hall. exact Hin. }
  destruct (negb (o_UserID order =? userID)%N); [exact Hall|].
  destruct (negb (o_Status order =? "pending")%string); [exact Hall|].
  simpl. apply db_SaveOrder_ok; [exact Ho|].
  destruct (o_Type order =? "sell")%string; exact Hall.
Qed.

Lemma handleRequest_ok cfg now r s :
  Api.ordersOk s -> Api.ordersOk (Api.handleRequest cfg now r s).
Proof.
  intros [Hdb Htasks]. destruct r as [userID body|userID body|userID id|k]; simpl.
  - unfold Api.CreateBuyOrder. destruct body as [req|]; [|split; simpl; rewrite ?app_nil_r; assumption].
    destruct (Api.bindingValid req) eqn:Hv; simpl;
      [|split; simpl; rewrite ?app_nil_r; assumption].
    apply bindingValid_ok in Hv.
    unfold Trading.CreateBuyOrder, db_CreateOrder. simpl. split; simpl.
    + apply Forall_app. split; [exact Hdb|]. constructor; [exact Hv|constructor].
    + apply Forall_app. split; [exact Htasks|]. constructor; [exact Hv|constructor].
  - unfold Api.CreateSellOrder. destruct body as [req|]; [|split; simpl; rewrite ?app_nil_r; assumption].
    destruct (Api.bindingValid req) eqn:Hv; simpl;
      [|split; simpl; rewrite ?app_nil_r; assumption].
    apply bindingValid_ok in Hv.
    unfold Trading.CreateSellOrder, db_CreateOrder.
    destruct (checkInventory _ _ _ _); simpl;
      [|split; simpl; rewrite ?app_nil_r; assumption].
    split; simpl.
    + apply Forall_app. split; [exact Hdb|]. constructor; [exact Hv|constructor].
    + apply Forall_app. split; [exact Htasks|]. constructor; [exact Hv|constructor].
  - split; simpl; [|exact Htasks]. unfold Api.CancelOrder.
    destruct id as [orderID|]; [|exact Hdb].
    pose proof (CancelOrder_ok orderID userID (sys_db s) Hdb) as H.
    destruct (Trading.CancelOrder orderID userID (sys_db s)) as [db' [msg|]]; exact H.
  - destruct (nth_error (sys_tasks s) k) as [t|] eqn:E; [|split; assumption].
    assert (Ht : Api.priceAndQuantityOk (Api.taskOrder t)).
    { rewrite List.Forall_forall in Htasks. apply Htasks.
      apply nth_error_In with k. exact E. }
    split; simpl.
    + apply runTask_ok; assumption.
    + apply Forall_app. split; [apply Forall_take|apply Forall_drop]; exact Htasks.
Qed.

Lemma handleRequests_ok cfg requests s :
  Api.ordersOk s -> Api.ordersOk (Api.handleRequests cfg requests s).
Proof.
  unfold Api.handleRequests. revert s.
  induction requests as [|[now r] requests IH]; intros s Hs; simpl; [exact Hs|].
  apply IH. apply handleRequest_ok. exact Hs.
Qed.

(** C3.  The creation calls of the service are reached through their two
    handlers only, and the handlers validate the body before the call: a
    request whose price is at most zero or whose quantity is below one is
    answered with 400 at once, the store is left as it was and no
    goroutine is started; a request that passes is handed to the service
    with its price and quantity, and a buy, and a sell whose inventory
    check passes, is then persisted as one pending order that carries
    them.  So along every run of the service behind its
    handlers (creations, cancellations and the started executors in any
    order), from a store whose orders have a price above zero and a
    quantity of at least one, the empty store among them, every persisted
    order has. *)
Theorem C3_handlers_validate_price_and_quantity
    (cfg : TradingConfig) (requests : list (Z * Api.Request)) (s : System)
    (userID : N) (req : Api.OrderRequest) :
  ((Api.req_Price req <=? 0) = true \/ (Api.req_Quantity req < 1)%Z ->
   Api.CreateBuyOrder userID (Some req) (sys_db s)
   = (sys_db s, [], Api.StatusBadRequest) /\
   Api.CreateSellOrder userID (Some req) (sys_db s)
   = (sys_db s, [], Api.StatusBadRequest)) /\
  (Api.bindingValid req = true ->
   exists order,
     Api.CreateBuyOrder userID (Some req) (sys_db s)
     = (mkDB (orders (sys_db s) ++ [order]) (inventories (sys_db s))
             (transactions (sys_db s)),
        [TaskBuy order], Api.StatusCreated order) /\
     o_Status order = "pending" /\
     o_Price order = Api.req_Price req /\
     o_Quantity order = Api.req_Quantity req /\
     Api.priceAndQuantityOk order) /\
  (Api.bindingValid req = true ->
   checkInventory userID (Api.req_ItemID req) (Api.req_Quantity req) (sys_db s)
   = true ->
   exists order db',
     Api.CreateSellOrder userID (Some req) (sys_db s)
     = (db', [TaskSell order], Api.StatusCreated order) /\
     orders db' = orders (sys_db s) ++ [order] /\
     o_Status order = "pending" /\
     o_Price order = Api.req_Price req /\
     o_Quantity order = Api.req_Quantity req /\
     Api.priceAndQuantityOk order) /\
  (Forall Api.priceAndQuantityOk (orders (sys_db s)) ->
   Forall (fun t => Api.priceAndQuantityOk (Api.taskOrder t)) (sys_tasks s) ->
   Forall Api.priceAndQuantityOk
          (orders (sys_db (Api.handleRequests cfg requests s)))).
Proof.
  split; [|split; [|split]].
  - intros H. apply bindingValid_refuses in H.
    unfold Api.CreateBuyOrder, Api.CreateSellOrder. rewrite H. split; reflexivity.
  - intros Hv. unfold Api.CreateBuyOrder. rewrite Hv. simpl.
    eexists. split; [reflexivity|]. simpl. repeat split; try reflexivity.
    + apply bindingValid_ok. exact Hv.
    + apply bindingValid_ok. exact Hv.
  - intros Hv Hcheck. unfold Api.CreateSellOrder, Trading.CreateSellOrder.
    rewrite Hv, Hcheck. simpl.
    eexists. eexists. split; [reflexivity|]. simpl. repeat split; try reflexivity.
    + apply bindingValid_ok. exact Hv.
    + apply bindingValid_ok. exact Hv.
  - intros Hdb Htasks.
    exact (proj1 (handleRequests_ok cfg requests s (conj Hdb Htasks))).
Qed.

(** From the empty store: a rejected sell, a rejected buy, a buy that
    passes, its executor, and a cancellation. *)
Lemma C3_witness :
  let cfg := mkTradingConfig true true in
  let s := mkSystem (mkDB [] [] []) [] in
  let requests :=
    [(1%Z, Api.PostSellOrder 1 (Some (Api.mkOrderRequest 7 (-5) 1 "steam")));
     (2%Z, Api.PostBuyOrder 1 (Some (Api.mkOrderRequest 7 80 0 "steam")));
     (3%Z, Api.PostBuyOrder 1 (Some (Api.mkOrderRequest 7 80 2 "steam")));
     (4%Z, Api.Goroutine 0);
     (5%Z, Api.DeleteOrder 1 (Some 1%N))] in
  Forall Api.priceAndQuantityOk (orders (sys_db s)) /\
  Forall (fun t => Api.priceAndQuantityOk (Api.taskOrder t)) (sys_tasks s) /\
  length (orders (sys_db (Api.handleRequests cfg requests s))) = 1%nat /\
  Forall Api.priceAndQuantityOk
         (orders (sys_db (Api.handleRequests cfg requests s))).
Proof.
  split; [constructor|]. split; [constructor|]. split; [reflexivity|].
  apply (C3_handlers_validate_price_and_quantity
           (mkTradingConfig true true) _ (mkSystem (mkDB [] [] []) []) 1
           (Api.mkOrderRequest 7 80 2 "steam")); constructor.
Defined.

End HandlerClaims.

(** ** Price store *)

Section PriceStoreClaims.

Import Models PriceService.
Local Open Scope float_scope.

Lemma entriesFor_app itemID platform timestamp l1 l2 :
  entriesFor itemID platform timestamp (l1 ++ l2)
  = (entriesFor itemID platform timestamp l1
     + entriesFor itemID platform timestamp l2)%nat.
Proof. unfold entriesFor. rewrite List.filter_app, length_app. reflexivity. Qed.

(** C5 fails as stated: a point recorded twice is in the history twice, and
    a point with a negative price and a negative volume is accepted. *)
Lemma C5_same_point_recorded_twice :
  let point := mkPrice 0 7 "buff" (-1) (-3) "CNY" 1700000000 in
  let once := fst (SavePrice point []) in
  let twice := fst (SavePrice point once) in
  (-1 <=? 0) = true /\ (-3 <? 0)%Z = true /\
  snd (SavePrice point []) = None /\
  snd (SavePrice point once) = None /\
  entriesFor 7 "buff" 1700000000 twice = 2%nat.
Proof. vm_compute. repeat split. Qed.

(** C5 (amended).  [SavePrice] is an insert: a point that comes without a
    key, as the collectors build it, is appended to the history whatever
    its price and volume, no error is returned, and the number of entries
    of its (item, venue, observedAt) grows by one, so recording it twice
    adds two entries. *)
Theorem C5_SavePrice_appends price prices :
  p_ID price = 0%N ->
  let triple := entriesFor (p_ItemID price) (p_Platform price) (p_Timestamp price) in
  let once := fst (SavePrice price prices) in
  let twice := fst (SavePrice price once) in
  snd (SavePrice price prices) = None /\
  snd (SavePrice price once) = None /\
  (exists row, once = prices ++ [row] /\
               p_Price row = p_Price price /\ p_Volume row = p_Volume price) /\
  triple once = S (triple prices) /\
  triple twice = S (S (triple prices)).
Proof.
  intros Hid triple once twice.
  assert (Hsave : forall l, SavePrice price l
    = (l ++ [mkPrice (nextID (List.map p_ID l)) (p_ItemID price) (p_Platform price)
                     (p_Price price) (p_Volume price)
                     (if (p_Currency price =? "")%string then "USD" else p_Currency price)
                     (p_Timestamp price)], None)).
  { intros l. unfold SavePrice, db_Create. rewrite Hid. reflexivity. }
  assert (Hone : forall l, triple (fst (SavePrice price l)) = S (triple l)).
  { intros l. rewrite Hsave. simpl fst. unfold triple. rewrite entriesFor_app.
    unfold entriesFor at 2, sameTriple. simpl.
    rewrite N.eqb_refl, String.eqb_refl, Z.eqb_refl. simpl. lia. }
  subst once twice. repeat split.
  - rewrite Hsave. reflexivity.
  - rewrite Hsave. reflexivity.
  - rewrite Hsave. eexists. split; [reflexivity|]. split; reflexivity.
  - apply Hone.
  - rewrite Hone, Hone. reflexivity.
Qed.

Lemma C5_witness :
  let point := mkPrice 0 7 "buff" 12 3 "CNY" 1700000000 in
  let earlier := [mkPrice 1 7 "buff" 12 3 "CNY" 1700000000] in
  let triple := entriesFor 7 "buff" 1700000000 in
  p_ID point = 0%N /\
  snd (SavePrice point earlier) = None /\
  snd (SavePrice point (fst (SavePrice point earlier))) = None /\
  (exists row, fst (SavePrice point earlier) = earlier ++ [row] /\
               p_Price row = 12 /\ p_Volume row = 3%Z) /\
  triple (fst (SavePrice point earlier)) = S (triple earlier) /\
  triple (fst (SavePrice point (fst (SavePrice point earlier)))) = S (S (triple earlier)).
Proof.
  split; [reflexivity|].
  apply (C5_SavePrice_appends (mkPrice 0 7 "buff" 12 3 "CNY" 1700000000)
                              [mkPrice 1 7 "buff" 12 3 "CNY" 1700000000]).
  reflexivity.
Defined.

End PriceStoreClaims.

(** ** Arbitrage detection *)

Section ArbitrageClaims.

Import Models PriceService.
Local Open Scope float_scope.

Lemma in_pairOpportunity item minProfitPercent v1 p1 v2 p2 opp :
  In opp (pairOpportunity item minProfitPercent (v1, p1) (v2, p2)) <->
  v1 <> v2 /\ (p_Price p1 <? p_Price p2) = true /\
  Float64.geb ((p_Price p2 - p_Price p1) / p_Price p1 * 100) minProfitPercent = true /\
  opp = opportunity item v1 v2 p1 p2.
Proof.
  unfold pairOpportunity.
  destruct (String.eqb_spec v1 v2) as [Heq|Hne]; simpl.
  - split; [intros []|intros (H & _); contradiction].
  - destruct (p_Price p1 <? p_Price p2); simpl.
    + destruct (Float64.geb _ _); simpl.
      * split.
        -- intros [<-|[]]. repeat split; assumption.
        -- intros (_ & _ & _ & ->). left. reflexivity.
      * split; [intros []|intros (_ & _ & H & _); discriminate].
    + split; [intros []|intros (_ & H & _); discriminate].
Qed.

Lemma venues_pairOpportunity item minProfitPercent e1 e2 opp :
  In opp (pairOpportunity item minProfitPercent e1 e2) ->
  venues opp = (fst e1, fst e2).
Proof.
  destruct e1 as [v1 p1], e2 as [v2 p2]. rewrite in_pairOpportunity.
  intros (_ & _ & _ & ->). reflexivity.
Qed.

(** At most one opportunity per venue of the inner loop. *)
Lemma NoDup_venues_inner item minProfitPercent e1 (l : list (string * Price)) :
  NoDup (l.*1) ->
  NoDup (List.map venues (flat_map (pairOpportunity item minProfitPercent e1) l)).
Proof.
  induction l as [|e2 l IH]; simpl; intros Hnd; [constructor|].
  apply NoDup_cons in Hnd as [Hnotin Hnd].
  rewrite List.map_app. apply NoDup_app. split; [|split].
  - destruct e1 as [v1 p1], e2 as [v2 p2]. unfold pairOpportunity.
    destruct (_ && _); [|constructor].
    destruct (Float64.geb _ _); simpl; [|constructor].
    apply NoDup_singleton.
  - intros vs H1 H2.
    apply list_elem_of_In, in_map_iff in H1 as (o1 & <- & Ho1).
    apply list_elem_of_In, in_map_iff in H2 as (o2 & Heq & Ho2).
    apply in_flat_map in Ho2 as (e3 & He3 & Ho2).
    apply venues_pairOpportunity in Ho1, Ho2.
    rewrite Ho1, Ho2 in Heq. injection Heq as Heq.
    apply Hnotin. rewrite <- Heq.
    apply list_elem_of_fmap. exists e3. split; [reflexivity|].
    apply list_elem_of_In. exact He3.
  - apply IH. exact Hnd.
Qed.

Lemma NoDup_venues_loops item minProfitPercent
    (outer : list (string * Price)) (inner : string -> list (string * Price)) :
  NoDup (outer.*1) -> (forall k, NoDup ((inner k).*1)) ->
  NoDup (List.map venues
           (flat_map (fun e1 => flat_map (pairOpportunity item minProfitPercent e1)
                                         (inner (fst e1))) outer)).
Proof.
  intros Hout Hin. induction outer as [|e1 outer IH]; simpl; [constructor|].
  simpl in Hout. apply NoDup_cons in Hout as [Hnotin Hout].
  rewrite List.map_app. apply NoDup_app. split; [|split].
  - apply NoDup_venues_inner, Hin.
  - intros vs H1 H2.
    apply list_elem_of_In, in_map_iff in H1 as (o1 & <- & Ho1).
    apply list_elem_of_In, in_map_iff in H2 as (o2 & Heq & Ho2).
    apply in_flat_map in Ho1 as (e2 & _ & Ho1).
    apply in_flat_map in Ho2 as (e3 & He3 & Ho2).
    apply in_flat_map in Ho2 as (e4 & _ & Ho2).
    apply venues_pairOpportunity in Ho1, Ho2.
    rewrite Ho1, Ho2 in Heq. injection Heq as Heq _.
    apply Hnotin. rewrite <- Heq.
    apply list_elem_of_fmap. exists e3. split; [reflexivity|].
    apply list_elem_of_In. exact He3.
  - apply IH. exact Hout.
Qed.

(** The opportunities of the whole call are those of its items. *)
Lemma in_GetArbitrageOpportunities items latest minProfitPercent opp :
  In opp (GetArbitrageOpportunities items latest minProfitPercent) <->
  exists item outer inner,
    In item items /\ latest (it_ID item) = Some (outer, inner) /\
    In opp (itemOpportunities item outer inner minProfitPercent).
Proof.
  unfold GetArbitrageOpportunities. rewrite in_flat_map. split.
  - intros (item & Hitem & Hopp).
    destruct (latest (it_ID item)) as [[outer inner]|] eqn:E; [|destruct Hopp].
    exists item, outer, inner. repeat split; assumption.
  - intros (item & outer & inner & Hitem & E & Hopp).
    exists item. split; [exact Hitem|]. rewrite E. exact Hopp.
Qed.

Lemma two_entries_length (m : gmap string Price) v1 v2 p1 p2 :
  m !! v1 = Some p1 -> m !! v2 = Some p2 -> v1 <> v2 ->
  (2 <= length (map_to_list m))%nat.
Proof.
  intros H1 H2 Hne.
  apply elem_of_map_to_list in H1, H2.
  destruct (map_to_list m) as [|a [|b l]]; simpl; [| |lia].
  - apply elem_of_nil in H1. destruct H1.
  - apply list_elem_of_singleton in H1, H2. congruence.
Qed.

Lemma in_entries (m : gmap string Price) (l : list (string * Price)) v p :
  l ≡ₚ map_to_list m -> (In (v, p) l <-> m !! v = Some p).
Proof.
  intros Hl. rewrite <- list_elem_of_In, Hl. apply elem_of_map_to_list.
Qed.

Lemma NoDup_entries (m : gmap string Price) (l : list (string * Price)) :
  l ≡ₚ map_to_list m -> NoDup (l.*1).
Proof. intros ->. apply NoDup_fst_map_to_list. Qed.

End ArbitrageClaims.

Section ArbitrageTheorem.

Import Models PriceService.
Local Open Scope float_scope.

Lemma itemOpportunities_AB item outer inner :
  outer ≡ₚ map_to_list quotesAB ->
  (forall k, inner k ≡ₚ map_to_list quotesAB) ->
  itemOpportunities item outer inner 10
  = [mkArbitrageOpportunity item "A" "B" 100 112 12 12] /\
  itemOpportunities item outer inner 15 = [].
Proof.
  assert (Hl : map_to_list quotesAB = [("A", quoteA); ("B", quoteB)])
    by (vm_compute; reflexivity).
  intros Hout Hin.
  rewrite Hl in Hout. symmetry in Hout.
  apply Permutation_length_2_inv in Hout.
  pose proof (Hin "A") as HA. pose proof (Hin "B") as HB.
  rewrite Hl in HA, HB. symmetry in HA, HB.
  apply Permutation_length_2_inv in HA, HB.
  unfold itemOpportunities.
  destruct Hout as [-> | ->]; simpl;
    destruct HA as [-> | ->], HB as [-> | ->];
    vm_compute; split; reflexivity.
Qed.

(** The work on one item: membership by ordered pairs, and no ordered
    pair twice. *)
Lemma itemOpportunities_spec
    (item : Item) (m : gmap string Price)
    (outer : list (string * Price)) (inner : string -> list (string * Price))
    (minProfitPercent : float) :
  outer ≡ₚ map_to_list m ->
  (forall k, inner k ≡ₚ map_to_list m) ->
  let result := itemOpportunities item outer inner minProfitPercent in
  (forall opp,
     In opp result <->
     exists vBuy vSell pBuy pSell,
       m !! vBuy = Some pBuy /\ m !! vSell = Some pSell /\ vBuy <> vSell /\
       (p_Price pBuy <? p_Price pSell) = true /\
       Float64.geb ((p_Price pSell - p_Price pBuy) / p_Price pBuy * 100)
                   minProfitPercent = true /\
       opp = opportunity item vBuy vSell pBuy pSell) /\
  NoDup (List.map venues result).
Proof.
  intros Hout Hin result. subst result. split.
  - intros opp. unfold itemOpportunities.
    destruct (length outer <? 2)%nat eqn:Hlen.
    + split; [intros []|].
      intros (vBuy & vSell & pBuy & pSell & H1 & H2 & Hne & _).
      pose proof (two_entries_length m vBuy vSell pBuy pSell H1 H2 Hne) as Hge.
      rewrite <- Hout in Hge. apply Nat.ltb_lt in Hlen. lia.
    + rewrite in_flat_map. split.
      * intros ([v1 p1] & He1 & Hopp).
        apply in_flat_map in Hopp as ([v2 p2] & He2 & Hopp). simpl in He2.
        apply in_pairOpportunity in Hopp as (Hne & Hlt & Hge & ->).
        exists v1, v2, p1, p2.
        apply (in_entries m outer) in He1; [|exact Hout].
        apply (in_entries m (inner v1)) in He2; [|apply Hin].
        repeat split; assumption.
      * intros (vBuy & vSell & pBuy & pSell & H1 & H2 & Hne & Hlt & Hge & ->).
        exists (vBuy, pBuy). split.
        -- apply (in_entries m outer); assumption.
        -- apply in_flat_map. exists (vSell, pSell). split.
           ++ simpl. apply (in_entries m (inner vBuy)); [apply Hin|assumption].
           ++ apply in_pairOpportunity. repeat split; assumption.
  - unfold itemOpportunities. destruct (length outer <? 2)%nat; [constructor|].
    apply NoDup_venues_loops.
    + apply (NoDup_entries m). exact Hout.
    + intros k. apply (NoDup_entries m). apply Hin.
Qed.

Lemma Item_itemOpportunities item outer inner minProfitPercent opp :
  In opp (itemOpportunities item outer inner minProfitPercent) ->
  Item_ opp = item.
Proof.
  unfold itemOpportunities. destruct (length outer <? 2)%nat; [intros []|].
  intros H. apply in_flat_map in H as ([v1 p1] & _ & H).
  apply in_flat_map in H as ([v2 p2] & _ & H).
  apply in_pairOpportunity in H as (_ & _ & _ & ->). reflexivity.
Qed.

(** C6.  [GetArbitrageOpportunities], for every table of items and every
    map [m id] of the latest prices per venue of each item, in whatever
    order the two loops range over a map: the opportunities emitted are
    those of the items whose latest prices could be read and of the ordered
    pairs of distinct venues (vBuy, vSell) of such an item whose sell price
    exceeds the buy price and whose profit percentage reaches
    [minProfitPercent], with the prices, the profit and the percentage of
    that pair; no item and ordered pair gets two.  With one item priced at
    100 on A and 112 on B, the call with threshold 10 gives the one
    opportunity (buy A, sell B, profit 12, 12 percent) and the call with
    threshold 15 gives none. *)
Theorem C6_arbitrage_per_ordered_pair
    (items : list Item) (latest : LatestPrices) (m : N -> gmap string Price)
    (minProfitPercent : float) :
  (forall item outer inner,
     In item items -> latest (it_ID item) = Some (outer, inner) ->
     outer ≡ₚ map_to_list (m (it_ID item)) /\
     forall k, inner k ≡ₚ map_to_list (m (it_ID item))) ->
  let result := GetArbitrageOpportunities items latest minProfitPercent in
  (forall opp,
     In opp result <->
     exists item vBuy vSell pBuy pSell,
       In item items /\ latest (it_ID item) <> None /\
       m (it_ID item) !! vBuy = Some pBuy /\
       m (it_ID item) !! vSell = Some pSell /\ vBuy <> vSell /\
       (p_Price pBuy <? p_Price pSell) = true /\
       Float64.geb ((p_Price pSell - p_Price pBuy) / p_Price pBuy * 100)
                   minProfitPercent = true /\
       opp = opportunity item vBuy vSell pBuy pSell) /\
  (NoDup items -> NoDup (List.map (fun o => (Item_ o, venues o)) result)) /\
  (forall item,
     items = [item] -> latest (it_ID item) <> None ->
     m (it_ID item) = quotesAB ->
     GetArbitrageOpportunities items latest 10
     = [mkArbitrageOpportunity item "A" "B" 100 112 12 12] /\
     GetArbitrageOpportunities items latest 15 = []).
Proof.
  intros Hlatest result. subst result. split; [|split].
  - intros opp. rewrite in_GetArbitrageOpportunities. split.
    + intros (item & outer & inner & Hitem & E & Hopp).
      destruct (Hlatest item outer inner Hitem E) as [Hout Hin].
      apply (itemOpportunities_spec item _ outer inner _ Hout Hin) in Hopp
        as (vBuy & vSell & pBuy & pSell & H).
      exists item, vBuy, vSell, pBuy, pSell.
      split; [exact Hitem|]. split; [rewrite E; discriminate|exact H].
    + intros (item & vBuy & vSell & pBuy & pSell & Hitem & Hsome & H).
      destruct (latest (it_ID item)) as [[outer inner]|] eqn:E; [|destruct Hsome; reflexivity].
      exists item, outer, inner. split; [exact Hitem|]. split; [exact E|].
      destruct (Hlatest item outer inner Hitem E) as [Hout Hin].
      apply (itemOpportunities_spec item _ outer inner _ Hout Hin).
      exists vBuy, vSell, pBuy, pSell. exact H.
  - unfold GetArbitrageOpportunities.
    induction items as [|item items IH]; intros Hnd; simpl; [constructor|].
    apply NoDup_cons in Hnd as [Hnotin Hnd].
    rewrite List.map_app. apply NoDup_app. split; [|split].
    + destruct (latest (it_ID item)) as [[outer inner]|] eqn:E; [|constructor].
      destruct (Hlatest item outer inner (or_introl eq_refl) E) as [Hout Hin].
      apply (NoDup_fmap_1 snd). rewrite <- list_fmap_compose.
      exact (proj2 (itemOpportunities_spec item _ outer inner minProfitPercent
                      Hout Hin)).
    + intros key H1 H2.
      apply list_elem_of_In, in_map_iff in H1 as (o1 & <- & Ho1).
      apply list_elem_of_In, in_map_iff in H2 as (o2 & Heq & Ho2).
      destruct (latest (it_ID item)) as [[outer inner]|]; [|destruct Ho1].
      apply Item_itemOpportunities in Ho1.
      apply in_flat_map in Ho2 as (item2 & Hitem2 & Ho2).
      destruct (latest (it_ID item2)) as [[outer2 inner2]|]; [|destruct Ho2].
      apply Item_itemOpportunities in Ho2.
      injection Heq as Heq _. apply Hnotin.
      rewrite <- Ho1, <- Heq, Ho2. apply list_elem_of_In. exact Hitem2.
    + apply IH; [|exact Hnd].
      intros item' outer inner Hitem'. apply Hlatest. right. exact Hitem'.
  - intros item -> Hsome Hm. unfold GetArbitrageOpportunities. simpl.
    destruct (latest (it_ID item)) as [[outer inner]|] eqn:E; [|destruct Hsome; reflexivity].
    destruct (Hlatest item outer inner (or_introl eq_refl) E) as [Hout Hin].
    rewrite Hm in Hout, Hin. rewrite !app_nil_r.
    apply itemOpportunities_AB; assumption.
Qed.

Lemma C6_witness :
  let item := mkItem 7 "AK-47 | Redline" "AK-47 | Redline (Field-Tested)"
                     "" "rifle" "AK-47" "Field-Tested" "classified" "" in
  let latest : LatestPrices :=
    fun _ => Some (map_to_list quotesAB, fun _ => map_to_list quotesAB) in
  (forall item' outer inner,
     In item' [item] -> latest (it_ID item') = Some (outer, inner) ->
     outer ≡ₚ map_to_list quotesAB /\
     forall k, inner k ≡ₚ map_to_list quotesAB) /\
  NoDup (List.map (fun o => (Item_ o, venues o))
                  (GetArbitrageOpportunities [item] latest 10)) /\
  GetArbitrageOpportunities [item] latest 10
  = [mkArbitrageOpportunity item "A" "B" 100 112 12 12] /\
  GetArbitrageOpportunities [item] latest 15 = [].
Proof.
  assert (Hlatest :
            forall (item' : Item) outer inner,
              In item' [mkItem 7 "AK-47 | Redline" "AK-47 | Redline (Field-Tested)"
                               "" "rifle" "AK-47" "Field-Tested" "classified" ""] ->
              (Some (map_to_list quotesAB, fun _ : string => map_to_list quotesAB)
               : option (list (string * Price) * (string -> list (string * Price))))
              = Some (outer, inner) ->
              outer ≡ₚ map_to_list quotesAB /\
              forall k, inner k ≡ₚ map_to_list quotesAB).
  { intros item' outer inner _ [= <- <-]. split; [reflexivity|intros k; reflexivity]. }
  split; [exact Hlatest|].
  pose proof (C6_arbitrage_per_ordered_pair
                [mkItem 7 "AK-47 | Redline" "AK-47 | Redline (Field-Tested)"
                        "" "rifle" "AK-47" "Field-Tested" "classified" ""]
                (fun _ => Some (map_to_list quotesAB,
                                fun _ : string => map_to_list quotesAB))
                (fun _ => quotesAB) 10 Hlatest) as (_ & Hnd & Hab).
  split.
  - apply Hnd. apply NoDup_singleton.
  - apply (Hab _ eq_refl); [discriminate|reflexivity].
Defined.

End ArbitrageTheorem.

(** ** Arbitrage strategy *)

Section StrategyClaims.

Import Models TradingService.
Local Open Scope float_scope.

Lemma extremes_snoc prices entry :
  extremes (prices ++ [entry]) = visit (extremes prices) entry.
Proof. unfold extremes. rewrite fold_left_app. reflexivity. Qed.

(** What the scan leaves in its four locals: no entry is priced below
    [minPrice] or above [maxPrice]; [minPrice] is still the 999999 it
    started with, and then no venue is recorded, or it is the price of the
    venue recorded with it, and then it is below 999999; likewise
    [maxPrice] and the 0 it started with. *)
Lemma extremes_spec (prices : list (string * Price)) :
  let x := extremes prices in
  (forall v p, In (v, p) prices ->
               (p_Price p <? minPrice x) = false /\
               (maxPrice x <? p_Price p) = false) /\
  ((minPlatform x = "" /\ minPrice x = 999999) \/
   exists p, In (minPlatform x, p) prices /\ p_Price p = minPrice x /\
             (minPrice x <? 999999) = true) /\
  ((maxPlatform x = "" /\ maxPrice x = 0) \/
   exists p, In (maxPlatform x, p) prices /\ p_Price p = maxPrice x /\
             (0 <? maxPrice x) = true).
Proof.
  induction prices as [|[v p] prices IH] using rev_ind.
  - simpl. split; [intros v p []|]. split; left; split; reflexivity.
  - rewrite extremes_snoc. simpl in IH.
    destruct IH as (Hall & Hmin & Hmax).
    set (x := extremes prices) in *.
    assert (Hin : forall w q, In (w, q) (prices ++ [(v, p)]) ->
                              In (w, q) prices \/ (w, q) = (v, p)).
    { intros w q H. apply in_app_or in H as [H|[H|[]]]; [left|right]; congruence. }
    assert (Hlow : (p_Price p <? minPrice x) = true ->
                   (p_Price p <? 999999) = true).
    { intros Elo. destruct Hmin as [[_ E]|(q & _ & _ & Hq)].
      - rewrite <- E. exact Elo.
      - exact (ltb_trans _ _ _ Elo Hq). }
    assert (Hhigh : (maxPrice x <? p_Price p) = true ->
                    (0 <? p_Price p) = true).
    { intros Ehi. destruct Hmax as [[_ E]|(q & _ & _ & Hq)].
      - rewrite <- E. exact Ehi.
      - exact (ltb_trans _ _ _ Hq Ehi). }
    assert (Hnew : In (v, p) (prices ++ [(v, p)]))
      by (apply in_or_app; right; left; reflexivity).
    assert (Hkeep_min :
              (minPlatform x = "" /\ minPrice x = 999999) \/
              exists q, In (minPlatform x, q) (prices ++ [(v, p)]) /\
                        p_Price q = minPrice x /\ (minPrice x <? 999999) = true).
    { destruct Hmin as [Hmin|(q & Hq & Hp & Hlt)]; [left; exact Hmin|].
      right. exists q. split; [apply in_or_app; left; exact Hq|]. split; assumption. }
    assert (Hkeep_max :
              (maxPlatform x = "" /\ maxPrice x = 0) \/
              exists q, In (maxPlatform x, q) (prices ++ [(v, p)]) /\
                        p_Price q = maxPrice x /\ (0 <? maxPrice x) = true).
    { destruct Hmax as [Hmax|(q & Hq & Hp & Hlt)]; [left; exact Hmax|].
      right. exists q. split; [apply in_or_app; left; exact Hq|]. split; assumption. }
    unfold visit. simpl.
    destruct (p_Price p <? minPrice x) eqn:Elo;
      destruct (maxPrice x <? p_Price p) eqn:Ehi; simpl;
      rewrite ?Ehi; simpl.
    + split; [|split].
      * intros w q H. apply Hin in H as [H|[= -> ->]].
        -- destruct (Hall w q H) as [H1 H2]. split.
           ++ exact (not_ltb_below _ _ _ H1 Elo).
           ++ exact (not_ltb_above _ _ _ H2 Ehi).
        -- split; apply ltb_irrefl.
      * right. exists p. split; [exact Hnew|]. split; [reflexivity|]. apply Hlow. reflexivity.
      * right. exists p. split; [exact Hnew|]. split; [reflexivity|]. apply Hhigh. reflexivity.
    + split; [|split].
      * intros w q H. apply Hin in H as [H|[= -> ->]].
        -- destruct (Hall w q H) as [H1 H2]. split.
           ++ exact (not_ltb_below _ _ _ H1 Elo).
           ++ exact H2.
        -- split; [apply ltb_irrefl|exact Ehi].
      * right. exists p. split; [exact Hnew|]. split; [reflexivity|]. apply Hlow. reflexivity.
      * exact Hkeep_max.
    + split; [|split].
      * intros w q H. apply Hin in H as [H|[= -> ->]].
        -- destruct (Hall w q H) as [H1 H2]. split.
           ++ exact H1.
           ++ exact (not_ltb_above _ _ _ H2 Ehi).
        -- split; [exact Elo|apply ltb_irrefl].
      * exact Hkeep_min.
      * right. exists p. split; [exact Hnew|]. split; [reflexivity|]. apply Hhigh. reflexivity.
    + split; [|split].
      * intros w q H. apply Hin in H as [H|[= -> ->]].
        -- exact (Hall w q H).
        -- split; assumption.
      * exact Hkeep_min.
      * exact Hkeep_max.
Qed.

End StrategyClaims.

Section StrategyTheorem.

Import Models TradingService.
Local Open Scope float_scope.

(** C8 fails as stated: with buff at 10 and youpin at 12 the minimum is
    within the buy threshold 11, the maximum reaches the sell threshold
    11.5 and the spread of 20% exceeds 10%, yet no signal is generated, in
    either order of the iteration: the difference of 2 is not above 5. *)
Lemma C8_small_gap_suppresses_signals :
  let buff := ("buff", mkPrice 1 7 "buff" 10 3 "CNY" 1700000000) in
  let youpin := ("youpin", mkPrice 2 7 "youpin" 12 5 "CNY" 1700000000) in
  let strategy := mkStrategy 1 1 "redline" "" 7 11 11.5 1 true in
  let x := extremes [buff; youpin] in
  (minPlatform x = "buff" /\ minPrice x = 10 /\
   maxPlatform x = "youpin" /\ maxPrice x = 12) /\
  (minPrice x <=? st_BuyPrice strategy) = true /\
  Float64.geb (maxPrice x) (st_SellPrice strategy) = true /\
  Float64.gtb ((maxPrice x - minPrice x) / minPrice x) Float64.c_0_1 = true /\
  analyzePrices [buff; youpin] strategy = [] /\
  analyzePrices [youpin; buff] strategy = [].
Proof. vm_compute. repeat split. Qed.

Lemma buySignal_neq_sellSignal strategy x y :
  buySignal strategy x <> sellSignal strategy y.
Proof. intros H. apply (f_equal ts_Action) in H. discriminate H. Qed.

(** A venue priced above the starting value of the scan: the minimum stays
    at 999999 with no venue recorded, so the buy signal names the empty
    venue at 999999. *)
Lemma analyzePrices_above_start :
  let steam := ("steam", mkPrice 1 7 "steam" 2000000 3 "USD" 1700000000) in
  let strategy := mkStrategy 1 1 "redline" "" 7 1000000 1500000 1 true in
  List.map (fun s => (ts_Platform s, ts_Action s, ts_Price s))
           (analyzePrices [steam] strategy)
  = [("", "buy", 999999); ("steam", "sell", 2000000)].
Proof. vm_compute. reflexivity. Qed.

(** C8 (amended).  Over the map [m] of the prices per venue, in whatever
    order it is ranged over, the scan ends with a [minPrice] that is the
    least of the venue prices and the 999999 it starts with: no venue
    undercuts it, it is not above 999999, and it is either 999999 with the
    empty venue recorded, or the price of the venue recorded with it and
    below 999999.  Likewise [maxPrice] is the greatest of the venue prices
    and the 0 it starts with.  The signals are generated only when the
    difference [maxPrice - minPrice] is above 5.0 and the spread
    [(maxPrice - minPrice) / minPrice] is above 10%: under these two
    conditions the buy signal, at the venue and price of the minimum, exactly
    when the minimum is at most the buy threshold, and the sell signal, at
    the venue and price of the maximum, exactly when the maximum is at least
    the sell threshold.  Nothing else is generated. *)
Theorem C8_signals_need_gap_and_spread
    (m : gmap string Price) (prices : list (string * Price))
    (strategy : Strategy) :
  prices ≡ₚ map_to_list m ->
  let x := extremes prices in
  let gap := Float64.gtb (maxPrice x - minPrice x) 5 in
  let spread :=
    Float64.gtb ((maxPrice x - minPrice x) / minPrice x) Float64.c_0_1 in
  let buy :=
    mkTradeSignal (st_ItemID strategy) (minPlatform x) "buy" (minPrice x)
                  c_0_8 (ts_Reason (buySignal strategy x)) in
  let sell :=
    mkTradeSignal (st_ItemID strategy) (maxPlatform x) "sell" (maxPrice x)
                  c_0_8 (ts_Reason (sellSignal strategy x)) in
  (forall v p, m !! v = Some p ->
               (p_Price p <? minPrice x) = false /\
               (maxPrice x <? p_Price p) = false) /\
  ((999999 <? minPrice x) = false /\ (maxPrice x <? 0) = false) /\
  ((minPlatform x = "" /\ minPrice x = 999999 /\
    forall v p, m !! v = Some p -> (p_Price p <? 999999) = false) \/
   exists p, m !! minPlatform x = Some p /\ p_Price p = minPrice x /\
             (minPrice x <? 999999) = true) /\
  ((maxPlatform x = "" /\ maxPrice x = 0 /\
    forall v p, m !! v = Some p -> (0 <? p_Price p) = false) \/
   exists p, m !! maxPlatform x = Some p /\ p_Price p = maxPrice x /\
             (0 <? maxPrice x) = true) /\
  (In buy (analyzePrices prices strategy) <->
   gap = true /\ spread = true /\ (minPrice x <=? st_BuyPrice strategy) = true) /\
  (In sell (analyzePrices prices strategy) <->
   gap = true /\ spread = true /\
   Float64.geb (maxPrice x) (st_SellPrice strategy) = true) /\
  (forall s, In s (analyzePrices prices strategy) -> s = buy \/ s = sell).
Proof.
  intros Hperm x gap spread buy sell.
  assert (Hlookup : forall v p, In (v, p) prices <-> m !! v = Some p).
  { intros v p. rewrite <- list_elem_of_In, Hperm. apply elem_of_map_to_list. }
  destruct (extremes_spec prices) as (Hall & Hmin & Hmax). fold x in Hall, Hmin, Hmax.
  assert (Hasym : forall a b : float, (a <? b) = true -> (b <? a) = false).
  { intros a b H. destruct (b <? a) eqn:E; [|reflexivity].
    rewrite <- (ltb_irrefl a). symmetry. exact (ltb_trans a b a H E). }
  split; [|split; [|split; [|split]]].
  - intros v p H. apply Hall with v. apply Hlookup. exact H.
  - split.
    + destruct Hmin as [[_ ->]|(p & _ & _ & Hlt)]; [apply ltb_irrefl|].
      apply Hasym. exact Hlt.
    + destruct Hmax as [[_ ->]|(p & _ & _ & Hlt)]; [apply ltb_irrefl|].
      apply Hasym. exact Hlt.
  - destruct Hmin as [[Hv Hmin]|(p & Hp & Heq & Hlt)].
    + left. split; [exact Hv|]. split; [exact Hmin|].
      intros v p H. rewrite <- Hmin. apply (Hall v p). apply Hlookup. exact H.
    + right. exists p. split; [apply Hlookup; exact Hp|]. split; assumption.
  - destruct Hmax as [[Hv Hmax]|(p & Hp & Heq & Hlt)].
    + left. split; [exact Hv|]. split; [exact Hmax|].
      intros v p H. rewrite <- Hmax. apply (Hall v p). apply Hlookup. exact H.
    + right. exists p. split; [apply Hlookup; exact Hp|]. split; assumption.
  - change buy with (buySignal strategy x). change sell with (sellSignal strategy x).
    unfold analyzePrices. fold x. fold gap. fold spread.
    destruct gap, spread; simpl;
      try (split; [|split];
           [split; [intros []|intros (? & ? & ?); discriminate]
           |split; [intros []|intros (? & ? & ?); discriminate]
           |intros s []]).
    destruct (minPrice x <=? st_BuyPrice strategy);
      destruct (Float64.geb (maxPrice x) (st_SellPrice strategy)); simpl.
    + split; [|split].
      * split; [intros _; repeat split|intros _; left; reflexivity].
      * split; [intros _; repeat split|intros _; right; left; reflexivity].
      * intros s [<-|[<-|[]]]; [left|right]; reflexivity.
    + split; [|split].
      * split; [intros _; repeat split|intros _; left; reflexivity].
      * split; [|intros (_ & _ & H); discriminate].
        intros [H|[]]. destruct (buySignal_neq_sellSignal _ _ _ H).
      * intros s [<-|[]]. left. reflexivity.
    + split; [|split].
      * split; [|intros (_ & _ & H); discriminate].
        intros [H|[]]. symmetry in H. destruct (buySignal_neq_sellSignal _ _ _ H).
      * split; [intros _; repeat split|intros _; left; reflexivity].
      * intros s [<-|[]]. right. reflexivity.
    + split; [|split].
      * split; [intros []|intros (_ & _ & H); discriminate].
      * split; [intros []|intros (_ & _ & H); discriminate].
      * intros s [].
Qed.

(** buff at 100 and steam at 112, thresholds 105 and 110: both signals. *)
Lemma C8_witness :
  let m : gmap string Price :=
    {[ "buff" := mkPrice 1 7 "buff" 100 3 "CNY" 1700000000;
       "steam" := mkPrice 2 7 "steam" 112 5 "USD" 1700000000 ]} in
  let strategy := mkStrategy 1 1 "redline" "" 7 105 110 1 true in
  map_to_list m ≡ₚ map_to_list m /\
  In (mkTradeSignal 7 "buff" "buy" 100 c_0_8
        (mkSprintf "Arbitrage opportunity: buy at %.2f, sell at %.2f" [100; 112]))
     (analyzePrices (map_to_list m) strategy) /\
  In (mkTradeSignal 7 "steam" "sell" 112 c_0_8
        (mkSprintf "Arbitrage opportunity: profit of %.2f" [12]))
     (analyzePrices (map_to_list m) strategy).
Proof.
  split; [reflexivity|].
  pose proof (C8_signals_need_gap_and_spread
                {[ "buff" := mkPrice 1 7 "buff" 100 3 "CNY" 1700000000;
                   "steam" := mkPrice 2 7 "steam" 112 5 "USD" 1700000000 ]}
                (map_to_list
                   ({[ "buff" := mkPrice 1 7 "buff" 100 3 "CNY" 1700000000;
                       "steam" := mkPrice 2 7 "steam" 112 5 "USD" 1700000000 ]}
                    : gmap string Price))
                (mkStrategy 1 1 "redline" "" 7 105 110 1 true)
                (Permutation_refl _)) as (_ & _ & _ & _ & Hbuy & Hsell & _).
  split.
  - apply Hbuy. vm_compute. repeat split.
  - apply Hsell. vm_compute. repeat split.
Defined.

End StrategyTheorem.

(** ** Broadcast hub *)

Section HubClaims.

Import Websocket.

Lemma deliver_open message h client ch :
  send h !! client = Some ch -> closed ch = false ->
  deliver message h client
  = Some (mkHub (if (length (buffer ch) <? capacity ch)%nat then clients h
                 else clients h ∖ {[client]})
                (<[client := afterSelect message ch]> (send h))).
Proof.
  intros Hch Hopen. unfold deliver, afterSelect, close. rewrite Hch. simpl.
  rewrite Hopen. destruct (length (buffer ch) <? capacity ch)%nat; reflexivity.
Qed.

(** The loop over clients that are registered with open channels and are
    visited once each: it runs to its end, every visited client is served by
    its own [select], and the others are not touched. *)
Lemma broadcast_visits message (order : list N) : forall h : Hub,
  NoDup order ->
  (forall client, client ∈ order ->
     client ∈ clients h /\
     exists ch, send h !! client = Some ch /\ closed ch = false) ->
  exists h',
    broadcast message order h = Some h' /\
    (forall client ch, client ∈ order -> send h !! client = Some ch ->
       send h' !! client = Some (afterSelect message ch) /\
       (client ∈ clients h' <-> (length (buffer ch) < capacity ch)%nat)) /\
    (forall client, client ∉ order ->
       send h' !! client = send h !! client /\
       (client ∈ clients h' <-> client ∈ clients h)).
Proof.
  induction order as [|c rest IH]; intros h Hnd Hreg.
  - exists h. split; [reflexivity|]. split.
    + intros client ch H. apply elem_of_nil in H. destruct H.
    + intros client _. split; reflexivity.
  - apply NoDup_cons in Hnd as [Hc Hnd].
    destruct (Hreg c) as (Hcin & ch & Hch & Hopen); [left|].
    unfold broadcast. simpl. rewrite (deliver_open message h c ch Hch Hopen).
    set (h1 := mkHub _ _).
    assert (Hsend1 : forall client, client <> c -> send h1 !! client = send h !! client).
    { intros client Hne. subst h1. simpl. apply lookup_insert_ne. congruence. }
    assert (Hcl1 : forall client, client <> c ->
                                  (client ∈ clients h1 <-> client ∈ clients h)).
    { intros client Hne. subst h1. simpl.
      destruct (length (buffer ch) <? capacity ch)%nat; [reflexivity|].
      rewrite elem_of_difference, elem_of_singleton. tauto. }
    destruct (IH h1 Hnd) as (h' & Hrun & Hvisited & Hframe).
    { intros client Hin.
      assert (Hne : client <> c) by (intros ->; contradiction).
      destruct (Hreg client) as (Hin' & ch' & Hch' & Hopen'); [right; exact Hin|].
      split; [apply Hcl1; assumption|].
      exists ch'. rewrite Hsend1; [split|]; assumption. }
    exists h'. split; [exact Hrun|]. split.
    + intros client ch' Hin Hch'.
      apply elem_of_cons in Hin as [->|Hin].
      * rewrite Hch in Hch'. injection Hch' as <-.
        destruct (Hframe c Hc) as [Hs Hcl]. rewrite Hs, Hcl. subst h1. simpl.
        rewrite lookup_insert_eq. split; [reflexivity|].
        destruct (Nat.ltb_spec (length (buffer ch)) (capacity ch)).
        -- split; [intros _; assumption|intros _; exact Hcin].
        -- split; [|lia]. rewrite elem_of_difference, elem_of_singleton.
           intros [_ Hn]. destruct Hn. reflexivity.
      * assert (Hne : client <> c) by (intros ->; contradiction).
        apply Hvisited; [exact Hin|]. rewrite Hsend1; assumption.
    + intros client Hnotin.
      apply not_elem_of_cons in Hnotin as [Hne Hnotin].
      destruct (Hframe client Hnotin) as [Hs Hcl].
      rewrite Hs, Hcl, Hsend1, Hcl1 by assumption. split; reflexivity.
Qed.

(** The hub starts with no client, and connecting or unregistering a
    client keeps every registered client with an open channel. *)
Lemma registered_open_NewHub : registered_open (mkHub ∅ ∅).
Proof. intros client H. apply not_elem_of_empty in H. destruct H. Qed.

Lemma registered_open_connect client h :
  registered_open h -> registered_open (register client (newClient client h)).
Proof.
  intros Hopen c Hc. unfold register, newClient in *. simpl in *.
  destruct (decide (c = client)) as [->|Hne].
  - eexists. rewrite lookup_insert_eq. split; reflexivity.
  - rewrite lookup_insert_ne by congruence. apply Hopen.
    apply elem_of_union in Hc as [Hc|Hc]; [|exact Hc].
    apply elem_of_singleton in Hc. contradiction.
Qed.

Lemma registered_open_unregister client h :
  registered_open h ->
  exists h', unregister client h = Some h' /\ registered_open h'.
Proof.
  intros Hopen. unfold unregister.
  destruct (decide (client ∈ clients h)) as [Hc|Hc]; [|exists h; split; [reflexivity|exact Hopen]].
  destruct (Hopen client Hc) as (ch & Hch & Hop).
  rewrite Hch. unfold close. simpl. rewrite Hop. simpl.
  eexists. split; [reflexivity|].
  intros c Hin. simpl in *.
  apply elem_of_difference in Hin as [Hin Hne].
  rewrite elem_of_singleton in Hne.
  rewrite lookup_insert_ne by congruence. apply Hopen. exact Hin.
Qed.

(** C9.  A publish to a hub whose registered clients have open channels,
    whatever the order in which the clients are ranged over, runs to its
    end without blocking, and for every registered client: when its buffer
    has room the message is appended to it and the client stays
    registered; when the buffer is full the client is removed from the
    registered set and its channel is closed, its buffer as it was.
    Clients that are not registered are not touched, and the registered
    clients still have open channels afterwards. *)
Theorem C9_publish_enqueues_or_drops
    (h : Hub) (message : Message) (order : list N) :
  registered_open h ->
  order ≡ₚ elements (clients h) ->
  exists h',
    broadcast message order h = Some h' /\
    (forall client ch,
       client ∈ clients h -> send h !! client = Some ch ->
       ((length (buffer ch) < capacity ch)%nat ->
        client ∈ clients h' /\
        send h' !! client
        = Some (mkChan (buffer ch ++ [message]) (capacity ch) false)) /\
       ((capacity ch <= length (buffer ch))%nat ->
        (client ∉ clients h') /\
        send h' !! client = Some (mkChan (buffer ch) (capacity ch) true))) /\
    (forall client, client ∉ clients h ->
       (client ∉ clients h') /\ send h' !! client = send h !! client) /\
    registered_open h'.
Proof.
  intros Hopen Hperm.
  assert (Hin : forall client, client ∈ order <-> client ∈ clients h).
  { intros client. rewrite Hperm. apply elem_of_elements. }
  destruct (broadcast_visits message order h) as (h' & Hrun & Hvisited & Hframe).
  { rewrite Hperm. apply NoDup_elements. }
  { intros client Hc. apply Hin in Hc. split; [exact Hc|]. apply Hopen, Hc. }
  exists h'. split; [exact Hrun|]. split; [|split].
  - intros client ch Hc Hch.
    destruct (Hvisited client ch) as [Hs Hcl]; [apply Hin; exact Hc|exact Hch|].
    unfold afterSelect in Hs. split; intros Hroom.
    + apply Nat.ltb_lt in Hroom as Hb. rewrite Hb in Hs.
      split; [apply Hcl|]; assumption.
    + apply Nat.ltb_ge in Hroom as Hb. rewrite Hb in Hs.
      split; [|exact Hs]. rewrite Hcl. lia.
  - intros client Hc.
    destruct (Hframe client) as [Hs Hcl]; [rewrite Hin; exact Hc|].
    split; [rewrite Hcl|]; assumption.
  - intros client Hc'.
    destruct (decide (client ∈ clients h)) as [Hc|Hc].
    + destruct (Hopen client Hc) as (ch & Hch & Hop).
      destruct (Hvisited client ch) as [Hs Hcl]; [apply Hin; exact Hc|exact Hch|].
      exists (afterSelect message ch). split; [exact Hs|].
      apply Hcl, Nat.ltb_lt in Hc'. unfold afterSelect. rewrite Hc'. reflexivity.
    + destruct (Hframe client) as [_ Hcl]; [rewrite Hin; exact Hc|].
      apply Hcl in Hc'. contradiction.
Qed.

(** A client with room in its buffer and a client whose buffer is full. *)
Lemma C9_witness :
  let h := mkHub {[1%N; 2%N]}
                 {[ 1%N := mkChan ["tick"] 2 false;
                    2%N := mkChan ["tick"] 1 false ]} in
  registered_open h /\
  elements (clients h) ≡ₚ elements (clients h) /\
  exists h',
    broadcast "tock" (elements (clients h)) h = Some h' /\
    (1%N ∈ clients h' /\
     send h' !! 1%N = Some (mkChan ["tick"; "tock"] 2 false)) /\
    ((2%N ∉ clients h') /\
     send h' !! 2%N = Some (mkChan ["tick"] 1 true)).
Proof.
  assert (Hopen : registered_open
                    (mkHub {[1%N; 2%N]}
                           {[ 1%N := mkChan ["tick"] 2 false;
                              2%N := mkChan ["tick"] 1 false ]})).
  { intros client Hc. simpl in Hc.
    apply elem_of_union in Hc as [Hc|Hc]; apply elem_of_singleton in Hc; subst client;
      eexists; (split; [reflexivity|reflexivity]). }
  split; [exact Hopen|]. split; [reflexivity|].
  destruct (C9_publish_enqueues_or_drops
              (mkHub {[1%N; 2%N]}
                     {[ 1%N := mkChan ["tick"] 2 false;
                        2%N := mkChan ["tick"] 1 false ]})
              "tock" _ Hopen (Permutation_refl _)) as (h' & Hrun & Hserved & _).
  exists h'. split; [exact Hrun|]. split.
  - apply (Hserved 1%N (mkChan ["tick"] 2 false)); [vm_compute; reflexivity|reflexivity|simpl; lia].
  - apply (Hserved 2%N (mkChan ["tick"] 1 false)); [vm_compute; reflexivity|reflexivity|simpl; lia].
Defined.

End HubClaims.

(** ** Market analyzer *)

(** C7 (code defect).  [calculateStdDev] divides the sum of the squared
    deviations by the length and returns that quotient, the variance: the
    square root is never taken.  On the series 2, 6 it returns 4 where the
    population standard deviation is 2, and [calculateVolatility], which
    calls it on the returns, gives 0.25 on 1, 2, 6 where the standard
    deviation of the returns 1, 2 is 0.5. *)
Theorem C7_stddev_is_variance :
  Market.calculateStdDev [2; 6]%float = 4%float /\
  Market.populationStdDev_spec [2; 6]%float = 2%float /\
  PrimFloat.eqb (Market.calculateStdDev [2; 6]%float)
                (Market.populationStdDev_spec [2; 6]%float) = false /\
  Market.calculateVolatility [1; 2; 6]%float = 0.25%float /\
  Market.volatility_spec [1; 2; 6]%float = 0.5%float /\
  PrimFloat.eqb (Market.calculateVolatility [1; 2; 6]%float)
                (Market.volatility_spec [1; 2; 6]%float) = false.
Proof. repeat split; vm_compute; reflexivity. Qed.

(** * Further properties of the code *)

(** ** Market analyzer: the remaining statistics *)

Section MarketFacts.

Import Market.
Local Open Scope float_scope.

Lemma ltb_asym (x y : float) : (x <? y) = true -> (y <? x) = false.
Proof.
  intros H. destruct (y <? x) eqn:E; [|reflexivity].
  rewrite <- (ltb_irrefl x). symmetry. exact (ltb_trans x y x H E).
Qed.

(** The running minimum from [m0] over [l]: it is [m0] or an element below
    [m0], and neither [m0] nor an element is below it. *)
Lemma running_min (l : list float) : forall m0,
  let r := fold_left (fun min p => if p <? min then p else min) l m0 in
  (r = m0 \/ (In r l /\ (r <? m0) = true)) /\
  (m0 <? r) = false /\
  (forall p, In p l -> (p <? r) = false).
Proof.
  induction l as [|p l IH]; intros m0; simpl.
  - split; [left; reflexivity|]. split; [apply ltb_irrefl|intros p []].
  - destruct (p <? m0) eqn:E.
    + destruct (IH p) as (Hr & Hm & Hall).
      set (r := fold_left _ l p) in *.
      assert (Hrm : (r <? m0) = true).
      { destruct Hr as [->|[_ Hr]]; [exact E|exact (ltb_trans _ _ _ Hr E)]. }
      split; [|split].
      * right. split; [|exact Hrm].
        destruct Hr as [->|[Hr _]]; [left; reflexivity|right; exact Hr].
      * apply ltb_asym. exact Hrm.
      * intros q [<-|Hq]; [exact Hm|apply Hall; exact Hq].
    + destruct (IH m0) as (Hr & Hm & Hall).
      set (r := fold_left _ l m0) in *.
      split; [|split].
      * destruct Hr as [Hr|[Hr Hlt]]; [left; exact Hr|right; split; [right|]; assumption].
      * exact Hm.
      * intros q [<-|Hq]; [|apply Hall; exact Hq].
        destruct Hr as [->|[_ Hr]]; [exact E|].
        exact (not_ltb_below _ _ _ E Hr).
Qed.

Lemma running_max (l : list float) : forall m0,
  let r := fold_left (fun max p => if Float64.gtb p max then p else max) l m0 in
  (r = m0 \/ (In r l /\ (m0 <? r) = true)) /\
  (r <? m0) = false /\
  (forall p, In p l -> (r <? p) = false).
Proof.
  unfold Float64.gtb.
  induction l as [|p l IH]; intros m0; simpl.
  - split; [left; reflexivity|]. split; [apply ltb_irrefl|intros p []].
  - destruct (m0 <? p) eqn:E.
    + destruct (IH p) as (Hr & Hm & Hall).
      set (r := fold_left _ l p) in *.
      assert (Hrm : (m0 <? r) = true).
      { destruct Hr as [->|[_ Hr]]; [exact E|exact (ltb_trans _ _ _ E Hr)]. }
      split; [|split].
      * right. split; [|exact Hrm].
        destruct Hr as [->|[Hr _]]; [left; reflexivity|right; exact Hr].
      * apply ltb_asym. exact Hrm.
      * intros q [<-|Hq]; [exact Hm|apply Hall; exact Hq].
    + destruct (IH m0) as (Hr & Hm & Hall).
      set (r := fold_left _ l m0) in *.
      split; [|split].
      * destruct Hr as [Hr|[Hr Hlt]]; [left; exact Hr|right; split; [right|]; assumption].
      * exact Hm.
      * intros q [<-|Hq]; [|apply Hall; exact Hq].
        destruct Hr as [->|[_ Hr]]; [exact E|].
        exact (not_ltb_above _ _ _ E Hr).
Qed.

(** X1.  On a series that is not empty, [findMin] and [findMax] return
    prices of the series, and no price of the series is below the one or
    above the other. *)
Theorem X1_findMin_findMax_bound_the_series (prices : list float) :
  prices <> [] ->
  In (findMin prices) prices /\ In (findMax prices) prices /\
  (forall p, In p prices ->
             (p <? findMin prices) = false /\ (findMax prices <? p) = false).
Proof.
  destruct prices as [|first rest]; [intros H; destruct H; reflexivity|intros _].
  unfold findMin, findMax.
  destruct (running_min (first :: rest) first) as (Hmin & _ & Hlow).
  destruct (running_max (first :: rest) first) as (Hmax & _ & Hhigh).
  split; [|split].
  - destruct Hmin as [->|[H _]]; [left; reflexivity|exact H].
  - destruct Hmax as [->|[H _]]; [left; reflexivity|exact H].
  - intros p Hp. split; [apply Hlow|apply Hhigh]; exact Hp.
Qed.

Lemma X1_witness :
  [3; 1; 2] <> ([] : list float) /\
  In (findMin [3; 1; 2]) [3; 1; 2] /\ In (findMax [3; 1; 2]) [3; 1; 2] /\
  (forall p, In p [3; 1; 2] ->
             (p <? findMin [3; 1; 2]) = false /\ (findMax [3; 1; 2] <? p) = false).
Proof.
  split; [discriminate|].
  apply (X1_findMin_findMax_bound_the_series [3; 1; 2]). discriminate.
Defined.

(** A step of the series counts as a rise or as a fall, never as both. *)
Lemma upCount_downCount (prices : list float) :
  (upCount prices + downCount prices <= length prices - 1)%nat.
Proof.
  induction prices as [|prev l IH]; [simpl; lia|].
  destruct l as [|cur rest]; [simpl; lia|].
  change (upCount (prev :: cur :: rest))
    with ((if Float64.gtb cur prev then 1 else 0) + upCount (cur :: rest))%nat.
  change (downCount (prev :: cur :: rest))
    with ((if PrimFloat.ltb cur prev then 1 else 0) + downCount (cur :: rest))%nat.
  change (length (prev :: cur :: rest)) with (S (length (cur :: rest))).
  change (length (cur :: rest)) with (S (length rest)) in *.
  unfold Float64.gtb.
  destruct (prev <? cur) eqn:E.
  - rewrite (ltb_asym _ _ E). lia.
  - destruct (cur <? prev); lia.
Qed.

(** X2.  The trend is read off the last seven prices: it is bullish exactly
    when at least four of their six steps rise and bearish exactly when at
    least four fall, which cannot both be, so the order of the two tests
    does not matter; with fewer than seven prices it is neutral. *)
Theorem X2_trend_needs_four_of_six_steps (prices : list float) :
  let recent := skipn (length prices - 7) prices in
  (trendOf prices = "bullish" <->
   (7 <= length prices)%nat /\ (4 <= upCount recent)%nat) /\
  (trendOf prices = "bearish" <->
   (7 <= length prices)%nat /\ (4 <= downCount recent)%nat) /\
  (trendOf prices = "neutral" <->
   (length prices < 7)%nat \/
   ((upCount recent < 4)%nat /\ (downCount recent < 4)%nat)).
Proof.
  intros recent. unfold trendOf. fold recent.
  destruct (Nat.leb_spec 7 (length prices)) as [Hlen|Hlen].
  - assert (Hrec : length recent = 7%nat).
    { subst recent. rewrite length_skipn. lia. }
    pose proof (upCount_downCount recent) as Hsum. rewrite Hrec in Hsum.
    unfold isUptrend, isDowntrend. rewrite Hrec.
    change (7 <? 2)%nat with false. change (7 / 2)%nat with 3%nat. cbv iota.
    destruct (Nat.ltb_spec 3 (upCount recent)) as [Hup|Hup];
      [|destruct (Nat.ltb_spec 3 (downCount recent)) as [Hdown|Hdown]].
    + split; [|split].
      * split; [intros _; split; lia|reflexivity].
      * split; [discriminate|intros [_ H]; lia].
      * split; [discriminate|intros [H|[H _]]; lia].
    + split; [|split].
      * split; [discriminate|intros [_ H]; lia].
      * split; [intros _; split; lia|reflexivity].
      * split; [discriminate|intros [H|[_ H]]; lia].
    + split; [|split].
      * split; [discriminate|intros [_ H]; lia].
      * split; [discriminate|intros [_ H]; lia].
      * split; [intros _; right; split; lia|reflexivity].
  - split; [|split].
    + split; [discriminate|intros [H _]; lia].
    + split; [discriminate|intros [H _]; lia].
    + split; [intros _; left; exact Hlen|reflexivity].
Qed.

Lemma lastPrices_app (older recent : list float) :
  lastPrices (older ++ recent) (Z.of_nat (length recent)) = recent.
Proof.
  unfold lastPrices. rewrite length_app.
  replace (Z.to_nat (Z.of_nat (length older + length recent) - Z.of_nat (length recent)))
    with (length older + 0)%nat by lia.
  rewrite skipn_app. rewrite Nat.add_0_r, skipn_all.
  replace (length older - length older)%nat with 0%nat by lia. reflexivity.
Qed.

(** X3.  A moving average over fewer prices than its period is reported as
    0, and otherwise it is the average of the last [period] prices alone:
    what came before them has no influence. *)
Theorem X3_calculateMA_is_average_of_window
    (prices older recent : list float) (period : Z) :
  ((Z.of_nat (length prices) < period)%Z -> calculateMA prices period = 0) /\
  (recent <> [] ->
   calculateMA (older ++ recent) (Z.of_nat (length recent))
   = calculateAverage recent).
Proof.
  split.
  - intros H. unfold calculateMA. apply Z.ltb_lt in H. rewrite H. reflexivity.
  - intros Hne. unfold calculateMA.
    replace (Z.of_nat (length (older ++ recent)) <? Z.of_nat (length recent))%Z
      with false by (symmetry; apply Z.ltb_ge; rewrite length_app; lia).
    rewrite lastPrices_app.
    destruct recent; [destruct Hne|]; reflexivity.
Qed.

(** X4.  For a period below the largest [int], where [period + 1] does
    not wrap: the RSI of fewer than [period + 1] prices is the neutral 50,
    and otherwise it is computed from the last [period + 1] prices alone. *)
Theorem X4_calculateRSI_reads_last_period_plus_one
    (prices older recent : list float) (period : Z) :
  (period < 2 ^ 63 - 1)%Z ->
  ((Z.of_nat (length prices) < period + 1)%Z -> calculateRSI prices period = 50) /\
  (Z.of_nat (length recent) = (period + 1)%Z ->
   calculateRSI (older ++ recent) period = calculateRSI recent period).
Proof.
  intros _. split.
  - intros H. unfold calculateRSI. apply Z.ltb_lt in H. rewrite H. reflexivity.
  - intros Hlen. unfold calculateRSI.
    replace (Z.of_nat (length (older ++ recent)) <? period + 1)%Z
      with false by (symmetry; apply Z.ltb_ge; rewrite length_app; lia).
    replace (Z.of_nat (length recent) <? period + 1)%Z
      with false by (symmetry; apply Z.ltb_ge; lia).
    rewrite <- Hlen. rewrite lastPrices_app.
    pose proof (lastPrices_app [] recent) as Hall. simpl in Hall.
    rewrite Hall. reflexivity.
Qed.

Lemma X4_witness :
  (2 < 2 ^ 63 - 1)%Z /\
  Z.of_nat (length [10; 11; 12]%float) = (2 + 1)%Z /\
  calculateRSI [1] 2 = 50 /\
  calculateRSI ([7; 8] ++ [10; 11; 12]) 2 = calculateRSI [10; 11; 12] 2.
Proof.
  assert (Hp : (2 < 2 ^ 63 - 1)%Z) by reflexivity.
  split; [exact Hp|]. split; [reflexivity|].
  destruct (X4_calculateRSI_reads_last_period_plus_one [1] [7; 8] [10; 11; 12] 2 Hp)
    as [Hfew Hlast].
  split; [apply Hfew; reflexivity|apply Hlast; reflexivity].
Defined.

(** X23.  What [GetMarketAnalysis] reports on a thin history.  It returns
    the empty map exactly when the item has no price in the window.
    Otherwise every key is present, and the indicators that lack data are
    filled with fixed values, not left out: a moving average over more days
    than there are prices is 0, the RSI of fewer than fifteen prices is 50,
    the volatility of a single price is 0 and the trend of fewer than seven
    prices is neutral. *)
Theorem X23_thin_history_reports_placeholders (prices : list float) :
  (GetMarketAnalysis prices = None <-> prices = []) /\
  forall a, GetMarketAnalysis prices = Some a ->
    ((length prices < 7)%nat -> ma_7 a = 0 /\ trend a = "neutral") /\
    ((length prices < 14)%nat -> ma_14 a = 0) /\
    ((length prices < 30)%nat -> ma_30 a = 0) /\
    ((length prices < 15)%nat -> rsi a = 50) /\
    ((length prices < 2)%nat -> volatility a = 0).
Proof.
  split.
  - destruct prices; simpl; split; intros H; congruence.
  - intros a Ha. destruct prices as [|first rest]; [discriminate|].
    set (ps := first :: rest) in *.
    assert (Hma : forall period,
               (Z.of_nat (length ps) < period)%Z -> calculateMA ps period = 0).
    { intros period H. unfold calculateMA. apply Z.ltb_lt in H. rewrite H.
      reflexivity. }
    unfold GetMarketAnalysis in Ha. cbn [ps] in Ha. fold ps in Ha.
    injection Ha as <-. cbn [ma_7 ma_14 ma_30 rsi trend volatility].
    split; [|split; [|split; [|split]]]; intros Hlen.
    + split; [apply Hma; lia|]. unfold trendOf.
      destruct (Nat.leb_spec 7 (length ps)); [lia|reflexivity].
    + apply Hma; lia.
    + apply Hma; lia.
    + unfold calculateRSI.
      replace (Z.of_nat (length ps) <? 14 + 1)%Z with true
        by (symmetry; apply Z.ltb_lt; lia).
      reflexivity.
    + unfold calculateVolatility. destruct rest; [reflexivity|simpl in Hlen; lia].
Qed.

End MarketFacts.

(** ** Order lifecycle: cancellation, buy execution, the reach of the lock *)

Section OrderFacts.

Import Trading.
Local Open Scope float_scope.

Lemma ownedBy_with_Locked userID itemID i locked :
  ownedBy userID itemID (with_Locked i locked) = ownedBy userID itemID i.
Proof. reflexivity. Qed.

Lemma ownedBy_ids userID itemID i :
  ownedBy userID itemID i = true ->
  inv_UserID i = userID /\ inv_ItemID i = itemID /\ inv_DeletedAt i = None.
Proof.
  unfold ownedBy, live. intros H.
  apply andb_true_iff in H as [H Hi]. apply andb_true_iff in H as [Hl Hu].
  apply N.eqb_eq in Hi, Hu. destruct (inv_DeletedAt i); [discriminate|].
  repeat split; assumption.
Qed.

(** After [Update("locked", b)] every visible row of the owner and item
    carries [b]. *)
Lemma setLocked_locked userID itemID b db i :
  In i (inventories (setLocked userID itemID b db)) ->
  ownedBy userID itemID i = true -> inv_Locked i = b.
Proof.
  unfold setLocked; simpl. rewrite in_map_iff. intros (j & Hj & _) Ho.
  destruct (ownedBy userID itemID j) eqn:E; subst i.
  - reflexivity.
  - rewrite E in Ho. discriminate.
Qed.

(** A change made to the rows of one owner and item, that keeps the owner
    and item of a row and never revives a deleted row, is not seen through
    another owner or item. *)
Lemma holdings_frame (f : Inventory -> Inventory) userID itemID userID' itemID' db :
  (userID', itemID') <> (userID, itemID) ->
  (forall i, ownedBy userID itemID i = false -> f i = i) ->
  (forall i, ownedBy userID itemID i = true -> ownedBy userID' itemID' (f i) = false) ->
  List.filter (ownedBy userID' itemID') (List.map f (inventories db))
  = holdings userID' itemID' db.
Proof.
  intros Hne Hout Hin. unfold holdings.
  induction (inventories db) as [|i l IH]; simpl; [reflexivity|].
  destruct (ownedBy userID itemID i) eqn:E.
  - rewrite (Hin i E).
    destruct (ownedBy userID' itemID' i) eqn:E'; [|exact IH].
    apply ownedBy_ids in E as (Hu & Hi & _).
    apply ownedBy_ids in E' as (Hu' & Hi' & _).
    destruct Hne. congruence.
  - rewrite (Hout i E). destruct (ownedBy userID' itemID' i); [f_equal|]; exact IH.
Qed.

Lemma holdings_setLocked_other userID itemID b userID' itemID' db :
  (userID', itemID') <> (userID, itemID) ->
  holdings userID' itemID' (setLocked userID itemID b db) = holdings userID' itemID' db.
Proof.
  intros Hne. unfold holdings at 1, setLocked. simpl.
  apply (holdings_frame
           (fun i => if ownedBy userID itemID i then with_Locked i b else i)
           userID itemID); [exact Hne| |].
  - intros i E. rewrite E. reflexivity.
  - intros i E. rewrite E, ownedBy_with_Locked.
    destruct (ownedBy userID' itemID' i) eqn:E'; [|reflexivity].
    apply ownedBy_ids in E as (Hu & Hi & _).
    apply ownedBy_ids in E' as (Hu' & Hi' & _).
    destruct Hne. congruence.
Qed.

Lemma holdings_removeFromInventory_other now order userID' itemID' db :
  (userID', itemID') <> (o_UserID order, o_ItemID order) ->
  holdings userID' itemID' (removeFromInventory now order db)
  = holdings userID' itemID' db.
Proof.
  intros Hne. unfold holdings at 1, removeFromInventory. simpl.
  apply (holdings_frame
           (fun i => if ownedBy (o_UserID order) (o_ItemID order) i
                     then with_DeletedAt i (Some now) else i)
           (o_UserID order) (o_ItemID order)); [exact Hne| |].
  - intros i E. rewrite E. reflexivity.
  - intros i E. rewrite E. reflexivity.
Qed.

Lemma db_FirstOrder_ID orderID db order :
  db_FirstOrder orderID db = Ok order -> o_ID order = orderID /\ In order (orders db).
Proof.
  unfold db_FirstOrder.
  destruct (List.find _ (orders db)) as [o|] eqn:E; [|discriminate].
  intros [= <-]. apply find_some in E as [Hin Heq].
  apply N.eqb_eq in Heq. split; assumption.
Qed.

(** X5.  [CancelOrder] succeeds exactly on an order that exists, belongs
    to the caller and is stored as pending; every refusal leaves the store
    as it was.  A success stores the order as cancelled, records no
    transaction, and for a sell order leaves every visible row of the
    order's owner and item unlocked. *)
Theorem X5_CancelOrder_outcomes orderID userID db :
  let db' := fst (CancelOrder orderID userID db) in
  let err := snd (CancelOrder orderID userID db) in
  (err = None <->
   exists order, db_FirstOrder orderID db = Ok order /\
                 o_UserID order = userID /\ o_Status order = "pending") /\
  (err <> None -> db' = db) /\
  (err = None ->
   statusOf orderID db' = Some "cancelled" /\
   transactions db' = transactions db /\
   forall order, db_FirstOrder orderID db = Ok order -> o_Type order = "sell" ->
     forall i, In i (holdings (o_UserID order) (o_ItemID order) db') ->
               inv_Locked i = false).
Proof.
  unfold CancelOrder.
  destruct (db_FirstOrder orderID db) as [order|msg] eqn:Hfirst; simpl.
  2:{ split; [|split].
      - split; [discriminate|intros (o & H & _); discriminate].
      - reflexivity.
      - discriminate. }
  destruct (N.eqb_spec (o_UserID order) userID) as [Hu|Hu]; simpl.
  2:{ split; [|split].
      - split; [discriminate|intros (o & [= <-] & H & _); contradiction].
      - reflexivity.
      - discriminate. }
  destruct (String.eqb_spec (o_Status order) "pending") as [Hp|Hp]; simpl.
  2:{ split; [|split].
      - split; [discriminate|intros (o & [= <-] & _ & H); contradiction].
      - reflexivity.
      - discriminate. }
  apply db_FirstOrder_ID in Hfirst as Hid. destruct Hid as [Hid _].
  split; [|split].
  - split; [intros _; exists order; repeat split; assumption|reflexivity].
  - intros H. destruct H. reflexivity.
  - intros _. split; [|split].
    + unfold statusOf. rewrite <- Hid.
      change (o_ID order) with (o_ID (with_Status order "cancelled")).
      rewrite db_FirstOrder_db_SaveOrder. reflexivity.
    + unfold db_SaveOrder. destruct (existsb _ _); simpl;
        destruct (o_Type order =? "sell")%string; reflexivity.
    + intros o [= <-] Hsell i. rewrite Hsell. simpl.
      unfold holdings. rewrite inventories_db_SaveOrder.
      intros Hi. apply filter_In in Hi as [Hi Ho].
      exact (setLocked_locked _ _ false db i Hi Ho).
Qed.

(** A call that runs alone makes its three statements in a row. *)
Lemma runSells_alone userID itemID price quantity platform db :
  runSells [0; 0; 0]%nat db [AtCheck userID itemID price quantity platform]
  = (fst (CreateSellOrder userID itemID price quantity platform db),
     [Returned (snd (CreateSellOrder userID itemID price quantity platform db))]).
Proof.
  unfold runSells, CreateSellOrder. simpl.
  destruct (checkInventory userID itemID quantity db); reflexivity.
Qed.

(** X6.  A sell creation that has returned has locked every visible row
    of the owner and item, whatever their quantities: until something
    unlocks them, every sell creation of that owner and item that starts
    afterwards is refused with "insufficient inventory" and changes
    nothing.  The check and the lock are two statements, though, with
    nothing to hold them together: when a second creation for rows that
    pass its check makes its check before the first one has locked, both
    creations succeed, in whatever order their remaining statements run,
    and two pending sell orders are stored for the same rows. *)
Theorem X6_sell_creation_blocks_the_item
    userID itemID price quantity platform db db1 order task :
  CreateSellOrder userID itemID price quantity platform db = (db1, Ok (order, task)) ->
  runSells [0; 0; 0]%nat db [AtCheck userID itemID price quantity platform]
  = (db1, [Returned (Ok (order, task))]) /\
  (forall i, In i (holdings userID itemID db1) -> inv_Locked i = true) /\
  (forall price' quantity' platform',
     CreateSellOrder userID itemID price' quantity' platform' db1
     = (db1, Err "insufficient inventory")) /\
  (forall price' quantity' platform' rest,
     checkInventory userID itemID quantity' db = true ->
     In rest [[0; 0; 1; 1]; [0; 1; 0; 1]; [0; 1; 1; 0];
              [1; 0; 0; 1]; [1; 0; 1; 0]; [1; 1; 0; 0]]%nat ->
     exists db2 first second,
       runSells ([0; 1]%nat ++ rest) db
                [AtCheck userID itemID price quantity platform;
                 AtCheck userID itemID price' quantity' platform']
       = (db2, [Returned (Ok (first, TaskSell first));
                Returned (Ok (second, TaskSell second))]) /\
       orders db2 ≡ₚ orders db ++ [first; second] /\
       (o_Type first, o_Status first, o_Price first, o_Quantity first)
       = ("sell", "pending", price, quantity) /\
       (o_Type second, o_Status second, o_Price second, o_Quantity second)
       = ("sell", "pending", price', quantity') /\
       (o_UserID first, o_ItemID first) = (userID, itemID) /\
       (o_UserID second, o_ItemID second) = (userID, itemID)).
Proof.
  intros Hcreate.
  split; [rewrite runSells_alone, Hcreate; reflexivity|].
  revert Hcreate. unfold CreateSellOrder.
  destruct (checkInventory userID itemID quantity db) eqn:Hcheck0; simpl; [|discriminate].
  intros [= <- _ _].
  assert (Hlocked : forall i,
             In i (inventories (lockInventory userID itemID quantity db)) ->
             ownedBy userID itemID i = true -> inv_Locked i = true).
  { intros i. apply setLocked_locked. }
  split; [|split].
  - intros i Hi. apply filter_In in Hi as [Hi Ho]. simpl in Hi.
    exact (Hlocked i Hi Ho).
  - intros price' quantity' platform'.
    match goal with
    | |- context [checkInventory ?u ?it ?q ?d] =>
        assert (Hcheck : checkInventory u it q d = false)
    end.
    { apply checkInventory_false. simpl. intros i Hi Ho _. exact (Hlocked i Hi Ho). }
    rewrite Hcheck. reflexivity.
  - intros price' quantity' platform' rest Hcheck1 Hrest.
    unfold runSells. simpl in Hrest.
    destruct Hrest as [<-|[<-|[<-|[<-|[<-|[<-|[]]]]]]];
      cbn -[checkInventory]; rewrite Hcheck0; cbn -[checkInventory];
      rewrite Hcheck1; cbn -[checkInventory];
      (eexists; eexists; eexists; split; [reflexivity|]);
      cbn; (split; [|repeat split]);
      rewrite <- ?app_assoc; cbn; try reflexivity;
      apply Permutation_app_head; apply perm_swap.
Qed.

Lemma X6_witness :
  let db := mkDB [] [mkInventory 1 None 1 7 5 50 "steam" 0 true false;
                     mkInventory 2 None 1 7 3 40 "buff" 0 true false] [] in
  let order := mkOrder 1 1 7 "sell" "pending" 80 1 "steam" None "" in
  let db1 := fst (CreateSellOrder 1 7 80 1 "steam" db) in
  CreateSellOrder 1 7 80 1 "steam" db = (db1, Ok (order, TaskSell order)) /\
  (forall i, In i (holdings 1 7 db1) -> inv_Locked i = true) /\
  (forall price' quantity' platform',
      CreateSellOrder 1 7 price' quantity' platform' db1
      = (db1, Err "insufficient inventory")) /\
  checkInventory 1 7 3 db = true /\
  exists db2 first second,
    runSells [0; 1; 0; 1; 0; 1]%nat db
             [AtCheck 1 7 80 1 "steam"; AtCheck 1 7 90 3 "buff"]
    = (db2, [Returned (Ok (first, TaskSell first));
             Returned (Ok (second, TaskSell second))]) /\
    length (orders db2) = 2%nat.
Proof.
  assert (Hcreate :
            CreateSellOrder 1 7 80 1 "steam"
              (mkDB [] [mkInventory 1 None 1 7 5 50 "steam" 0 true false;
                        mkInventory 2 None 1 7 3 40 "buff" 0 true false] [])
            = (fst (CreateSellOrder 1 7 80 1 "steam"
                      (mkDB [] [mkInventory 1 None 1 7 5 50 "steam" 0 true false;
                                mkInventory 2 None 1 7 3 40 "buff" 0 true false] [])),
               Ok (mkOrder 1 1 7 "sell" "pending" 80 1 "steam" None "",
                   TaskSell (mkOrder 1 1 7 "sell" "pending" 80 1 "steam" None ""))))
    by (vm_compute; reflexivity).
  destruct (X6_sell_creation_blocks_the_item _ _ _ _ _ _ _ _ _ Hcreate)
    as (_ & Hlocked & Hrefused & Hrace).
  split; [exact Hcreate|]. split; [exact Hlocked|]. split; [exact Hrefused|].
  split; [reflexivity|].
  destruct (Hrace 90 3%Z "buff" [0; 1; 0; 1]%nat eq_refl)
    as (db2 & first & second & Hrun & Hperm & _).
  { right. left. reflexivity. }
  exists db2, first, second. split; [exact Hrun|].
  rewrite Hperm. reflexivity.
Defined.

Lemma keys_setLocked userID itemID b db :
  List.map inv_ID (inventories (setLocked userID itemID b db))
  = List.map inv_ID (inventories db).
Proof.
  unfold setLocked. simpl. rewrite List.map_map. apply map_ext.
  intros i. destruct (ownedBy userID itemID i); reflexivity.
Qed.

Lemma keys_removeFromInventory now order db :
  List.map inv_ID (inventories (removeFromInventory now order db))
  = List.map inv_ID (inventories db).
Proof.
  unfold removeFromInventory. simpl. rewrite List.map_map. apply map_ext.
  intros i. destruct (ownedBy _ _ i); reflexivity.
Qed.

(** X7.  The life of a sell order never reaches the inventory of another
    owner or item: its creation, its cancellation and its execution, failed
    or completed, leave the visible rows of every other owner or item as
    they were, and none of the three removes a row from the table or adds
    one: the table keeps its keys, in their order. *)
Theorem X7_sell_order_touches_only_its_item
    cfg now order userID' itemID' db :
  (userID', itemID') <> (o_UserID order, o_ItemID order) ->
  holdings userID' itemID' (executeSellOrder cfg now order db)
  = holdings userID' itemID' db /\
  length (inventories (executeSellOrder cfg now order db)) = length (inventories db) /\
  (forall price quantity platform,
     holdings userID' itemID'
       (fst (CreateSellOrder (o_UserID order) (o_ItemID order) price quantity platform db))
     = holdings userID' itemID' db) /\
  (db_FirstOrder (o_ID order) db = Ok order ->
   holdings userID' itemID' (fst (CancelOrder (o_ID order) (o_UserID order) db))
   = holdings userID' itemID' db) /\
  List.map inv_ID (inventories (executeSellOrder cfg now order db))
  = List.map inv_ID (inventories db) /\
  (forall price quantity platform,
     List.map inv_ID
       (inventories
          (fst (CreateSellOrder (o_UserID order) (o_ItemID order) price quantity
                                platform db)))
     = List.map inv_ID (inventories db)) /\
  (forall orderID userID,
     List.map inv_ID (inventories (fst (CancelOrder orderID userID db)))
     = List.map inv_ID (inventories db)).
Proof.
  intros Hne.
  assert (Hsave : forall o d, holdings userID' itemID' (db_SaveOrder o d)
                              = holdings userID' itemID' d).
  { intros o d. unfold holdings. rewrite inventories_db_SaveOrder. reflexivity. }
  split; [|split; [|split; [|split; [|split; [|split]]]]].
  - unfold executeSellOrder. destruct (platformSell cfg order); rewrite Hsave.
    + apply holdings_setLocked_other. exact Hne.
    + unfold holdings. rewrite inventories_recordTransaction.
      apply (holdings_removeFromInventory_other now
               (with_ExecutedAt (with_Status order "completed") (Some now))).
      exact Hne.
  - unfold executeSellOrder.
    destruct (platformSell cfg order); rewrite inventories_db_SaveOrder; simpl;
      apply length_map.
  - intros price quantity platform. unfold CreateSellOrder.
    destruct (checkInventory _ _ _ _); simpl; [|reflexivity].
    apply (holdings_setLocked_other (o_UserID order) (o_ItemID order) true).
    exact Hne.
  - intros Hfirst. unfold CancelOrder. rewrite Hfirst, N.eqb_refl. simpl.
    destruct (negb (o_Status order =? "pending")%string); simpl; [reflexivity|].
    rewrite Hsave. destruct (o_Type order =? "sell")%string; [|reflexivity].
    apply holdings_setLocked_other. exact Hne.
  - unfold executeSellOrder.
    destruct (platformSell cfg order); rewrite inventories_db_SaveOrder.
    + apply keys_setLocked.
    + rewrite inventories_recordTransaction. apply keys_removeFromInventory.
  - intros price quantity platform. unfold CreateSellOrder.
    destruct (checkInventory _ _ _ _); simpl; [|reflexivity].
    apply (keys_setLocked (o_UserID order) (o_ItemID order) true).
  - intros orderID userID. unfold CancelOrder.
    destruct (db_FirstOrder orderID db) as [o|msg]; [|reflexivity].
    destruct (negb (o_UserID o =? userID)%N); [reflexivity|].
    destruct (negb (o_Status o =? "pending")%string); [reflexivity|]. simpl.
    rewrite inventories_db_SaveOrder.
    destruct (o_Type o =? "sell")%string; [|reflexivity].
    apply keys_setLocked.
Qed.

Lemma X7_witness :
  let order := mkOrder 1 1 7 "sell" "pending" 80 1 "steam" None "" in
  let db := mkDB [order]
                 [mkInventory 1 None 1 7 5 50 "steam" 0 true true;
                  mkInventory 2 None 2 7 2 40 "buff" 0 true true] [] in
  (2%N, 7%N) <> (1%N, 7%N) /\
  holdings 2 7 (executeSellOrder (mkTradingConfig true true) 11 order db)
  = holdings 2 7 db.
Proof.
  split; [discriminate|].
  apply (X7_sell_order_touches_only_its_item
           (mkTradingConfig true true) 11
           (mkOrder 1 1 7 "sell" "pending" 80 1 "steam" None "") 2 7).
  discriminate.
Defined.

End OrderFacts.

Section ExecutionFacts.

Import Trading.
Local Open Scope float_scope.


(** The switches of the configuration do not change the outcome of the
    platform step: a disabled platform skips the call and leaves the error
    nil. *)
Lemma platform_outcome cfg order :
  platformBuy cfg order
  = (if knownPlatform (o_Platform order) then None else Some "unsupported platform") /\
  platformSell cfg order
  = (if knownPlatform (o_Platform order) then None else Some "unsupported platform").
Proof.
  unfold platformBuy, platformSell, knownPlatform,
    executeBuffBuy, executeYouPinBuy, executeSteamBuy,
    executeBuffSell, executeYouPinSell, executeSteamSell.
  destruct (o_Platform order =? "buff")%string;
    destruct (o_Platform order =? "youpin")%string;
    destruct (o_Platform order =? "steam")%string;
    destruct (BuffAPI_Enabled cfg); destruct (YouPin_Enabled cfg); split; reflexivity.
Qed.

Lemma transactions_db_SaveOrder order db :
  transactions (db_SaveOrder order db) = transactions db.
Proof. unfold db_SaveOrder. destruct (existsb _ _); reflexivity. Qed.

(** X8.  A buy order on buff, youpin or steam is executed to completion
    whatever the configuration switches say: the order is stored as
    completed, one unlocked inventory row with the order's owner, item,
    quantity, price and platform is appended, one transaction with the fee
    of 2.5% of the amount and no profit is recorded, and the units bought
    pass the inventory check of a sell creation up to the quantity bought. *)
Theorem X8_buy_execution_credits_inventory cfg now order db :
  knownPlatform (o_Platform order) = true ->
  o_Type order = "buy" ->
  let db' := executeBuyOrder cfg now order db in
  statusOf (o_ID order) db' = Some "completed" /\
  (exists row,
     inventories db' = inventories db ++ [row] /\
     inv_UserID row = o_UserID order /\ inv_ItemID row = o_ItemID order /\
     inv_Quantity row = o_Quantity order /\ inv_BuyPrice row = o_Price order /\
     inv_Platform row = o_Platform order /\
     inv_Locked row = false /\ inv_DeletedAt row = None) /\
  (exists tx,
     transactions db' = transactions db ++ [tx] /\
     tx_OrderID tx = o_ID order /\
     tx_Amount tx = o_Price order * Float64.of_int (o_Quantity order) /\
     tx_Fee tx = tx_Amount tx * Float64.c_0_025 /\
     tx_Profit tx = 0) /\
  (forall quantity, (quantity <= o_Quantity order)%Z ->
     checkInventory (o_UserID order) (o_ItemID order) quantity db' = true).
Proof.
  intros Hknown Hbuy db'. subst db'. unfold executeBuyOrder.
  destruct (platform_outcome cfg order) as [-> _]. rewrite Hknown.
  set (done := with_ExecutedAt (with_Status order "completed") (Some now)).
  split; [|split; [|split]].
  - unfold statusOf. change (o_ID order) with (o_ID done).
    rewrite db_FirstOrder_db_SaveOrder. reflexivity.
  - rewrite inventories_db_SaveOrder, inventories_recordTransaction.
    eexists. split; [reflexivity|]. repeat split.
  - rewrite transactions_db_SaveOrder. unfold recordTransaction. simpl.
    rewrite Hbuy. simpl. eexists. split; [reflexivity|]. repeat split.
  - intros quantity Hq. unfold checkInventory.
    rewrite inventories_db_SaveOrder, inventories_recordTransaction. simpl.
    rewrite List.filter_app, length_app. simpl.
    unfold ownedBy, live. simpl. rewrite !N.eqb_refl. simpl.
    apply Z.leb_le in Hq. rewrite Hq. simpl.
    apply Nat.ltb_lt. lia.
Qed.

Lemma X8_witness :
  let cfg := mkTradingConfig false false in
  let order := mkOrder 1 1 7 "buy" "pending" 50 2 "buff" None "" in
  let db := mkDB [order] [] [] in
  knownPlatform "buff" = true /\
  statusOf 1 (executeBuyOrder cfg 11 order db) = Some "completed" /\
  checkInventory 1 7 2 (executeBuyOrder cfg 11 order db) = true.
Proof.
  split; [reflexivity|].
  destruct (X8_buy_execution_credits_inventory
              (mkTradingConfig false false) 11
              (mkOrder 1 1 7 "buy" "pending" 50 2 "buff" None "")
              (mkDB [mkOrder 1 1 7 "buy" "pending" 50 2 "buff" None ""] [] [])
              eq_refl eq_refl) as (Hstatus & _ & _ & Hcheck).
  split; [exact Hstatus|]. apply Hcheck. simpl. lia.
Defined.

(** X9.  An order on any other platform fails: it is stored as failed
    with the reason "unsupported platform", and no transaction is recorded.
    A failed buy leaves the inventory table as it was; a failed sell keeps
    every row and leaves the visible rows of its owner and item unlocked,
    so that they can be sold again. *)
Theorem X9_unknown_platform_fails cfg now order db :
  knownPlatform (o_Platform order) = false ->
  (db_FirstOrder (o_ID order) (executeBuyOrder cfg now order db)
   = Ok (with_FailedReason (with_Status order "failed") "unsupported platform") /\
   inventories (executeBuyOrder cfg now order db) = inventories db /\
   transactions (executeBuyOrder cfg now order db) = transactions db) /\
  (db_FirstOrder (o_ID order) (executeSellOrder cfg now order db)
   = Ok (with_FailedReason (with_Status order "failed") "unsupported platform") /\
   transactions (executeSellOrder cfg now order db) = transactions db /\
   List.map inv_DeletedAt (inventories (executeSellOrder cfg now order db))
   = List.map inv_DeletedAt (inventories db) /\
   forall i, In i (holdings (o_UserID order) (o_ItemID order)
                            (executeSellOrder cfg now order db)) ->
             inv_Locked i = false).
Proof.
  intros Hunknown. unfold executeBuyOrder, executeSellOrder.
  destruct (platform_outcome cfg order) as [-> ->]. rewrite Hunknown.
  set (failed := with_FailedReason (with_Status order "failed") "unsupported platform").
  split; [split; [|split]|split; [|split; [|split]]].
  - change (o_ID order) with (o_ID failed). apply db_FirstOrder_db_SaveOrder.
  - apply inventories_db_SaveOrder.
  - apply transactions_db_SaveOrder.
  - change (o_ID order) with (o_ID failed). apply db_FirstOrder_db_SaveOrder.
  - rewrite transactions_db_SaveOrder. reflexivity.
  - rewrite inventories_db_SaveOrder. simpl. rewrite List.map_map.
    apply map_ext. intros i. destruct (ownedBy _ _ i); reflexivity.
  - intros i Hi. unfold holdings in Hi. rewrite inventories_db_SaveOrder in Hi.
    apply filter_In in Hi as [Hi Ho].
    exact (setLocked_locked _ _ false db i Hi Ho).
Qed.

Lemma X9_witness :
  let cfg := mkTradingConfig true true in
  let order := mkOrder 1 1 7 "sell" "pending" 80 1 "c5game" None "" in
  let db := mkDB [order] [mkInventory 1 None 1 7 5 50 "steam" 0 true true] [] in
  knownPlatform "c5game" = false /\
  statusOf 1 (executeSellOrder cfg 11 order db) = Some "failed" /\
  List.map inv_Locked (holdings 1 7 (executeSellOrder cfg 11 order db)) = [false].
Proof.
  split; [reflexivity|].
  destruct (X9_unknown_platform_fails
              (mkTradingConfig true true) 11
              (mkOrder 1 1 7 "sell" "pending" 80 1 "c5game" None "")
              (mkDB [mkOrder 1 1 7 "sell" "pending" 80 1 "c5game" None ""]
                    [mkInventory 1 None 1 7 5 50 "steam" 0 true true] [])
              eq_refl) as (_ & Hfirst & _).
  split.
  - unfold statusOf. simpl o_ID in Hfirst. rewrite Hfirst. reflexivity.
  - vm_compute. reflexivity.
Defined.

End ExecutionFacts.

(** ** Strategy lifecycle *)

Section StrategyLifecycle.

Import Trading.
Local Open Scope float_scope.

(** X10.  The strategy calls act on the caller's own visible strategy
    only: when the key names no visible strategy of the caller, for one
    that belongs to another user, [ActivateStrategy] fails with "record not
    found" and starts no runner, and [DeactivateStrategy] and
    [DeleteStrategy] change nothing. *)
Theorem X10_strategy_calls_need_the_owner now strategyID userID strategies :
  (forall s, In s strategies -> strategyOf strategyID userID s = false) ->
  ActivateStrategy strategyID userID strategies = (strategies, Err "record not found") /\
  DeactivateStrategy strategyID userID strategies = strategies /\
  DeleteStrategy now strategyID userID strategies = strategies.
Proof.
  intros Hnone. split; [|split].
  - unfold ActivateStrategy.
    destruct (List.find _ strategies) as [s|] eqn:E; [|reflexivity].
    apply find_some in E as [Hin Hs]. rewrite (Hnone s Hin) in Hs. discriminate.
  - unfold DeactivateStrategy. rewrite <- (map_id strategies) at 2.
    apply map_ext_in. intros s Hin. rewrite (Hnone s Hin). reflexivity.
  - unfold DeleteStrategy. rewrite <- (map_id strategies) at 2.
    apply map_ext_in. intros s Hin. rewrite (Hnone s Hin). reflexivity.
Qed.

Lemma X10_witness :
  let theirs := mkStrategy 4 None 2 "grid" "" "grid" "paused" "{}" 100 1 5 10 "" in
  (forall s, In s [theirs] -> strategyOf 4 1 s = false) /\
  ActivateStrategy 4 1 [theirs] = ([theirs], Err "record not found") /\
  DeactivateStrategy 4 1 [theirs] = [theirs] /\
  DeleteStrategy 20 4 1 [theirs] = [theirs].
Proof.
  assert (H : forall s,
             In s [mkStrategy 4 None 2 "grid" "" "grid" "paused" "{}" 100 1 5 10 ""] ->
             strategyOf 4 1 s = false).
  { intros s [<-|[]]. reflexivity. }
  split; [exact H|].
  exact (X10_strategy_calls_need_the_owner 20 4 1 _ H).
Defined.

(** After [db.Save] of a visible struct, the first visible row under its
    key is the struct. *)
Lemma find_db_SaveStrategy strategy strategies :
  s_live strategy = true ->
  List.find (fun s => s_live s && (s_ID s =? s_ID strategy)%N)
            (db_SaveStrategy strategy strategies) = Some strategy.
Proof.
  intros Hlive. unfold db_SaveStrategy.
  destruct (existsb _ strategies) eqn:E.
  - induction strategies as [|s l IH]; simpl in *; [discriminate|].
    destruct (s_ID s =? s_ID strategy)%N eqn:Es; simpl.
    + rewrite Hlive, N.eqb_refl. reflexivity.
    + rewrite Es, andb_false_r. apply IH. exact E.
  - induction strategies as [|s l IH]; simpl in *.
    + rewrite Hlive, N.eqb_refl. reflexivity.
    + apply orb_false_iff in E as [Es El]. rewrite Es, andb_false_r.
      apply IH. exact El.
Qed.

Lemma db_SaveStrategy_rows strategy strategies :
  (forall s, In s (db_SaveStrategy strategy strategies) ->
             s_ID s = s_ID strategy -> s = strategy) /\
  existsb (fun s => (s_ID s =? s_ID strategy)%N)
          (db_SaveStrategy strategy strategies) = true.
Proof.
  unfold db_SaveStrategy.
  destruct (existsb _ strategies) eqn:E.
  - split.
    + intros s Hs Hid. apply in_map_iff in Hs as (x & Hx & _).
      destruct (N.eqb_spec (s_ID x) (s_ID strategy)) as [Ex|Ex]; congruence.
    + apply existsb_exists in E as (x & Hx & Hid).
      apply existsb_exists. exists strategy. split; [|apply N.eqb_refl].
      apply in_map_iff. exists x. rewrite Hid. split; [reflexivity|exact Hx].
  - split.
    + intros s Hs Hid. apply in_app_or in Hs as [Hs|[Hs|[]]]; [|congruence].
      assert (Hex : existsb (fun x => (s_ID x =? s_ID strategy)%N) strategies = true).
      { apply existsb_exists. exists s. split; [exact Hs|]. apply N.eqb_eq. exact Hid. }
      rewrite Hex in E. discriminate.
    + rewrite existsb_app. simpl. rewrite N.eqb_refl. apply orb_true_r.
Qed.

(** The first row a keyed query finds in a table whose rows under the key
    [k] are all the struct [a], after the rows went through [g]. *)
Lemma find_keyed (p : Strategy -> bool) (k : N) (a : Strategy)
    (g : Strategy -> Strategy) (l : list Strategy) :
  (forall x, p x = true -> s_ID x = k) ->
  (forall x, s_ID (g x) = s_ID x) ->
  (forall x, In x l -> s_ID x = k -> x = a) ->
  List.find p (List.map g l)
  = if existsb (fun x => (s_ID x =? k)%N) l && p (g a) then Some (g a) else None.
Proof.
  intros Hp Hg. induction l as [|x l IH]; intros Hrows; simpl; [reflexivity|].
  destruct (N.eqb_spec (s_ID x) k) as [Ex|Ex]; simpl.
  - rewrite (Hrows x (or_introl eq_refl) Ex).
    destruct (p (g a)) eqn:Ea; [reflexivity|].
    rewrite IH by (intros y Hy; apply Hrows; right; exact Hy).
    rewrite andb_false_r. reflexivity.
  - destruct (p (g x)) eqn:Egx.
    + apply Hp in Egx. rewrite Hg in Egx. contradiction.
    + apply IH. intros y Hy. apply Hrows. right. exact Hy.
Qed.

Lemma ActivateStrategy_struct strategyID userID strategies t1 runner :
  ActivateStrategy strategyID userID strategies = (t1, Ok runner) ->
  t1 = db_SaveStrategy runner strategies /\
  s_live runner = true /\ s_ID runner = strategyID /\ s_UserID runner = userID /\
  s_Status runner = "active".
Proof.
  unfold ActivateStrategy.
  destruct (List.find _ strategies) as [found|] eqn:E; [|discriminate].
  intros [= <- <-]. apply find_some in E as [_ Hs].
  unfold strategyOf in Hs.
  apply andb_true_iff in Hs as [Hs Hu]. apply andb_true_iff in Hs as [Hl Hi].
  apply N.eqb_eq in Hu, Hi. repeat split; assumption.
Qed.

(** X11.  An activation makes the runner it starts pass the test of its
    tick; once the owner has deactivated or deleted the strategy, the test
    of the next tick fails and the runner returns. *)
Theorem X11_runner_follows_the_stored_status
    now strategyID userID strategies t1 runner :
  ActivateStrategy strategyID userID strategies = (t1, Ok runner) ->
  runStrategy_continues runner t1 = true /\
  runStrategy_continues runner (DeactivateStrategy strategyID userID t1) = false /\
  runStrategy_continues runner (DeleteStrategy now strategyID userID t1) = false.
Proof.
  intros Hact.
  apply ActivateStrategy_struct in Hact as (-> & Hlive & Hid & Huser & Hstatus).
  destruct (db_SaveStrategy_rows runner strategies) as [Hrows Hex].
  assert (Hof : strategyOf strategyID userID runner = true).
  { unfold strategyOf. rewrite Hlive, Hid, Huser, !N.eqb_refl. reflexivity. }
  assert (Hkey : forall x, s_live x && (s_ID x =? s_ID runner)%N = true ->
                           s_ID x = s_ID runner).
  { intros x H. apply andb_true_iff in H as [_ H]. apply N.eqb_eq. exact H. }
  unfold runStrategy_continues. split; [|split].
  - rewrite find_db_SaveStrategy by exact Hlive. rewrite Hstatus. reflexivity.
  - unfold DeactivateStrategy.
    rewrite (find_keyed _ (s_ID runner) runner _ _ Hkey); [| |exact Hrows].
    + rewrite Hex, Hof. cbn beta iota.
      change (s_live (s_with_Status runner "paused")) with (s_live runner).
      change (s_ID (s_with_Status runner "paused")) with (s_ID runner).
      rewrite Hlive, N.eqb_refl. reflexivity.
    + intros x. destruct (strategyOf strategyID userID x); reflexivity.
  - unfold DeleteStrategy.
    rewrite (find_keyed _ (s_ID runner) runner _ _ Hkey); [| |exact Hrows].
    + rewrite Hex, Hof. reflexivity.
    + intros x. destruct (strategyOf strategyID userID x); reflexivity.
Qed.

Lemma X11_witness :
  let mine := mkStrategy 4 None 1 "grid" "" "grid" "paused" "{}" 100 1 5 10 "" in
  let running := mkStrategy 4 None 1 "grid" "" "grid" "active" "{}" 100 1 5 10 "" in
  ActivateStrategy 4 1 [mine] = ([running], Ok running) /\
  runStrategy_continues running [running] = true /\
  runStrategy_continues running (DeactivateStrategy 4 1 [running]) = false /\
  runStrategy_continues running (DeleteStrategy 20 4 1 [running]) = false.
Proof.
  split; [reflexivity|].
  apply (X11_runner_follows_the_stored_status
           20 4 1 [mkStrategy 4 None 1 "grid" "" "grid" "paused" "{}" 100 1 5 10 ""]).
  reflexivity.
Defined.


(** The tick of a runner that passes the test is decided by its executor. *)
Lemma runStrategy_tick_continues Unmarshal runner strategies :
  runStrategy_continues runner strategies = true ->
  (s_Type runner <> "grid" \/ executeGridStrategy Unmarshal runner = Some tt ->
   runStrategy_tick Unmarshal runner strategies = TickGoesOn) /\
  (s_Type runner = "grid" -> executeGridStrategy Unmarshal runner = None ->
   runStrategy_tick Unmarshal runner strategies = TickPanics).
Proof.
  intros Hc. unfold runStrategy_tick. rewrite Hc. split.
  - intros [Hne|Hok].
    + destruct (String.eqb_spec (s_Type runner) "grid"); [contradiction|reflexivity].
    + rewrite Hok. destruct (s_Type runner =? "grid")%string; reflexivity.
  - intros -> ->. reflexivity.
Qed.

(** X12.  An activation starts a runner without looking for one that is
    already there.  When the owner deactivates a running strategy and
    activates it again before the earlier runner has ticked, the second
    activation succeeds and starts a second runner with the same type and
    configuration.  When the executor of the strategy returns, which is so
    for every type but grid and for a grid whose configuration decodes to
    numbers under min_price, max_price and grid_count, the next tick of
    the earlier runner and that of the new one both go on: the strategy has
    two runners.  For a grid strategy without these numbers a tick does
    not go on: it passes the test and panics in the executor, after the
    first activation already. *)
Theorem X12_reactivation_leaves_two_runners
    (Unmarshal : string -> gmap string JSON)
    strategyID userID strategies t1 runner1 :
  ActivateStrategy strategyID userID strategies = (t1, Ok runner1) ->
  exists t3 runner2,
    ActivateStrategy strategyID userID (DeactivateStrategy strategyID userID t1)
    = (t3, Ok runner2) /\
    s_Type runner2 = s_Type runner1 /\ s_Config runner2 = s_Config runner1 /\
    (s_Type runner1 <> "grid" \/ executeGridStrategy Unmarshal runner1 = Some tt ->
     runStrategy_tick Unmarshal runner1 t3 = TickGoesOn /\
     runStrategy_tick Unmarshal runner2 t3 = TickGoesOn) /\
    (s_Type runner1 = "grid" -> executeGridStrategy Unmarshal runner1 = None ->
     runStrategy_tick Unmarshal runner1 t1 = TickPanics /\
     runStrategy_tick Unmarshal runner1 t3 = TickPanics /\
     runStrategy_tick Unmarshal runner2 t3 = TickPanics).
Proof.
  intros Hact.
  apply ActivateStrategy_struct in Hact as (-> & Hlive & Hid & Huser & Hstatus).
  destruct (db_SaveStrategy_rows runner1 strategies) as [Hrows Hex].
  assert (Hof : forall status,
             strategyOf strategyID userID (s_with_Status runner1 status) = true).
  { intros status. unfold strategyOf, s_live in *. simpl.
    rewrite Hid, Huser, !N.eqb_refl. destruct (s_DeletedAt runner1); [discriminate|].
    reflexivity. }
  assert (Hkey : forall x, strategyOf strategyID userID x = true ->
                           s_ID x = s_ID runner1).
  { intros x H. unfold strategyOf in H.
    apply andb_true_iff in H as [H _]. apply andb_true_iff in H as [_ H].
    apply N.eqb_eq in H. congruence. }
  assert (Hfirst : runStrategy_continues runner1 (db_SaveStrategy runner1 strategies)
                   = true).
  { unfold runStrategy_continues.
    rewrite find_db_SaveStrategy by exact Hlive. rewrite Hstatus. reflexivity. }
  unfold ActivateStrategy at 1. unfold DeactivateStrategy at 1.
  rewrite (find_keyed _ (s_ID runner1) runner1 _ _ Hkey); [| |exact Hrows].
  2:{ intros x. destruct (strategyOf strategyID userID x); reflexivity. }
  rewrite Hex.
  replace (strategyOf strategyID userID runner1) with true
    by (symmetry; rewrite <- (Hof (s_Status runner1)); destruct runner1; reflexivity).
  rewrite (Hof "paused"). simpl.
  eexists. eexists. split; [reflexivity|].
  assert (Hsame : s_with_Status (s_with_Status runner1 "paused") "active" = runner1).
  { destruct runner1. simpl in *. subst. reflexivity. }
  rewrite Hsame.
  assert (Hthird :
            runStrategy_continues runner1
              (db_SaveStrategy runner1
                 (DeactivateStrategy strategyID userID
                    (db_SaveStrategy runner1 strategies))) = true).
  { unfold runStrategy_continues.
    rewrite find_db_SaveStrategy by exact Hlive. rewrite Hstatus. reflexivity. }
  split; [reflexivity|]. split; [reflexivity|].
  destruct (runStrategy_tick_continues Unmarshal runner1 _ Hfirst) as [_ Hpanic1].
  destruct (runStrategy_tick_continues Unmarshal runner1 _ Hthird) as [Hon Hpanic3].
  split.
  - intros H. split; apply Hon; exact H.
  - intros Hgrid Hbad. split; [apply Hpanic1; assumption|].
    split; apply Hpanic3; assumption.
Qed.

(** An arbitrage strategy, whose executor is empty. *)
Lemma X12_witness :
  let Unmarshal : string -> gmap string JSON := fun _ => ∅ in
  let mine :=
    mkStrategy 4 None 1 "spread" "" "arbitrage" "paused" "{}" 100 1 5 10 "" in
  let running :=
    mkStrategy 4 None 1 "spread" "" "arbitrage" "active" "{}" 100 1 5 10 "" in
  ActivateStrategy 4 1 [mine] = ([running], Ok running) /\
  (s_Type running <> "grid" \/ executeGridStrategy Unmarshal running = Some tt) /\
  exists t3 runner2,
    ActivateStrategy 4 1 (DeactivateStrategy 4 1 [running]) = (t3, Ok runner2) /\
    runStrategy_tick Unmarshal running t3 = TickGoesOn /\
    runStrategy_tick Unmarshal runner2 t3 = TickGoesOn.
Proof.
  assert (Hact :
            ActivateStrategy 4 1
              [mkStrategy 4 None 1 "spread" "" "arbitrage" "paused" "{}" 100 1 5 10 ""]
            = ([mkStrategy 4 None 1 "spread" "" "arbitrage" "active" "{}"
                           100 1 5 10 ""],
               Ok (mkStrategy 4 None 1 "spread" "" "arbitrage" "active" "{}"
                              100 1 5 10 ""))) by reflexivity.
  assert (Hsafe :
            s_Type (mkStrategy 4 None 1 "spread" "" "arbitrage" "active" "{}"
                               100 1 5 10 "") <> "grid" \/
            executeGridStrategy (fun _ => ∅)
              (mkStrategy 4 None 1 "spread" "" "arbitrage" "active" "{}"
                          100 1 5 10 "") = Some tt)
    by (left; discriminate).
  split; [exact Hact|]. split; [exact Hsafe|].
  destruct (X12_reactivation_leaves_two_runners (fun _ => ∅) 4 1 _ _ _ Hact)
    as (t3 & runner2 & Hact2 & _ & _ & Hon & _).
  exists t3, runner2. split; [exact Hact2|]. apply Hon. exact Hsafe.
Defined.





End StrategyLifecycle.

(** ** Automated trader: executing the signals *)

Section TraderFacts.

Import Models TradingService.
Local Open Scope float_scope.

Lemma trade_nextID_above (ids : list N) (x : N) :
  In x ids -> (x < TradingService.nextID ids)%N.
Proof.
  unfold TradingService.nextID. induction ids as [|y ids IH]; simpl; [intros []|].
  intros [->|H]; [lia|]. specialize (IH H). lia.
Qed.

(** Saving a struct over the row just inserted under a fresh key. *)
Lemma db_SaveTrade_last (trades : list Trade) (inserted saved : Trade) :
  tr_ID inserted = TradingService.nextID (List.map tr_ID trades) ->
  tr_ID saved = tr_ID inserted ->
  db_SaveTrade saved (trades ++ [inserted]) = trades ++ [saved].
Proof.
  intros Hfresh Hid. unfold db_SaveTrade.
  rewrite existsb_app. simpl. rewrite Hid, N.eqb_refl, orb_true_r. simpl.
  rewrite List.map_app. simpl. rewrite N.eqb_refl. f_equal.
  rewrite <- (map_id trades) at 2. apply map_ext_in. intros t Ht.
  destruct (N.eqb_spec (tr_ID t) (tr_ID inserted)) as [E|E]; [|reflexivity].
  pose proof (trade_nextID_above _ _ (in_map tr_ID _ _ Ht)) as Hlt.
  rewrite E, Hfresh in Hlt. lia.
Qed.

Lemma executeTrade_appends v now signal strategy trades :
  exists trade,
    fst (executeTrade v now signal strategy trades) = trades ++ [trade] /\
    tr_UserID trade = st_UserID strategy /\
    tr_ItemID trade = ts_ItemID signal /\
    tr_Platform trade = ts_Platform signal /\
    tr_Type trade = ts_Action signal /\
    tr_Price trade = ts_Price signal /\
    tr_Quantity trade = 1%Z /\
    tr_Status trade
    = (match placeTrade v signal with None => "completed" | Some _ => "failed" end).
Proof.
  unfold executeTrade. simpl.
  destruct (placeTrade v signal) as [err|]; simpl;
    (rewrite db_SaveTrade_last; [|reflexivity|reflexivity]);
    eexists; (split; [reflexivity|]); repeat split.
Qed.

Lemma placeTrade_none v signal :
  placeTrade v signal = None ->
  ts_Action signal = "buy" /\
  (ts_Platform signal = "buff" \/ ts_Platform signal = "youpin").
Proof.
  unfold placeTrade.
  destruct (String.eqb_spec (ts_Platform signal) "buff") as [Hb|Hb].
  - destruct (String.eqb_spec (ts_Action signal) "buy"); [|discriminate].
    intros _. split; [assumption|left; assumption].
  - destruct (String.eqb_spec (ts_Platform signal) "youpin") as [Hy|Hy]; [|discriminate].
    destruct (String.eqb_spec (ts_Action signal) "buy"); [|discriminate].
    intros _. split; [assumption|right; assumption].
Qed.

(** The venue accepts the order the signal asks for. *)
Lemma placeTrade_none_iff v signal :
  placeTrade v signal = None <->
  ts_Action signal = "buy" /\
  ((ts_Platform signal = "buff" /\
    buff_BuyItem v (pretty (ts_ItemID signal)) (ts_Price signal) = None) \/
   (ts_Platform signal = "youpin" /\
    youpin_BuyItem v (pretty (ts_ItemID signal)) (ts_Price signal) = None)).
Proof.
  unfold placeTrade.
  destruct (String.eqb_spec (ts_Platform signal) "buff") as [Hb|Hb].
  - destruct (String.eqb_spec (ts_Action signal) "buy") as [Ha|Ha].
    + split.
      * intros H. split; [exact Ha|]. left. split; assumption.
      * intros (_ & [[_ H]|[Hy _]]); [exact H|]. rewrite Hb in Hy. discriminate.
    + split; [discriminate|]. intros (H & _). contradiction.
  - destruct (String.eqb_spec (ts_Platform signal) "youpin") as [Hy|Hy].
    + destruct (String.eqb_spec (ts_Action signal) "buy") as [Ha|Ha].
      * split.
        -- intros H. split; [exact Ha|]. right. split; assumption.
        -- intros (_ & [[Hb' _]|[_ H]]); [contradiction|exact H].
      * split; [discriminate|]. intros (H & _). contradiction.
    + split; [discriminate|]. intros (_ & [[H _]|[H _]]); contradiction.
Qed.

(** X14.  [executeTrade] records exactly one trade for the signal, of
    quantity 1, with the signal's item, platform, action and price and the
    strategy's user, stored as completed when it returns no error and as
    failed when it returns one.  It returns no error exactly for a buy on
    buff or youpin that the venue's [BuyItem], called with the item's key
    and the signal's price, accepted; the error of a venue that refuses is
    the one returned; a sell signal, and any signal on steam or another
    platform, always ends as a failed trade.  A completed trade carries the
    identifier made of the clock reading and its key. *)
Theorem X14_executeTrade_records_one_trade v now signal strategy trades :
  exists trade,
    fst (executeTrade v now signal strategy trades) = trades ++ [trade] /\
    tr_UserID trade = st_UserID strategy /\
    tr_ItemID trade = ts_ItemID signal /\
    tr_Platform trade = ts_Platform signal /\
    tr_Type trade = ts_Action signal /\
    tr_Price trade = ts_Price signal /\
    tr_Quantity trade = 1%Z /\
    (snd (executeTrade v now signal strategy trades) = None ->
     tr_Status trade = "completed" /\ ts_Action signal = "buy" /\
     (ts_Platform signal = "buff" \/ ts_Platform signal = "youpin")) /\
    (snd (executeTrade v now signal strategy trades) <> None ->
     tr_Status trade = "failed" /\ tr_TradeID trade = "") /\
    (ts_Action signal <> "buy" \/
     (ts_Platform signal <> "buff" /\ ts_Platform signal <> "youpin") ->
     snd (executeTrade v now signal strategy trades) <> None) /\
    (snd (executeTrade v now signal strategy trades) = None <->
     ts_Action signal = "buy" /\
     ((ts_Platform signal = "buff" /\
       buff_BuyItem v (pretty (ts_ItemID signal)) (ts_Price signal) = None) \/
      (ts_Platform signal = "youpin" /\
       youpin_BuyItem v (pretty (ts_ItemID signal)) (ts_Price signal) = None))) /\
    (ts_Action signal = "buy" -> ts_Platform signal = "buff" ->
     snd (executeTrade v now signal strategy trades)
     = buff_BuyItem v (pretty (ts_ItemID signal)) (ts_Price signal)) /\
    (ts_Action signal = "buy" -> ts_Platform signal = "youpin" ->
     snd (executeTrade v now signal strategy trades)
     = youpin_BuyItem v (pretty (ts_ItemID signal)) (ts_Price signal)) /\
    (snd (executeTrade v now signal strategy trades) = None ->
     tr_TradeID trade
     = "trade_" +:+ pretty now +:+ "_" +:+ pretty (tr_ID trade)).
Proof.
  assert (Herr : snd (executeTrade v now signal strategy trades) = placeTrade v signal)
    by reflexivity.
  rewrite Herr.
  destruct (executeTrade_appends v now signal strategy trades)
    as (trade & Hfst & Hu & Hi & Hp & Ht & Hpr & Hq & Hs).
  exists trade. repeat (split; [assumption|]).
  assert (Hid : tr_TradeID trade
                = match placeTrade v signal with
                  | None => "trade_" +:+ pretty now +:+ "_" +:+ pretty (tr_ID trade)
                  | Some _ => ""
                  end).
  { revert Hfst. unfold executeTrade. simpl.
    destruct (placeTrade v signal); simpl;
      (rewrite db_SaveTrade_last; [|reflexivity|reflexivity]);
      intros Heq; apply app_inj_tail in Heq as [_ <-]; reflexivity. }
  assert (Hbuff : ts_Action signal = "buy" -> ts_Platform signal = "buff" ->
                  placeTrade v signal
                  = buff_BuyItem v (pretty (ts_ItemID signal)) (ts_Price signal)).
  { intros Ha Hb. unfold placeTrade. rewrite Ha, Hb. reflexivity. }
  assert (Hyoupin : ts_Action signal = "buy" -> ts_Platform signal = "youpin" ->
                    placeTrade v signal
                    = youpin_BuyItem v (pretty (ts_ItemID signal)) (ts_Price signal)).
  { intros Ha Hy. unfold placeTrade. rewrite Ha, Hy. reflexivity. }
  pose proof (placeTrade_none_iff v signal) as Hiff.
  destruct (placeTrade v signal) as [err|] eqn:E.
  - split; [discriminate|]. split; [intros _; split; assumption|].
    split; [intros _; discriminate|].
    split; [exact Hiff|]. split; [exact Hbuff|]. split; [exact Hyoupin|discriminate].
  - destruct (placeTrade_none v signal E) as [Ha Hpl].
    split; [intros _; repeat split; assumption|].
    split; [intros Hn; destruct Hn; reflexivity|].
    split; [intros [Hn|[Hb Hy]] _; [contradiction|destruct Hpl; contradiction]|].
    split; [exact Hiff|]. split; [exact Hbuff|]. split; [exact Hyoupin|].
    intros _. exact Hid.
Qed.

Lemma analyzePrices_length prices strategy :
  (length (analyzePrices prices strategy) <= 2)%nat.
Proof.
  unfold analyzePrices.
  destruct (_ && _); [|simpl; lia].
  rewrite length_app.
  destruct (_ <=? _); destruct (Float64.geb _ _); simpl; lia.
Qed.

(** The trades a run over the signals adds: one per signal, in their
    order. *)
Lemma executeTrades_append v now strategy (signals : list TradeSignal) :
  forall trades,
  exists added,
    fold_left (fun trades signal => fst (executeTrade v now signal strategy trades))
              signals trades = trades ++ added /\
    Forall2 (fun t signal =>
               tr_UserID t = st_UserID strategy /\
               tr_ItemID t = ts_ItemID signal /\
               tr_Platform t = ts_Platform signal /\
               tr_Type t = ts_Action signal /\
               tr_Price t = ts_Price signal /\
               tr_Quantity t = 1%Z /\
               tr_Status t
               = (match placeTrade v signal with
                  | None => "completed"
                  | Some _ => "failed"
                  end))
            added signals.
Proof.
  induction signals as [|signal signals IH]; intros trades.
  - exists []. simpl. rewrite app_nil_r. split; [reflexivity|constructor].
  - cbn [fold_left].
    destruct (executeTrade_appends v now signal strategy trades)
      as (trade & -> & H).
    destruct (IH (trades ++ [trade])) as (added & -> & Hall).
    exists (trade :: added). rewrite <- app_assoc. simpl.
    split; [reflexivity|]. constructor; [exact H|exact Hall].
Qed.

(** X15.  [ExecuteStrategy] refuses a strategy that is missing or not
    active and then records no trade.  For an active strategy it returns
    no error even when trades fail, and records exactly one trade per
    signal that [analyzePrices] draws from the prices of the strategy's
    item on the three venues, in the order of the signals, at most two:
    each for the strategy's user, with the signal's item, platform, action
    and price and of quantity 1, and completed exactly when the signal is a
    buy on buff or youpin that the venue accepted, failed otherwise; so no
    sell is ever completed. *)
Theorem X15_ExecuteStrategy_records_the_signals
    v range now strategyID strategies items trades :
  let result := ExecuteStrategy v range now strategyID strategies items trades in
  (snd result = None <->
   exists strategy,
     List.find (fun s => (st_ID s =? strategyID)%N) strategies = Some strategy /\
     st_IsActive strategy = true) /\
  (snd result <> None -> fst result = trades) /\
  (exists added,
     fst result = trades ++ added /\ (length added <= 2)%nat /\
     Forall (fun t =>
               tr_Quantity t = 1%Z /\
               (tr_Status t = "completed" \/ tr_Status t = "failed") /\
               (tr_Status t = "completed" ->
                tr_Type t = "buy" /\
                (tr_Platform t = "buff" \/ tr_Platform t = "youpin")))
            added) /\
  (forall strategy,
     List.find (fun s => (st_ID s =? strategyID)%N) strategies = Some strategy ->
     st_IsActive strategy = true ->
     let marketName :=
       match List.find (fun it => (it_ID it =? st_ItemID strategy)%N) items with
       | Some item => it_MarketName item
       | None => ""
       end in
     let signals := analyzePrices (range (GetItemPrices v marketName)) strategy in
     exists added,
       fst result = trades ++ added /\
       Forall2 (fun t signal =>
                  tr_UserID t = st_UserID strategy /\
                  tr_ItemID t = ts_ItemID signal /\
                  tr_Platform t = ts_Platform signal /\
                  tr_Type t = ts_Action signal /\
                  tr_Price t = ts_Price signal /\
                  tr_Quantity t = 1%Z /\
                  (tr_Status t = "completed" \/ tr_Status t = "failed") /\
                  (tr_Status t = "completed" <->
                   ts_Action signal = "buy" /\
                   ((ts_Platform signal = "buff" /\
                     buff_BuyItem v (pretty (ts_ItemID signal)) (ts_Price signal)
                     = None) \/
                    (ts_Platform signal = "youpin" /\
                     youpin_BuyItem v (pretty (ts_ItemID signal)) (ts_Price signal)
                     = None))))
               added signals).
Proof.
  intros result. subst result. unfold ExecuteStrategy.
  destruct (List.find _ strategies) as [strategy|] eqn:Hfind; cbn [fst snd].
  2:{ split; [|split; [|split]].
      - split; [discriminate|intros (s & Hs & _); discriminate].
      - reflexivity.
      - exists []. rewrite app_nil_r. repeat split; [simpl; lia|constructor].
      - intros s Hs. discriminate. }
  destruct (st_IsActive strategy) eqn:Hactive; cbn [negb fst snd].
  - set (signals := analyzePrices _ strategy).
    destruct (executeTrades_append v now strategy signals trades)
      as (added & Hrun & Hall).
    assert (Hstatus : forall signal,
               (match placeTrade v signal with
                | None => "completed"
                | Some _ => "failed"
                end = "completed") <-> placeTrade v signal = None).
    { intros signal. destruct (placeTrade v signal); split; congruence. }
    split; [|split; [|split]].
    + split; [intros _; exists strategy; split; [reflexivity|exact Hactive]|reflexivity].
    + intros Hn. destruct Hn. reflexivity.
    + exists added. split; [exact Hrun|]. split.
      * rewrite (Forall2_length _ _ _ Hall). apply analyzePrices_length.
      * clear Hrun. induction Hall as [|t signal added' signals' H _ IH];
          constructor; [|exact IH].
        destruct H as (_ & _ & Hp & Ht & _ & Hq & Hs).
        split; [exact Hq|]. rewrite Hs, Ht, Hp.
        destruct (placeTrade v signal) eqn:E.
        -- split; [right; reflexivity|discriminate].
        -- split; [left; reflexivity|]. intros _. apply (placeTrade_none v signal E).
    + intros s [= <-] _. cbn zeta. fold signals.
      exists added. split; [exact Hrun|].
      clear Hrun. induction Hall as [|t signal added' signals' H _ IH];
        constructor; [|exact IH].
      destruct H as (Hu & Hi & Hp & Ht & Hpr & Hq & Hs).
      repeat (split; [assumption|]). rewrite Hs. split.
      * destruct (placeTrade v signal); [right|left]; reflexivity.
      * rewrite Hstatus. apply placeTrade_none_iff.
  - split; [|split; [|split]].
    + split; [discriminate|].
      intros (s & [= <-] & Hs). rewrite Hs in Hactive. discriminate.
    + reflexivity.
    + exists []. rewrite app_nil_r. repeat split; [simpl; lia|constructor].
    + intros s [= <-] Hs. rewrite Hs in Hactive. discriminate.
Qed.

End TraderFacts.

(** ** Price store: latest prices, trend, collection *)

Section PriceStoreFacts.

Import Models PriceService.
Local Open Scope float_scope.

(** The map built by the loop from [m0]: an entry is an entry of [m0] or a
    row put under its platform, and every row leaves an entry under its
    platform. *)
Lemma byPlatform_fold (rows : list Price) : forall m0 : gmap string Price,
  let m := fold_left (fun result price => <[p_Platform price := price]> result) rows m0 in
  (forall k r, m !! k = Some r ->
               m0 !! k = Some r \/ (In r rows /\ p_Platform r = k)) /\
  (forall k, is_Some (m0 !! k) -> is_Some (m !! k)) /\
  (forall r, In r rows -> is_Some (m !! p_Platform r)).
Proof.
  induction rows as [|row rows IH]; intros m0; simpl.
  - split; [intros k r H; left; exact H|]. split; [intros k H; exact H|intros r []].
  - destruct (IH (<[p_Platform row := row]> m0)) as (Hget & Hkeep & Hput).
    split; [|split].
    + intros k r H. apply Hget in H as [H|[H1 H2]].
      * destruct (decide (p_Platform row = k)) as [E|E].
        -- subst k. rewrite lookup_insert_eq in H. injection H as <-.
           right. split; [left|]; reflexivity.
        -- rewrite lookup_insert_ne in H by exact E. left. exact H.
      * right. split; [right|]; assumption.
    + intros k H. apply Hkeep.
      destruct (decide (p_Platform row = k)) as [E|E].
      * subst k. rewrite lookup_insert_eq. eexists. reflexivity.
      * rewrite lookup_insert_ne by exact E. exact H.
    + intros r [<-|H]; [|apply Hput; exact H].
      apply Hkeep. rewrite lookup_insert_eq. eexists. reflexivity.
Qed.

(** A list of rows that is not empty has a row of greatest timestamp. *)
Lemma greatest_timestamp (l : list Price) :
  l <> [] ->
  exists q, In q l /\ forall r, In r l -> (p_Timestamp r <= p_Timestamp q)%Z.
Proof.
  induction l as [|x l IH]; [intros H; destruct H; reflexivity|intros _].
  destruct l as [|y l].
  - exists x. split; [left; reflexivity|]. intros r [<-|[]]. lia.
  - destruct IH as (q & Hq & Hmax); [discriminate|].
    destruct (Z.le_gt_cases (p_Timestamp x) (p_Timestamp q)) as [Hle|Hgt].
    + exists q. split; [right; exact Hq|].
      intros r [<-|Hr]; [exact Hle|apply Hmax; exact Hr].
    + exists x. split; [left; reflexivity|].
      intros r [<-|Hr]; [lia|]. specialize (Hmax r Hr). lia.
Qed.

Lemma latestOfPlatform_spec itemID prices q :
  latestOfPlatform itemID prices q = true <->
  p_ItemID q = itemID /\
  forall r, In r prices -> p_ItemID r = itemID -> p_Platform r = p_Platform q ->
            (p_Timestamp r <= p_Timestamp q)%Z.
Proof.
  unfold latestOfPlatform. rewrite andb_true_iff, N.eqb_eq, forallb_forall.
  split; intros [Hi Hall]; split; try exact Hi.
  - intros r Hr Hri Hrp. specialize (Hall r Hr).
    rewrite Hri, Hrp, N.eqb_refl, String.eqb_refl in Hall. simpl in Hall.
    apply Z.leb_le. exact Hall.
  - intros r Hr.
    destruct (N.eqb_spec (p_ItemID r) itemID) as [Hri|]; [|reflexivity].
    destruct (String.eqb_spec (p_Platform r) (p_Platform q)) as [Hrp|]; [|reflexivity].
    simpl. apply Z.leb_le. apply Hall; assumption.
Qed.

Lemma platform_has_latest itemID prices r :
  In r prices -> p_ItemID r = itemID ->
  exists q, In q prices /\ latestOfPlatform itemID prices q = true /\
            p_Platform q = p_Platform r.
Proof.
  intros Hr Hi.
  set (group := List.filter (fun x => (p_ItemID x =? itemID)%N
                                      && (p_Platform x =? p_Platform r)%string) prices).
  assert (Hin : In r group).
  { apply filter_In. split; [exact Hr|].
    rewrite Hi, N.eqb_refl, String.eqb_refl. reflexivity. }
  destruct (greatest_timestamp group) as (q & Hq & Hmax).
  { intros E. rewrite E in Hin. destruct Hin. }
  apply filter_In in Hq as [Hq Hg]. apply andb_true_iff in Hg as [Hqi Hqp].
  apply N.eqb_eq in Hqi. apply String.eqb_eq in Hqp.
  exists q. split; [exact Hq|]. split; [|exact Hqp].
  apply latestOfPlatform_spec. split; [exact Hqi|].
  intros x Hx Hxi Hxp. apply Hmax. apply filter_In. split; [exact Hx|].
  rewrite Hxi, Hxp, Hqp, N.eqb_refl, String.eqb_refl. reflexivity.
Qed.

Lemma in_latestRows itemID prices r :
  In r (latestRows itemID prices) <->
  In r prices /\ p_ItemID r = itemID /\
  exists q, In q prices /\ latestOfPlatform itemID prices q = true /\
            p_Timestamp q = p_Timestamp r.
Proof.
  unfold latestRows, inLatestTimestamps.
  rewrite filter_In, andb_true_iff, N.eqb_eq, existsb_exists.
  split.
  - intros (Hr & Hi & q & Hq & Hl). apply andb_true_iff in Hl as [Hl Ht].
    apply Z.eqb_eq in Ht. split; [exact Hr|]. split; [exact Hi|].
    exists q. repeat split; assumption.
  - intros (Hr & Hi & q & Hq & Hl & Ht). split; [exact Hr|]. split; [exact Hi|].
    exists q. split; [exact Hq|]. rewrite Hl. simpl. apply Z.eqb_eq. exact Ht.
Qed.

(** X16.  [GetLatestPrices], in whatever order the database returns the
    rows: the map has an entry for exactly the platforms that have a price
    of the item; each entry is a stored price of the item on that platform
    whose timestamp is the latest timestamp of some platform of the item;
    and it is the latest price of its own platform when no two platforms
    share a timestamp for the item. *)
Theorem X16_GetLatestPrices_entries itemID prices (rows : list Price) :
  rows ≡ₚ latestRows itemID prices ->
  let m := byPlatform rows in
  (forall platform,
     is_Some (m !! platform) <->
     exists r, In r prices /\ p_ItemID r = itemID /\ p_Platform r = platform) /\
  (forall platform r,
     m !! platform = Some r ->
     In r prices /\ p_ItemID r = itemID /\ p_Platform r = platform /\
     exists q, In q prices /\ latestOfPlatform itemID prices q = true /\
               p_Timestamp q = p_Timestamp r) /\
  ((forall a b, In a prices -> In b prices ->
                p_ItemID a = itemID -> p_ItemID b = itemID ->
                p_Timestamp a = p_Timestamp b -> p_Platform a = p_Platform b) ->
   forall platform r, m !! platform = Some r ->
                      latestOfPlatform itemID prices r = true).
Proof.
  intros Hperm m.
  assert (Hrows : forall r, In r rows <-> In r (latestRows itemID prices)).
  { intros r. rewrite <- !list_elem_of_In, Hperm. reflexivity. }
  destruct (byPlatform_fold rows ∅) as (Hget & _ & Hput). fold (byPlatform rows) in *.
  fold m in Hget, Hput.
  assert (Hentry : forall platform r, m !! platform = Some r ->
                     In r prices /\ p_ItemID r = itemID /\ p_Platform r = platform /\
                     exists q, In q prices /\ latestOfPlatform itemID prices q = true /\
                               p_Timestamp q = p_Timestamp r).
  { intros platform r H. apply Hget in H as [H|[Hr Hp]].
    - rewrite lookup_empty in H. discriminate.
    - apply Hrows, in_latestRows in Hr as (Hr & Hi & Hq).
      repeat split; assumption. }
  split; [|split].
  - intros platform. split.
    + intros [r Hr]. apply Hentry in Hr as (Hr & Hi & Hp & _).
      exists r. repeat split; assumption.
    + intros (r & Hr & Hi & <-).
      destruct (platform_has_latest itemID prices r Hr Hi) as (q & Hq & Hl & Hp).
      rewrite <- Hp. apply Hput. apply Hrows, in_latestRows.
      split; [exact Hq|]. split; [apply latestOfPlatform_spec in Hl; tauto|].
      exists q. repeat split; assumption.
  - exact Hentry.
  - intros Hdistinct platform r H.
    apply Hentry in H as (Hr & Hi & _ & q & Hq & Hl & Ht).
    apply latestOfPlatform_spec in Hl as [Hqi Hmax].
    assert (Hp : p_Platform q = p_Platform r)
      by (apply Hdistinct; assumption).
    apply latestOfPlatform_spec. split; [exact Hi|].
    intros x Hx Hxi Hxp. rewrite <- Ht. apply Hmax; [assumption|assumption|].
    congruence.
Qed.

Lemma X16_witness :
  let prices := [mkPrice 1 7 "buff" 10 3 "CNY" 100;
                 mkPrice 2 7 "buff" 11 3 "CNY" 200;
                 mkPrice 3 7 "steam" 12 5 "USD" 150;
                 mkPrice 4 8 "steam" 40 5 "USD" 300] in
  latestRows 7 prices ≡ₚ latestRows 7 prices /\
  GetLatestPrices 7 prices !! "buff" = Some (mkPrice 2 7 "buff" 11 3 "CNY" 200) /\
  latestOfPlatform 7 prices (mkPrice 2 7 "buff" 11 3 "CNY" 200) = true.
Proof.
  split; [reflexivity|]. split; [vm_compute; reflexivity|].
  destruct (X16_GetLatestPrices_entries 7
              [mkPrice 1 7 "buff" 10 3 "CNY" 100;
               mkPrice 2 7 "buff" 11 3 "CNY" 200;
               mkPrice 3 7 "steam" 12 5 "USD" 150;
               mkPrice 4 8 "steam" 40 5 "USD" 300]
              _ (Permutation_refl _)) as (_ & _ & Hlatest).
  apply (Hlatest) with (platform := "buff"); [|vm_compute; reflexivity].
  intros a b Ha Hb Hia Hib Ht. simpl in Ha, Hb.
  destruct Ha as [<-|[<-|[<-|[<-|[]]]]]; destruct Hb as [<-|[<-|[<-|[<-|[]]]]];
    try reflexivity; try discriminate.
Defined.

Lemma nth_last_snoc (first : Price) (middle : list Price) (last : Price) :
  nth (length (first :: middle ++ [last]) - 1) (first :: middle ++ [last]) zeroPrice = last.
Proof.
  change (first :: middle ++ [last]) with ((first :: middle) ++ [last]).
  rewrite length_app. simpl length.
  replace (S (length middle) + 1 - 1)%nat with (length (first :: middle) + 0)%nat
    by (simpl; lia).
  rewrite app_nth2_plus. reflexivity.
Qed.

(** X17.  [CalculateTrend] yields nothing for a history of fewer than two
    prices and stores no trend then; otherwise the trend it stores and
    returns is that of the first and the last price of the history alone:
    the prices between them have no influence. *)
Theorem X17_CalculateTrend_reads_the_endpoints
    now itemID platform (prices : list Price) first middle last trends :
  ((length prices < 2)%nat ->
   CalculateTrend now itemID platform prices trends = (trends, None)) /\
  CalculateTrend now itemID platform (first :: middle ++ [last]) trends
  = CalculateTrend now itemID platform [first; last] trends /\
  exists trend,
    CalculateTrend now itemID platform (first :: middle ++ [last]) trends
    = (trends ++ [trend], Some trend) /\
    mt_PriceChange trend = (p_Price last - p_Price first) / p_Price first * 100 /\
    (mt_TrendDirection trend = "up" \/ mt_TrendDirection trend = "down"
     \/ mt_TrendDirection trend = "stable").
Proof.
  split; [|split].
  - intros H. unfold CalculateTrend. apply Nat.ltb_lt in H. rewrite H. reflexivity.
  - unfold CalculateTrend.
    replace (length (first :: middle ++ [last]) <? 2)%nat with false
      by (symmetry; apply Nat.ltb_ge; simpl; rewrite length_app; simpl; lia).
    rewrite nth_last_snoc. reflexivity.
  - unfold CalculateTrend.
    replace (length (first :: middle ++ [last]) <? 2)%nat with false
      by (symmetry; apply Nat.ltb_ge; simpl; rewrite length_app; simpl; lia).
    rewrite nth_last_snoc. cbn [nth].
    destruct (Float64.gtb _ 5); [|destruct (_ <? -5)];
      (eexists; split; [reflexivity|]; split; [reflexivity|]; simpl; tauto).
Qed.

Lemma SavePrice_cases price prices :
  fst (SavePrice price prices) = prices \/
  exists row, fst (SavePrice price prices) = prices ++ [row] /\
              p_ItemID row = p_ItemID price /\ p_Platform row = p_Platform price /\
              p_Price row = p_Price price /\ p_Timestamp row = p_Timestamp price.
Proof.
  unfold SavePrice, db_Create.
  destruct (p_ID price =? 0)%N; [|destruct (existsb _ prices)]; simpl;
    [right|left; reflexivity|right]; eexists; (split; [reflexivity|]); repeat split.
Qed.

Lemma collectFrom_appends service item prices :
  exists added,
    collectFrom service item prices = prices ++ added /\
    (length added <= 1)%nat /\
    Forall (fun row => p_ItemID row = it_ID item) added.
Proof.
  unfold collectFrom.
  destruct service as [getPrice|];
    [destruct (getPrice (it_MarketName item)) as [price|]|].
  - destruct (SavePrice_cases (with_ItemID price (it_ID item)) prices)
      as [->|(row & -> & Hi & _)].
    + exists []. rewrite app_nil_r. repeat split; [simpl; lia|constructor].
    + exists [row]. repeat split; [simpl; lia|]. constructor; [exact Hi|constructor].
  - exists []. rewrite app_nil_r. repeat split; [simpl; lia|constructor].
  - exists []. rewrite app_nil_r. repeat split; [simpl; lia|constructor].
Qed.

(** A block whose service answers with a price that carries no key adds
    exactly that price, under the item's key. *)
Lemma collectFrom_answers service item prices :
  (forall price, In price (answerOf service item) -> p_ID price = 0%N) ->
  exists added,
    collectFrom service item prices = prices ++ added /\
    Forall2 (fun row price =>
               p_ID row = PriceService.nextID (List.map p_ID prices) /\
               p_ItemID row = it_ID item /\
               p_Platform row = p_Platform price /\
               p_Price row = p_Price price /\
               p_Volume row = p_Volume price /\
               p_Timestamp row = p_Timestamp price)
            added (answerOf service item).
Proof.
  unfold collectFrom, answerOf.
  destruct service as [getPrice|];
    [destruct (getPrice (it_MarketName item)) as [price|]|]; intros Hkey.
  - unfold SavePrice, db_Create. simpl.
    rewrite (Hkey price (or_introl eq_refl)). simpl.
    eexists. split; [reflexivity|].
    constructor; [|constructor]. repeat split.
  - exists []. rewrite app_nil_r. split; [reflexivity|constructor].
  - exists []. rewrite app_nil_r. split; [reflexivity|constructor].
Qed.

(** X18.  Collecting the prices of an item only appends to the history:
    the rows that were there stay as they were and in place, at most three
    rows are added, and every added row carries the item's key, whatever
    item the service put in its answer.  When the answers carry no key of
    their own, as the services build them, exactly one row is added per
    service that is set and answers, in the order steam, buff, youpin, with
    the platform, price, volume and timestamp of the answer. *)
Theorem X18_collectItemPrices_appends c item prices :
  exists added,
    collectItemPrices c item prices = prices ++ added /\
    (length added <= 3)%nat /\
    Forall (fun row => p_ItemID row = it_ID item) added /\
    ((forall price, In price (answers c item) -> p_ID price = 0%N) ->
     Forall2 (fun row price =>
                p_ItemID row = it_ID item /\
                p_Platform row = p_Platform price /\
                p_Price row = p_Price price /\
                p_Volume row = p_Volume price /\
                p_Timestamp row = p_Timestamp price)
             added (answers c item)).
Proof.
  unfold collectItemPrices.
  destruct (collectFrom_appends (steamService c) item prices) as (a1 & E1 & H1 & F1).
  destruct (collectFrom_appends (buffService c) item (prices ++ a1)) as (a2 & E2 & H2 & F2).
  destruct (collectFrom_appends (youpinService c) item ((prices ++ a1) ++ a2))
    as (a3 & E3 & H3 & F3).
  exists (a1 ++ a2 ++ a3). rewrite E1, E2, E3, <- !app_assoc.
  split; [reflexivity|]. split; [rewrite !length_app; lia|]. split.
  - apply Forall_app. split; [exact F1|]. apply Forall_app. split; assumption.
  - intros Hkey. unfold answers in *.
    assert (Hweaken : forall rows ps table,
               Forall2 (fun row price =>
                          p_ID row = PriceService.nextID (List.map p_ID table) /\
                          p_ItemID row = it_ID item /\
                          p_Platform row = p_Platform price /\
                          p_Price row = p_Price price /\
                          p_Volume row = p_Volume price /\
                          p_Timestamp row = p_Timestamp price) rows ps ->
               Forall2 (fun row price =>
                          p_ItemID row = it_ID item /\
                          p_Platform row = p_Platform price /\
                          p_Price row = p_Price price /\
                          p_Volume row = p_Volume price /\
                          p_Timestamp row = p_Timestamp price) rows ps).
    { intros rows ps table H. induction H as [|r q rs qs (_ & Hr) _ IH];
        constructor; assumption. }
    destruct (collectFrom_answers (steamService c) item prices) as (b1 & G1 & A1).
    { intros q Hq. apply Hkey. apply in_or_app. left. exact Hq. }
    destruct (collectFrom_answers (buffService c) item (prices ++ a1)) as (b2 & G2 & A2).
    { intros q Hq. apply Hkey. apply in_or_app. right. apply in_or_app. left. exact Hq. }
    destruct (collectFrom_answers (youpinService c) item ((prices ++ a1) ++ a2))
      as (b3 & G3 & A3).
    { intros q Hq. apply Hkey. apply in_or_app. right. apply in_or_app. right. exact Hq. }
    rewrite E1 in G1. apply app_inv_head in G1. subst b1.
    rewrite E2 in G2. apply app_inv_head in G2. subst b2.
    rewrite E3 in G3. apply app_inv_head in G3. subst b3.
    apply Forall2_app; [|apply Forall2_app]; eapply Hweaken; eassumption.
Qed.

End PriceStoreFacts.

(** ** Middleware *)

Section ApiFacts.

Import Api.

Lemma serve_other maxRequests requests ip other :
  other <> ip ->
  fst (rateLimit maxRequests requests other) !! ip = requests !! ip.
Proof.
  intros Hne. unfold rateLimit.
  destruct (requests !! other) as [count|]; [destruct (maxRequests <=? count)%Z|];
    simpl; try reflexivity; apply lookup_insert_ne; exact Hne.
Qed.

(** The requests of [ip] that pass, from a map in which its count is
    [requests !! ip]. *)
Lemma passedFor_from maxRequests ip (ips : list string) :
  forall requests : gmap string Z,
  Z.of_nat (passedFor ip (serve maxRequests requests ips))
  = match requests !! ip with
    | None => Z.min (Z.of_nat (requestsFrom ip ips)) (Z.max 1 maxRequests)
    | Some count =>
        Z.min (Z.of_nat (requestsFrom ip ips)) (Z.max 0 (maxRequests - count))
    end.
Proof.
  induction ips as [|i ips IH]; intros requests.
  - unfold passedFor, requestsFrom. simpl. destruct (requests !! ip); lia.
  - cbn [serve].
    destruct (rateLimit maxRequests requests i) as [requests' passed] eqn:Hstep.
    unfold passedFor, requestsFrom in *. cbn [List.filter].
    destruct (String.eqb_spec i ip) as [->|Hne].
    + specialize (IH requests'). revert Hstep. unfold rateLimit.
      destruct (requests !! ip) as [count|] eqn:Hc.
      * destruct (Z.leb_spec maxRequests count); intros [= <- <-]; simpl.
        -- rewrite IH, Hc. simpl length. lia.
        -- simpl length. rewrite Nat2Z.inj_succ, IH, lookup_insert_eq. lia.
      * intros [= <- <-]. simpl. simpl length.
        rewrite !Nat2Z.inj_succ, IH, lookup_insert_eq. lia.
    + simpl. rewrite IH.
      replace requests' with (fst (rateLimit maxRequests requests i))
        by (rewrite Hstep; reflexivity).
      rewrite serve_other by exact Hne. reflexivity.
Qed.

(** A handler that runs alone makes its lookup and its write in a row. *)
Lemma runLimiters_alone maxRequests requests ip :
  runLimiters maxRequests [0; 0]%nat requests [AtLookup ip]
  = (fst (rateLimit maxRequests requests ip),
     [Finished (snd (rateLimit maxRequests requests ip))]).
Proof.
  unfold runLimiters, rateLimit. simpl.
  destruct (requests !! ip) as [count|] eqn:E; simpl.
  - destruct (maxRequests <=? count)%Z; simpl; [reflexivity|].
    rewrite E. reflexivity.
  - reflexivity.
Qed.

(** X19.  When the requests are handled one after the other, from the
    empty map the limiter starts with and whatever the other addresses do,
    the number of requests of an address that pass is the number it sent,
    capped at [maxRequests], and at 1 when [maxRequests] is below 1: the
    first request of an address always passes, and the count is never
    reset.  The lookup and the write of a handler are two statements on a
    map without a lock, though: when two requests of an address are served
    at the same time and both handlers look the count up before either
    writes, both pass if the count is below the cap, also when it is one
    below, and two first requests are counted as one. *)
Theorem X19_rate_limit_passes_up_to_the_cap
    maxRequests ip (ips : list string) (requests : gmap string Z) :
  Z.of_nat (passedFor ip (serve maxRequests ∅ ips))
  = Z.min (Z.of_nat (requestsFrom ip ips)) (Z.max 1 maxRequests) /\
  runLimiters maxRequests [0; 0]%nat requests [AtLookup ip]
  = (fst (rateLimit maxRequests requests ip),
     [Finished (snd (rateLimit maxRequests requests ip))]) /\
  (forall schedule,
     In schedule [[0; 1; 0; 1]; [0; 1; 1; 0]; [1; 0; 0; 1]; [1; 0; 1; 0]]%nat ->
     (forall count,
        requests !! ip = Some count -> (count < maxRequests)%Z ->
        runLimiters maxRequests schedule requests [AtLookup ip; AtLookup ip]
        = (<[ip := (count + 2)%Z]> requests, [Finished true; Finished true])) /\
     (requests !! ip = None ->
      runLimiters maxRequests schedule requests [AtLookup ip; AtLookup ip]
      = (<[ip := 1%Z]> requests, [Finished true; Finished true]))).
Proof.
  split; [rewrite passedFor_from, lookup_empty; reflexivity|].
  split; [apply runLimiters_alone|].
  intros schedule Hin. simpl in Hin. split.
  - intros count Hcount Hlt. apply Z.leb_gt in Hlt.
    destruct Hin as [<-|[<-|[<-|[<-|[]]]]];
      unfold runLimiters; cbn;
      repeat (first [rewrite Hcount|rewrite Hlt|rewrite lookup_insert_eq]; cbn);
      rewrite insert_insert_eq;
      replace (count + 1 + 1)%Z with (count + 2)%Z by lia; reflexivity.
  - intros Hnone.
    destruct Hin as [<-|[<-|[<-|[<-|[]]]]];
      unfold runLimiters; cbn; repeat (rewrite Hnone; cbn);
      rewrite insert_insert_eq; reflexivity.
Qed.

(** A cap of 3 and an address that has used 2: served one after the
    other, the second of two further requests is refused; served together,
    both pass. *)
Lemma X19_witness :
  let requests : gmap string Z := {[ "10.0.0.1" := 2%Z ]} in
  In [0; 1; 0; 1]%nat
     [[0; 1; 0; 1]; [0; 1; 1; 0]; [1; 0; 0; 1]; [1; 0; 1; 0]]%nat /\
  requests !! "10.0.0.1" = Some 2%Z /\ (2 < 3)%Z /\
  passedFor "10.0.0.1" (serve 3 requests ["10.0.0.1"; "10.0.0.1"]) = 1%nat /\
  runLimiters 3 [0; 1; 0; 1]%nat requests
              [AtLookup "10.0.0.1"; AtLookup "10.0.0.1"]
  = (<["10.0.0.1" := 4%Z]> requests, [Finished true; Finished true]).
Proof.
  assert (Hin : In [0; 1; 0; 1]%nat
                   [[0; 1; 0; 1]; [0; 1; 1; 0]; [1; 0; 0; 1]; [1; 0; 1; 0]]%nat)
    by (left; reflexivity).
  split; [exact Hin|]. split; [reflexivity|]. split; [reflexivity|].
  split; [reflexivity|].
  destruct (X19_rate_limit_passes_up_to_the_cap
              3 "10.0.0.1" [] {[ "10.0.0.1" := 2%Z ]}) as (_ & _ & Hrace).
  destruct (Hrace _ Hin) as [Hboth _].
  apply (Hboth 2%Z); reflexivity.
Defined.

Lemma split_nonempty sep s : split sep s <> [].
Proof.
  destruct s as [|c rest]; simpl; [discriminate|].
  destruct (Ascii.eqb c sep); [discriminate|].
  destruct (split sep rest); discriminate.
Qed.

Lemma split_noSpace s : noSpace s = true -> split " "%char s = [s].
Proof.
  induction s as [|c rest IH]; simpl; [reflexivity|].
  intros H. apply andb_true_iff in H as [Hc Hrest].
  apply negb_true_iff in Hc. rewrite Hc, (IH Hrest). reflexivity.
Qed.

Lemma split_one s part : split " "%char s = [part] -> s = part /\ noSpace part = true.
Proof.
  revert part. induction s as [|c rest IH]; simpl; intros part.
  - intros [= <-]. split; reflexivity.
  - destruct (Ascii.eqb c " "%char) eqn:Ec.
    + intros [= _ H]. destruct (split_nonempty " "%char rest H).
    + destruct (split " "%char rest) as [|p ps] eqn:Es; [destruct (split_nonempty _ _ Es)|].
      intros [= <- ->]. destruct (IH p eq_refl) as [-> Hp].
      split; [reflexivity|]. simpl. rewrite Ec, Hp. reflexivity.
Qed.

Lemma split_two s a b :
  split " "%char s = [a; b] ->
  s = (a +:+ " " +:+ b)%string /\ noSpace a = true /\ noSpace b = true.
Proof.
  revert a. induction s as [|c rest IH]; simpl; intros a.
  - discriminate.
  - destruct (Ascii.eqb_spec c " "%char) as [->|Hc].
    + intros [= <- H]. apply split_one in H as [-> Hb].
      split; [reflexivity|]. split; [reflexivity|exact Hb].
    + destruct (split " "%char rest) as [|p ps] eqn:Es; [discriminate|].
      intros [= <- ->]. destruct (IH p eq_refl) as (-> & Hp & Hb).
      split; [reflexivity|]. split; [|exact Hb].
      simpl. rewrite Hp. apply Ascii.eqb_neq in Hc. rewrite Hc. reflexivity.
Qed.

Lemma split_prefix a b :
  noSpace a = true ->
  split " "%char (a +:+ " " +:+ b) = a :: split " "%char b.
Proof.
  induction a as [|c a IH]; simpl; [reflexivity|].
  intros H. apply andb_true_iff in H as [Hc Ha].
  apply negb_true_iff in Hc. rewrite Hc.
  change (split " "%char (a +:+ String " " b)) with (split " "%char (a +:+ " " +:+ b)).
  rewrite (IH Ha). reflexivity.
Qed.

(** X20.  [AuthMiddleware] lets a request through exactly when its
    Authorization header is the word Bearer, one space, and a token without
    a space that [ValidateJWT] accepts; the request then carries the ids of
    the token's claims.  Every other header is answered with 401. *)
Theorem X20_AuthMiddleware_accepts_bearer_tokens ValidateJWT authHeader user_id steam_id :
  AuthMiddleware ValidateJWT authHeader = Authenticated user_id steam_id <->
  exists token,
    authHeader = ("Bearer " +:+ token)%string /\ noSpace token = true /\
    ValidateJWT token = Some (mkJWTClaims user_id steam_id).
Proof.
  unfold AuthMiddleware. split.
  - destruct (authHeader =? "")%string; [discriminate|].
    destruct (split " "%char authHeader) as [|a [|b [|c parts]]] eqn:Es; simpl;
      try discriminate.
    destruct (String.eqb_spec a "Bearer") as [->|]; simpl; [|discriminate].
    destruct (ValidateJWT b) as [[u s]|] eqn:Ev; [|discriminate].
    intros [= <- <-]. apply split_two in Es as (-> & _ & Hb).
    exists b. repeat split; assumption.
  - intros (token & -> & Hns & Hv).
    change (("Bearer " +:+ token =? "")%string) with false. cbv iota.
    assert (Hs : split " "%char ("Bearer " +:+ token) = ["Bearer"; token]).
    { change ("Bearer " +:+ token)%string with ("Bearer" +:+ " " +:+ token)%string.
      rewrite split_prefix by reflexivity.
      rewrite (split_noSpace token Hns). reflexivity. }
    rewrite Hs. simpl. rewrite Hv. reflexivity.
Qed.

Lemma X20_witness :
  let validate := fun token : string =>
    if (token =? "abc.def.ghi")%string then Some (mkJWTClaims 42 "76561198000000000")
    else None in
  AuthMiddleware validate "Bearer abc.def.ghi" = Authenticated 42 "76561198000000000" /\
  AuthMiddleware validate "Bearer abc.def.ghi " = Unauthorized "invalid authorization header format" /\
  AuthMiddleware validate "bearer abc.def.ghi" = Unauthorized "invalid authorization header format".
Proof.
  split; [|split; reflexivity].
  apply (X20_AuthMiddleware_accepts_bearer_tokens
           (fun token : string =>
              if (token =? "abc.def.ghi")%string
              then Some (mkJWTClaims 42 "76561198000000000") else None)).
  exists "abc.def.ghi". repeat split.
Defined.

End ApiFacts.

(** ** Broadcast hub: the loop *)

Section HubLoop.

Import Websocket.

Lemma broadcast_keeps_open message (order : list N) (h : Hub) :
  registered_open h -> order ≡ₚ elements (clients h) ->
  exists h', broadcast message order h = Some h' /\ registered_open h' /\
             dom (send h) ⊆ dom (send h').
Proof.
  intros Hopen Hperm.
  assert (Hin : forall client, client ∈ order <-> client ∈ clients h).
  { intros client. rewrite Hperm. apply elem_of_elements. }
  destruct (broadcast_visits message order h) as (h' & Hrun & Hvisited & Hframe).
  { rewrite Hperm. apply NoDup_elements. }
  { intros client Hc. apply Hin in Hc. split; [exact Hc|]. apply Hopen, Hc. }
  exists h'. split; [exact Hrun|]. split.
  - intros client Hc'.
    destruct (decide (client ∈ clients h)) as [Hc|Hc].
    + destruct (Hopen client Hc) as (ch & Hch & Hop).
      destruct (Hvisited client ch) as [Hs Hcl]; [apply Hin; exact Hc|exact Hch|].
      exists (afterSelect message ch). split; [exact Hs|].
      apply Hcl, Nat.ltb_lt in Hc'. unfold afterSelect. rewrite Hc'. reflexivity.
    + destruct (Hframe client) as [_ Hcl]; [rewrite Hin; exact Hc|].
      apply Hcl in Hc'. contradiction.
  - intros client Hd. apply elem_of_dom in Hd as [ch Hch]. apply elem_of_dom.
    destruct (decide (client ∈ order)) as [Hc|Hc].
    + destruct (Hvisited client ch Hc Hch) as [Hs _]. eexists. exact Hs.
    + destruct (Hframe client Hc) as [Hs _]. rewrite Hs. eexists. exact Hch.
Qed.

Lemma registered_open_receive client (h : Hub) :
  registered_open h -> registered_open (receive client h).
Proof.
  intros Hopen. unfold receive.
  destruct (send h !! client) as [ch|] eqn:Hch; [|exact Hopen].
  destruct (buffer ch) as [|m rest]; [exact Hopen|].
  intros other Hother. simpl in *.
  destruct (decide (other = client)) as [->|Hne].
  - rewrite lookup_insert_eq. eexists. split; [reflexivity|]. simpl.
    destruct (Hopen client Hother) as (ch' & Hch' & Hop). congruence.
  - rewrite lookup_insert_ne by congruence. apply Hopen, Hother.
Qed.

(** X21.  The goroutine of the hub never panics: from a hub whose
    registered clients have open channels, as the new hub is, every
    sequence of connections, unregistrations, broadcasts and receives of
    the write pumps runs to its end, in whatever order the client map is
    ranged over, and leaves the registered clients with open channels.  The
    hub closes no channel twice and sends on no closed channel, also when a
    client that a broadcast dropped unregisters afterwards. *)
Theorem X21_hub_loop_never_panics
    (range : gset N -> list N) (events : list HubEvent) (h : Hub) :
  (forall s, range s ≡ₚ elements s) ->
  registered_open h ->
  exists h', Run range events h = Some h' /\ registered_open h'.
Proof.
  intros Hrange. revert h. unfold Run.
  induction events as [|e events IH]; intros h Hopen.
  - exists h. split; [reflexivity|exact Hopen].
  - cbn [fold_left]. cbn [mbind option_bind].
    assert (Hstep : exists h1, handleEvent range e h = Some h1 /\ registered_open h1).
    { destruct e as [|client|message|client]; simpl.
      - eexists. split; [reflexivity|]. apply registered_open_connect. exact Hopen.
      - apply registered_open_unregister. exact Hopen.
      - destruct (broadcast_keeps_open message (range (clients h)) h Hopen (Hrange _))
          as (h1 & Hrun & Hopen1 & _).
        exists h1. split; assumption.
      - eexists. split; [reflexivity|]. apply registered_open_receive. exact Hopen. }
    destruct Hstep as (h1 & -> & Hopen1). apply IH. exact Hopen1.
Qed.

Lemma X21_witness :
  let range := fun s : gset N => elements s in
  (forall s : gset N, range s ≡ₚ elements s) /\
  registered_open (mkHub ∅ ∅) /\
  exists h',
    Run range [HubConnect; HubBroadcast "tick"; HubReceive 0; HubUnregister 0;
               HubUnregister 0; HubBroadcast "tock"] (mkHub ∅ ∅) = Some h' /\
    registered_open h'.
Proof.
  split; [intros s; reflexivity|]. split; [exact registered_open_NewHub|].
  apply (X21_hub_loop_never_panics (fun s : gset N => elements s)).
  - intros s. reflexivity.
  - exact registered_open_NewHub.
Defined.

(** X22.  Two publishes in a row: a client whose buffer has room for both
    messages holds them in the order they were published and stays
    registered; a client whose buffer was full at the first publish is
    dropped by it, and the second publish neither reaches its channel nor
    closes it again. *)
Theorem X22_two_publishes_keep_order
    (h h1 : Hub) (first second : Message) (order1 order2 : list N) :
  registered_open h ->
  order1 ≡ₚ elements (clients h) ->
  broadcast first order1 h = Some h1 ->
  order2 ≡ₚ elements (clients h1) ->
  exists h2,
    broadcast second order2 h1 = Some h2 /\
    forall client ch,
      client ∈ clients h -> send h !! client = Some ch ->
      ((length (buffer ch) + 2 <= capacity ch)%nat ->
       client ∈ clients h2 /\
       send h2 !! client
       = Some (mkChan (buffer ch ++ [first; second]) (capacity ch) false)) /\
      ((capacity ch <= length (buffer ch))%nat ->
       (client ∉ clients h2) /\
       send h2 !! client = Some (mkChan (buffer ch) (capacity ch) true)).
Proof.
  intros Hopen Hperm1 Hrun1 Hperm2.
  assert (Hin1 : forall client, client ∈ order1 <-> client ∈ clients h).
  { intros client. rewrite Hperm1. apply elem_of_elements. }
  assert (Hin2 : forall client, client ∈ order2 <-> client ∈ clients h1).
  { intros client. rewrite Hperm2. apply elem_of_elements. }
  destruct (broadcast_visits first order1 h) as (h1' & Hrun1' & Hvisited1 & Hframe1).
  { rewrite Hperm1. apply NoDup_elements. }
  { intros client Hc. apply Hin1 in Hc. split; [exact Hc|]. apply Hopen, Hc. }
  rewrite Hrun1 in Hrun1'. injection Hrun1' as <-.
  destruct (broadcast_keeps_open first order1 h Hopen Hperm1) as (h1'' & Hrun1'' & Hopen1 & _).
  rewrite Hrun1 in Hrun1''. injection Hrun1'' as <-.
  destruct (broadcast_visits second order2 h1) as (h2 & Hrun2 & Hvisited2 & Hframe2).
  { rewrite Hperm2. apply NoDup_elements. }
  { intros client Hc. apply Hin2 in Hc. split; [exact Hc|]. apply Hopen1, Hc. }
  exists h2. split; [exact Hrun2|].
  intros client ch Hc Hch.
  destruct (Hvisited1 client ch) as [Hs1 Hcl1]; [apply Hin1; exact Hc|exact Hch|].
  unfold afterSelect in Hs1. split; intros Hroom.
  - assert (Hb : (length (buffer ch) <? capacity ch)%nat = true)
      by (apply Nat.ltb_lt; lia).
    rewrite Hb in Hs1.
    assert (Hc1 : client ∈ clients h1) by (apply Hcl1; lia).
    destruct (Hvisited2 client _ (proj2 (Hin2 client) Hc1) Hs1) as [Hs2 Hcl2].
    unfold afterSelect in Hs2. simpl in Hs2, Hcl2.
    rewrite length_app in Hs2, Hcl2. simpl in Hs2, Hcl2.
    assert (Hb2 : (length (buffer ch) + 1 <? capacity ch)%nat = true)
      by (apply Nat.ltb_lt; lia).
    rewrite Hb2 in Hs2. rewrite <- app_assoc in Hs2. simpl in Hs2.
    split; [apply Hcl2; lia|exact Hs2].
  - assert (Hb : (length (buffer ch) <? capacity ch)%nat = false)
      by (apply Nat.ltb_ge; exact Hroom).
    rewrite Hb in Hs1.
    assert (Hc1 : client ∉ clients h1) by (rewrite Hcl1; lia).
    destruct (Hframe2 client) as [Hs2 Hcl2]; [rewrite Hin2; exact Hc1|].
    split; [rewrite Hcl2; exact Hc1|]. rewrite Hs2. exact Hs1.
Qed.

Lemma X22_witness :
  let h := mkHub {[2%N; 1%N]}
                 {[ 1%N := mkChan ["tick"] 3 false;
                    2%N := mkChan ["tick"] 1 false ]} in
  let h1 := mkHub {[1%N]}
                  {[ 1%N := mkChan ["tick"; "tock"] 3 false;
                     2%N := mkChan ["tick"] 1 true ]} in
  broadcast "tock" [2%N; 1%N] h = Some h1 /\
  exists h2,
    broadcast "tack" [1%N] h1 = Some h2 /\
    send h2 !! 1%N = Some (mkChan ["tick"; "tock"; "tack"] 3 false) /\
    send h2 !! 2%N = Some (mkChan ["tick"] 1 true).
Proof.
  assert (Hopen : registered_open
                    (mkHub {[2%N; 1%N]}
                           {[ 1%N := mkChan ["tick"] 3 false;
                              2%N := mkChan ["tick"] 1 false ]})).
  { intros client Hc. simpl in Hc.
    apply elem_of_union in Hc as [Hc|Hc]; apply elem_of_singleton in Hc; subst client;
      eexists; (split; [reflexivity|reflexivity]). }
  assert (Hrun : broadcast "tock" [2%N; 1%N]
                   (mkHub {[2%N; 1%N]}
                          {[ 1%N := mkChan ["tick"] 3 false;
                             2%N := mkChan ["tick"] 1 false ]})
                 = Some (mkHub {[1%N]}
                               {[ 1%N := mkChan ["tick"; "tock"] 3 false;
                                  2%N := mkChan ["tick"] 1 true ]})).
  { vm_compute. reflexivity. }
  split; [exact Hrun|].
  assert (Hperm1 : [2%N; 1%N] ≡ₚ elements ({[2%N; 1%N]} : gset N))
    by (vm_compute; reflexivity).
  assert (Hperm2 : [1%N] ≡ₚ elements ({[1%N]} : gset N))
    by (vm_compute; reflexivity).
  destruct (X22_two_publishes_keep_order _ _ "tock" "tack" [2%N; 1%N] [1%N]
              Hopen Hperm1 Hrun Hperm2) as (h2 & Hrun2 & Hboth).
  exists h2. split; [exact Hrun2|]. split.
  - apply (Hboth 1%N (mkChan ["tick"] 3 false)); [vm_compute; reflexivity|reflexivity|simpl; lia].
  - apply (Hboth 2%N (mkChan ["tick"] 1 false)); [vm_compute; reflexivity|reflexivity|simpl; lia].
Defined.

End HubLoop.
